(** * browser-ext: entry discovery, manifest processing and hot reload

    A shallow embedding of the build-toolchain core of the repository:
    - entry discovery, [src/packages/core/src/plugins/entries.ts];
    - manifest processing, the plugin [browser-ext:manifest] of the core
      package ([src/unnamed/part_005]);
    - the timestamp-polling client that the plugin
      [browser-ext:hot-reload] injects ([src/unnamed/part_004]);
    - the socket notifier and the shutdown handler of the [dev] script of
      the scripts package (in [src/packages/scripts/src/scripts/build.ts],
      after the [build] script);
    - the [transform] hook of the plugin [browser-ext:hot-reload]
      ([src/unnamed/part_004]);
    - the name of the archive of the [zip] script (in
      [src/packages/scripts/src/scripts/build.ts], after the [dev] script);
    - the configuration: [mergeConfig] and [createViteConfig]
      ([src/packages/core/src/config/vite.ts]) and [defineConfig]
      ([src/unnamed/part_003]);
    - the [zip] command of the command line
      ([src/packages/core/src/cli/index.ts]).

    Conventions of the embedding.
    - A JavaScript string is a sequence of code units; the model keeps the
      code units below 256, one [ascii] each ([string] of the standard
      library).  Every string operation the code uses (anchored regular
      expressions over ASCII letters, [includes], [startsWith], replacement
      of the first occurrence) compares code units only.
    - A parsed JSON document is a [json] tree.  An object is a finite map
      from keys to values ([gmap string json]): insertion order of keys is
      not observable by any function modelled here.  Numbers are integers
      ([Z]); the code only tests them for being zero and prints them.
    - An [EntryMap] is a finite map from names to paths
      ([gmap string string]).  An assignment to the key [__proto__], which
      a plain object does not store, is outside the model.
    - A thrown exception is the [Throw] result of the [result] monad. *)

From Stdlib Require Import ZArith Ascii String List Bool Lia.
From Stdlib Require Import DecimalString.
From stdpp Require Import base option list gmap strings fin_maps.

Set Warnings "-register-all,-clear-no-such-hyp".

Local Open Scope string_scope.
Local Open Scope Z_scope.

(** ** Exceptions *)

Inductive error : Type :=
| TypeError                   (* property of null, call of a non-function *)
| SyntaxError                 (* [readJSONSync] on a file that is not JSON *)
| JsError (message : string). (* [throw new Error(message)] *)

Inductive result (A : Type) : Type :=
| Ok (a : A)
| Throw (e : error).

Arguments Ok {A} a.
Arguments Throw {A} e.

#[global] Instance result_ret : MRet result := fun A a => Ok a.
#[global] Instance result_bind : MBind result := fun A B k r =>
  match r with
  | Ok a => k a
  | Throw e => Throw e
  end.

(** [Array.prototype.map] with a callback that may throw: the first
    exception, in index order, aborts the traversal. *)
Fixpoint map_result {A B : Type} (f : A -> result B) (l : list A) : result (list B) :=
  match l with
  | [] => Ok []
  | a :: l' => b ← f a; bs ← map_result f l'; Ok (b :: bs)
  end.

(** ** JSON values *)

Inductive json : Type :=
| JNull
| JBool (b : bool)
| JNum (n : Z)
| JStr (s : string)
| JArr (items : list json)
| JObj (fields : gmap string json).

(** The value of an expression: [None] is [undefined]. *)
Definition jsval : Type := option json.

(** JavaScript truthiness ([ToBoolean]). *)
Definition truthy (v : jsval) : bool :=
  match v with
  | None => false
  | Some JNull => false
  | Some (JBool b) => b
  | Some (JNum n) => negb (n =? 0)
  | Some (JStr s) => negb (String.eqb s "")
  | Some (JArr _) => true
  | Some (JObj _) => true
  end.

(** ** Strings: the operations of [String.prototype] the code calls *)

Module Str.

(** [stripPrefix p s] is the rest of [s] after its prefix [p], if any. *)
Fixpoint stripPrefix (p s : string) : option string :=
  match p, s with
  | EmptyString, _ => Some s
  | String a p', String b s' =>
      if Ascii.eqb a b then stripPrefix p' s' else None
  | String _ _, EmptyString => None
  end.

(** [s.startsWith(p)] *)
Definition startsWith (s p : string) : bool :=
  match stripPrefix p s with Some _ => true | None => false end.

(** [s.endsWith(suffix)] *)
Fixpoint endsWith (s suffix : string) : bool :=
  if String.eqb s suffix then true
  else match s with
       | EmptyString => false
       | String _ s' => endsWith s' suffix
       end.

(** [s.includes(sub)] *)
Fixpoint includes (s sub : string) : bool :=
  if startsWith s sub then true
  else match s with
       | EmptyString => false
       | String _ s' => includes s' sub
       end.

(** [s.replace(pat, repl)] for a string pattern [pat]: the first
    occurrence only.  [repl] is taken literally; the replacement strings
    of the code contain no [$]. *)
Fixpoint replaceFirst (pat repl s : string) : string :=
  match stripPrefix pat s with
  | Some rest => repl ++ rest
  | None => match s with
            | EmptyString => EmptyString
            | String c s' => String c (replaceFirst pat repl s')
            end
  end.

(** [s.replace(/\\/g, '/')] *)
Fixpoint normalizeSeparators (s : string) : string :=
  match s with
  | EmptyString => EmptyString
  | String c s' =>
      String (if Ascii.eqb c "\"%char then "/"%char else c) (normalizeSeparators s')
  end.

(** [s.split(sep)] for a one-character separator. *)
Fixpoint split (sep : ascii) (s : string) : list string :=
  match s with
  | EmptyString => [EmptyString]
  | String c s' =>
      if Ascii.eqb c sep then EmptyString :: split sep s'
      else match split sep s' with
           | [] => [String c EmptyString]
           | h :: t => String c h :: t
           end
  end.

(** [l.join(sep)] *)
Definition join (sep : string) (l : list string) : string := String.concat sep l.

(** The regular expression [/\.(jsx?|tsx?)$/] matched against a whole
    remaining input: the four strings it accepts at a position from
    which the match must reach the end of the input. *)
Definition isScriptExt (s : string) : bool :=
  String.eqb s ".js" || String.eqb s ".jsx" || String.eqb s ".ts" || String.eqb s ".tsx".

(** [/\.(jsx?|tsx?)$/.test(s)]: some position matches. *)
Fixpoint testScriptExt (s : string) : bool :=
  if isScriptExt s then true
  else match s with
       | EmptyString => false
       | String _ s' => testScriptExt s'
       end.

(** [s.replace(/\.(jsx?|tsx?)$/, repl)]: the leftmost match is replaced;
    without a match the string is returned as it is. *)
Fixpoint replaceScriptExt (repl s : string) : string :=
  if isScriptExt s then repl
  else match s with
       | EmptyString => EmptyString
       | String c s' => String c (replaceScriptExt repl s')
       end.

End Str.

(** ** Property access and conversions on JSON values *)

(** [v.key], for the keys the code reads (none of them is a built-in
    property of strings, arrays, numbers or booleans): reading a property
    of [null] or [undefined] throws, an object answers with its field, and
    every other value answers [undefined]. *)
Definition getProp (v : jsval) (key : string) : result jsval :=
  match v with
  | None | Some JNull => Throw TypeError
  | Some (JObj fields) => Ok (fields !! key)
  | Some _ => Ok None
  end.

(** [v?.key]: as [getProp], with [undefined] instead of the exception. *)
Definition getPropOpt (v : jsval) (key : string) : jsval :=
  match v with
  | Some (JObj fields) => fields !! key
  | _ => None
  end.

(** The decimal text of an integer, as [Number.prototype.toString] prints
    the integers below 10^21 in absolute value. *)
Definition numberToString (n : Z) : string := NilZero.string_of_int (Z.to_int n).

(** [String(v)] ([ToString]): an array prints its elements separated by
    commas, [null] elements as the empty text. *)
Fixpoint toString (v : json) : string :=
  match v with
  | JNull => "null"
  | JBool true => "true"
  | JBool false => "false"
  | JNum n => numberToString n
  | JStr s => s
  | JArr items =>
      Str.join ","
        (List.map (fun x => match x with JNull => EmptyString | _ => toString x end) items)
  | JObj _ => "[object Object]"
  end.

(** The key of index [i] in an array-like object. *)
Definition indexKey (i : nat) : string := numberToString (Z.of_nat i).

(** [{ ...v }]: the own enumerable properties of [v] in a fresh object. *)
Definition spread (v : json) : gmap string json :=
  match v with
  | JObj fields => fields
  | JArr items => list_to_map (imap (fun i x => (indexKey i, x)) items)
  | JStr s =>
      list_to_map
        (imap (fun i c => (indexKey i, JStr (String c EmptyString))) (list_ascii_of_string s))
  | JNull | JBool _ | JNum _ => ∅
  end.

(** [v.map(f)]: only an array has the method. *)
Definition mapArray (f : json -> result json) (v : json) : result json :=
  match v with
  | JArr items => items' ← map_result f items; Ok (JArr items')
  | _ => Throw TypeError
  end.

(** ** The project directory as the build sees it *)

(** What [fs.readJSONSync] finds in an existing file. *)
Inductive file : Type :=
| NotJson
| Json (content : json).

(** An HTML file found by the glob, with the [src] attributes of its
    [script[src]] elements in document order. *)
Record HtmlFile : Type := {
  htmlFile : string;
  scriptSrcs : list string;
}.

Record FileSystem : Type := {
  cwd : string;                    (* [process.cwd()], absolute and normalized *)
  manifestJson : option file;      (* [paths.manifestJson], [None] if missing *)
  packageJson : option file;       (* [paths.packageJson], [None] if missing *)
  htmlFiles : list HtmlFile;       (* [glob.sync('**/*.html', ...)] *)
}.

Definition readJSONSync (f : option file) : result json :=
  match f with
  | Some (Json content) => Ok content
  | Some NotJson => Throw SyntaxError
  | None => Throw (JsError "ENOENT")
  end.

Definition existsSync (f : option file) : bool :=
  match f with Some _ => true | None => false end.

(** ** Manifest processing ([src/unnamed/part_005]) *)

Module Manifest.

(** [replaceFileExtension(filePath)]: [filePath.replace(/\.(jsx?|tsx?)$/, '.js')];
    only a string has the method. *)
Definition replaceFileExtension (filePath : json) : result json :=
  match filePath with
  | JStr s => Ok (JStr (Str.replaceScriptExt ".js" s))
  | _ => Throw TypeError
  end.

(** [if (!manifest[key] && packageJson[key]) manifest[key] = packageJson[key]] *)
Definition backfill (key : string) (pkg : json) (manifest : gmap string json)
  : result (gmap string json) :=
  if truthy (manifest !! key) then Ok manifest
  else
    v ← getProp (Some pkg) key;
    match v with
    | Some x => if truthy v then Ok (<[key := x]> manifest) else Ok manifest
    | None => Ok manifest
    end.

(** The [background.service_worker] step. *)
Definition rewriteServiceWorker (manifest : gmap string json)
  : result (gmap string json) :=
  match manifest !! "background" with
  | Some (JObj background) =>
      match background !! "service_worker" with
      | Some sw =>
          if truthy (Some sw) then
            sw' ← replaceFileExtension sw;
            Ok (<["background" := JObj (<["service_worker" := sw']> background)]> manifest)
          else Ok manifest
      | None => Ok manifest
      end
  | _ => Ok manifest
  end.

(** [if (obj[key]) obj[key] = obj[key].map(f)] on one element of an
    array; reading the property of a [null] element throws. *)
Definition rewriteList (key : string) (f : json -> result json) (element : json)
  : result json :=
  v ← getProp (Some element) key;
  match element, v with
  | JObj fields, Some l =>
      if truthy v then
        l' ← mapArray f l;
        Ok (JObj (<[key := l']> fields))
      else Ok element
  | _, _ => Ok element
  end.

(** The callback of [manifest.content_scripts.map]. *)
Definition rewriteContentScript (contentScript : json) : result json :=
  contentScript ← rewriteList "js" replaceFileExtension contentScript;
  rewriteList "css" replaceFileExtension contentScript.

(** The callback of [resource.resources.map]: the test converts its
    argument to a string first. *)
Definition rewriteResourcePath (res : json) : result json :=
  if Str.testScriptExt (toString res) then replaceFileExtension res else Ok res.

(** The callback of [manifest.web_accessible_resources.map]. *)
Definition rewriteResource (resource : json) : result json :=
  rewriteList "resources" rewriteResourcePath resource.

(** [if (manifest[key]) manifest[key] = manifest[key].map(f)] *)
Definition rewriteArrayField (key : string) (f : json -> result json)
    (manifest : gmap string json) : result (gmap string json) :=
  match manifest !! key with
  | Some l =>
      if truthy (Some l) then
        l' ← mapArray f l;
        Ok (<[key := l']> manifest)
      else Ok manifest
  | None => Ok manifest
  end.

(** One round of [actionKeys.forEach]: the popup of [manifest[key]]. *)
Definition rewritePopup (key : string) (manifest : gmap string json)
  : result (gmap string json) :=
  match manifest !! key with
  | Some (JObj action) =>
      match action !! "default_popup" with
      | Some popup =>
          if truthy (Some popup) then
            match popup with
            | JStr s =>
                Ok (<[key := JObj (<["default_popup" :=
                                        JStr (Str.replaceScriptExt ".html" s)]> action)]>
                      manifest)
            | _ => Throw TypeError
            end
          else Ok manifest
      | None => Ok manifest
      end
  | _ => Ok manifest
  end.

Definition actionKeys : list string := ["action"; "browser_action"; "page_action"].

(** [paths.packageJson] as [processManifest] reads it. *)
Definition readPackageJson (fs : FileSystem) : result json :=
  if existsSync (packageJson fs) then readJSONSync (packageJson fs) else Ok (JObj ∅).

(** [processManifest(manifestContent, isDevelopment)]; [now] is the value
    [Date.now()] returns during the call. *)
Definition processManifest (fs : FileSystem) (now : Z)
    (manifestContent : json) (isDevelopment : bool) : result json :=
  let manifest := spread manifestContent in
  pkg ← readPackageJson fs;
  manifest ← backfill "name" pkg manifest;
  manifest ← backfill "version" pkg manifest;
  manifest ← backfill "description" pkg manifest;
  manifest ← rewriteServiceWorker manifest;
  manifest ← rewriteArrayField "content_scripts" rewriteContentScript manifest;
  manifest ← rewriteArrayField "web_accessible_resources" rewriteResource manifest;
  manifest ← foldl (fun acc key => m ← acc; rewritePopup key m) (Ok manifest) actionKeys;
  let manifest :=
    if isDevelopment then <["__dev_timestamp" := JNum now]> manifest else manifest in
  Ok (JObj manifest).

(** The rewriting statements of [processManifest] in their order, each
    with the one key of the manifest it reads and assigns. *)
Definition manifestSteps (pkg : json)
  : list (string * (gmap string json -> result (gmap string json))) :=
  [ ("name", backfill "name" pkg);
    ("version", backfill "version" pkg);
    ("description", backfill "description" pkg);
    ("background", rewriteServiceWorker);
    ("content_scripts", rewriteArrayField "content_scripts" rewriteContentScript);
    ("web_accessible_resources",
      rewriteArrayField "web_accessible_resources" rewriteResource);
    ("action", rewritePopup "action");
    ("browser_action", rewritePopup "browser_action");
    ("page_action", rewritePopup "page_action") ].

(** Statements run one after the other; the first exception ends the run. *)
Fixpoint runSteps (steps : list (gmap string json -> result (gmap string json)))
    (manifest : gmap string json) : result (gmap string json) :=
  match steps with
  | [] => Ok manifest
  | s :: rest => manifest' ← s manifest; runSteps rest manifest'
  end.

(** The plugin object of [browserExtManifestPlugin]: its two variables
    and what it has emitted. *)
Record Plugin : Type := {
  manifestContent : jsval;
  isDevelopment : bool;
  emitted : list (string * json);
}.

Definition initial : Plugin :=
  {| manifestContent := None; isDevelopment := false; emitted := [] |}.

(** [configResolved(config)] *)
Definition configResolved (mode : string) (p : Plugin) : Plugin :=
  {| manifestContent := manifestContent p;
     isDevelopment := String.eqb mode "development";
     emitted := emitted p |}.

(** [buildStart()] *)
Definition buildStart (fs : FileSystem) (now : Z) (p : Plugin) : result Plugin :=
  if negb (existsSync (manifestJson fs)) then
    Throw (JsError "No manifest.json found in project root")
  else
    rawManifest ← readJSONSync (manifestJson fs);
    processed ← processManifest fs now rawManifest (isDevelopment p);
    Ok {| manifestContent := Some processed;
          isDevelopment := isDevelopment p;
          emitted := emitted p |}.

(** [generateBundle()]: the file is emitted with the processed manifest
    as its source. *)
Definition generateBundle (p : Plugin) : result Plugin :=
  if truthy (manifestContent p) then
    match manifestContent p with
    | Some m =>
        Ok {| manifestContent := manifestContent p;
              isDevelopment := isDevelopment p;
              emitted := emitted p ++ [("manifest.json", m)] |}
    | None => Throw (JsError "Manifest content not loaded")
    end
  else Throw (JsError "Manifest content not loaded").

End Manifest.

(** ** Paths ([node:path], POSIX flavour)

    The functions of the Node library the code calls, on the segments
    between slashes. *)

Module Path.

Definition isDots (seg : string) : bool := String.eqb seg "..".

(** [normalizeString]: empty segments and [.] are dropped, [..] removes
    the segment before it; at the start [..] is kept when
    [allowAboveRoot] and dropped otherwise.  [acc] holds the segments
    kept so far, last one first. *)
Fixpoint normalizeSegments (allowAboveRoot : bool) (acc segs : list string)
  : list string :=
  match segs with
  | [] => rev acc
  | seg :: rest =>
      if String.eqb seg "" || String.eqb seg "." then
        normalizeSegments allowAboveRoot acc rest
      else if isDots seg then
        match acc with
        | top :: acc' =>
            if isDots top then
              normalizeSegments allowAboveRoot
                (if allowAboveRoot then seg :: acc else acc) rest
            else normalizeSegments allowAboveRoot acc' rest
        | [] =>
            normalizeSegments allowAboveRoot
              (if allowAboveRoot then [seg] else []) rest
        end
      else normalizeSegments allowAboveRoot (seg :: acc) rest
  end.

Definition isAbsolute (p : string) : bool := Str.startsWith p "/".

(** [path.normalize(p)] *)
Definition normalize (p : string) : string :=
  if String.eqb p "" then "."
  else
    let trailing := Str.endsWith p "/" in
    let body := Str.join "/" (normalizeSegments (negb (isAbsolute p)) [] (Str.split "/" p)) in
    if String.eqb body "" then
      if isAbsolute p then "/" else if trailing then "./" else "."
    else
      let body := if trailing then body ++ "/" else body in
      if isAbsolute p then "/" ++ body else body.

(** [path.join(a, b)] *)
Definition join (a b : string) : string :=
  let joined :=
    if String.eqb a "" then b
    else if String.eqb b "" then a
    else a ++ "/" ++ b in
  if String.eqb joined "" then "." else normalize joined.

(** The segment list without its last element. *)
Definition dropLast (l : list string) : list string := rev (tl (rev l)).

(** [path.dirname(p)] for a normalized absolute path [p], as
    [path.join(paths.root, htmlFile)] is: all before the last slash, and
    the root for a file directly under it. *)
Definition dirname (p : string) : string :=
  match dropLast (Str.split "/" p) with
  | [] | [EmptyString] => if isAbsolute p then "/" else "."
  | segs => Str.join "/" segs
  end.

(** The segments of [path.resolve(p)] below the root, for the working
    directory [wd]. *)
Definition resolveSegments (wd p : string) : list string :=
  if isAbsolute p then normalizeSegments false [] (Str.split "/" p)
  else normalizeSegments false [] (Str.split "/" (wd ++ "/" ++ p)).

Fixpoint dropCommon (a b : list string) : list string * list string :=
  match a, b with
  | x :: a', y :: b' => if String.eqb x y then dropCommon a' b' else (a, b)
  | _, _ => (a, b)
  end.

(** [path.relative(from, to)]: one [..] for each segment of [from] below
    the common directory, then the segments of [to] below it. *)
Definition relative (wd from to : string) : string :=
  if String.eqb from to then ""
  else
    let '(up, down) := dropCommon (resolveSegments wd from) (resolveSegments wd to) in
    Str.join "/" (List.map (fun _ => "..") up ++ down).

(** The suffix of [s] that starts at its last dot. *)
Fixpoint fromLastDot (s : string) : option string :=
  match s with
  | EmptyString => None
  | String c s' =>
      match fromLastDot s' with
      | Some e => Some e
      | None => if Ascii.eqb c "." then Some s else None
      end
  end.

(** The extension of a file name: from its last dot on, unless that dot
    is the first character or the name is [..]. *)
Definition extOfBase (base : string) : string :=
  match base with
  | EmptyString => ""
  | String _ rest =>
      match fromLastDot rest with
      | Some e => if isDots base then "" else e
      | None => ""
      end
  end.

(** The last segment that is not empty: the base name. *)
Definition basename (p : string) : string :=
  match filter (fun seg => seg ≠ "") (rev (Str.split "/" p)) with
  | base :: _ => base
  | [] => ""
  end.

(** [path.parse(p).ext] *)
Definition ext (p : string) : string := extOfBase (basename p).

End Path.

(** ** Entry discovery ([src/packages/core/src/plugins/entries.ts]) *)

Module Entries.

Record Entry : Type := {
  name : string;
  path : string;
}.

(** [getEntry(entryPath)] *)
Definition getEntry (fs : FileSystem) (entryPath : string) : Entry :=
  let relativePath := Path.relative (cwd fs) (cwd fs) entryPath in
  let ext := Path.ext relativePath in
  let name := Str.replaceFirst ext "" relativePath in
  {| name := Str.normalizeSeparators name;
     path := "./" ++ Str.normalizeSeparators relativePath |}.

(** [getEntry] on a value read from the manifest: [path.relative]
    rejects an argument that is no string. *)
Definition getEntryOf (fs : FileSystem) (v : json) : result Entry :=
  match v with
  | JStr entryPath => Ok (getEntry fs entryPath)
  | _ => Throw TypeError
  end.

(** [entries[entry.name] = entry.path] *)
Definition addEntry (entries : gmap string string) (entry : Entry)
  : gmap string string :=
  <[name entry := path entry]> entries.

(** [getBackgroundEntries(manifestJson)] *)
Definition getBackgroundEntries (fs : FileSystem) (manifestJson : json)
  : result (gmap string string) :=
  background ← getProp (Some manifestJson) "background";
  let serviceWorker := getPropOpt background "service_worker" in
  match serviceWorker with
  | Some sw =>
      if truthy serviceWorker then
        entry ← getEntryOf fs sw;
        Ok (addEntry ∅ entry)
      else Ok ∅
  | None => Ok ∅
  end.

(** [l.forEach(f)] for a callback that updates [entries] and may throw;
    only an array has the method. *)
Definition forEachArray (f : gmap string string -> json -> result (gmap string string))
    (l : json) (entries : gmap string string) : result (gmap string string) :=
  match l with
  | JArr items => foldl (fun acc x => e ← acc; f e x) (Ok entries) items
  | _ => Throw TypeError
  end.

(** [getContentScriptEntries(manifestJson)] *)
Definition getContentScriptEntries (fs : FileSystem) (manifestJson : json)
  : result (gmap string string) :=
  contentScripts ← getProp (Some manifestJson) "content_scripts";
  match contentScripts with
  | Some scripts =>
      if truthy contentScripts then
        forEachArray
          (fun entries contentScript =>
             js ← getProp (Some contentScript) "js";
             match js with
             | Some files =>
                 if truthy js then
                   forEachArray
                     (fun entries file =>
                        entry ← getEntryOf fs file;
                        Ok (addEntry entries entry))
                     files entries
                 else Ok entries
             | None => Ok entries
             end)
          scripts ∅
      else Ok ∅
  | None => Ok ∅
  end.

(** The test on a [src] attribute: [src && !src.startsWith('http')]. *)
Definition isLocalScript (src : string) : bool :=
  negb (String.eqb src "") && negb (Str.startsWith src "http").

(** The scripts of one HTML file the inner [forEach] makes entries of,
    in document order. *)
Definition pageScripts (fs : FileSystem) (html : HtmlFile) : list Entry :=
  let htmlPath := Path.join (cwd fs) (htmlFile html) in
  let dirname := Path.dirname htmlPath in
  List.map (fun src => getEntry fs (Path.join dirname src))
    (List.filter isLocalScript (scriptSrcs html)).

(** [getExtensionPageEntries()] *)
Definition getExtensionPageEntries (fs : FileSystem) : gmap string string :=
  foldl (fun entries html => foldl addEntry entries (pageScripts fs html))
    ∅ (htmlFiles fs).

Record EntriesResult : Type := {
  background : gmap string string;
  contentScript : gmap string string;
  extensionPage : gmap string string;
}.

(** [discoverEntries()] *)
Definition discoverEntries (fs : FileSystem) : result EntriesResult :=
  if negb (existsSync (manifestJson fs)) then
    Throw (JsError "No manifest.json found in project root")
  else
    manifestJson ← readJSONSync (manifestJson fs);
    backgroundEntries ← getBackgroundEntries fs manifestJson;
    contentScriptEntries ← getContentScriptEntries fs manifestJson;
    let extensionPageEntries := getExtensionPageEntries fs in
    Ok {| background := backgroundEntries;
          contentScript := contentScriptEntries;
          extensionPage := extensionPageEntries |}.

End Entries.

(** ** The development server ([dev] in [src/packages/scripts/src/scripts/build.ts])

    The process is a record of the module variables [wss] and
    [webpackWatcher], the variables of the closure of [dev], and the parts
    of the runtime the code acts on: the clock, the timer queue, the calls
    of [client.send] and the exit code.  Lines written by [Logger] are not
    part of the state. *)

Module Dev.

(** [WebSocket.readyState] *)
Inductive ReadyState : Type := CONNECTING | OPEN | CLOSING | CLOSED.

Definition isOpen (s : ReadyState) : bool :=
  match s with OPEN => true | _ => false end.

(** A connected socket of [wss.clients]; [clientId] is its identity. *)
Record Client : Type := {
  clientId : nat;
  readyState : ReadyState;
}.

(** What a pending [setTimeout] callback does. *)
Inductive Task : Type :=
| SendReloadContent (client : nat)   (* the callback of [notifyClientsToReload] *)
| ForceExitTimeout                   (* [forceExitTimeout] of [shutdown] *)
| WatcherTimeout.                    (* [watcherTimeout] of [shutdown] *)

Record Timer : Type := {
  timerId : nat;
  due : Z;
  task : Task;
}.

(** A call [client.send(message)] and the time of the call. *)
Record Send : Type := {
  sentAt : Z;
  sentTo : nat;
  message : string;
}.

Record Process : Type := {
  clock : Z;
  wss : option (list Client);
  webpackWatcher : bool;            (* [webpackWatcher] is not [null] *)
  timers : list Timer;
  nextTimerId : nat;
  sends : list Send;
  exited : option Z;
  shutdownInProgress : bool;
  forceExit : bool;
  forceExitTimeout : option nat;
  watcherTimeout : option nat;
  serverClosed : bool;              (* the first promise of [shutdown] is resolved *)
  watcherClosed : bool;             (* the second promise of [shutdown] is resolved *)
}.

(** The process once [dev] has installed its handlers, at time [t]. *)
Definition started (t : Z) (server : option (list Client)) : Process :=
  {| clock := t; wss := server; webpackWatcher := true;
     timers := []; nextTimerId := 0; sends := [];
     exited := None; shutdownInProgress := false; forceExit := false;
     forceExitTimeout := None; watcherTimeout := None;
     serverClosed := false; watcherClosed := false |}.

Definition withClock (t : Z) (p : Process) : Process :=
  {| clock := t; wss := wss p; webpackWatcher := webpackWatcher p;
     timers := timers p; nextTimerId := nextTimerId p; sends := sends p;
     exited := exited p; shutdownInProgress := shutdownInProgress p;
     forceExit := forceExit p; forceExitTimeout := forceExitTimeout p;
     watcherTimeout := watcherTimeout p;
     serverClosed := serverClosed p; watcherClosed := watcherClosed p |}.

Definition withClients (server : option (list Client)) (p : Process) : Process :=
  {| clock := clock p; wss := server; webpackWatcher := webpackWatcher p;
     timers := timers p; nextTimerId := nextTimerId p; sends := sends p;
     exited := exited p; shutdownInProgress := shutdownInProgress p;
     forceExit := forceExit p; forceExitTimeout := forceExitTimeout p;
     watcherTimeout := watcherTimeout p;
     serverClosed := serverClosed p; watcherClosed := watcherClosed p |}.

Definition withTimers (q : list Timer) (next : nat) (p : Process) : Process :=
  {| clock := clock p; wss := wss p; webpackWatcher := webpackWatcher p;
     timers := q; nextTimerId := next; sends := sends p;
     exited := exited p; shutdownInProgress := shutdownInProgress p;
     forceExit := forceExit p; forceExitTimeout := forceExitTimeout p;
     watcherTimeout := watcherTimeout p;
     serverClosed := serverClosed p; watcherClosed := watcherClosed p |}.

(** The variables of the closure of [dev] that [shutdown] assigns. *)
Definition withShutdown (inProgress force : bool) (forceId watcherId : option nat)
    (server watcher : bool) (p : Process) : Process :=
  {| clock := clock p; wss := wss p; webpackWatcher := webpackWatcher p;
     timers := timers p; nextTimerId := nextTimerId p; sends := sends p;
     exited := exited p; shutdownInProgress := inProgress;
     forceExit := force; forceExitTimeout := forceId;
     watcherTimeout := watcherId;
     serverClosed := server; watcherClosed := watcher |}.

(** [client.send(msg)] at the current time. *)
Definition send (client : nat) (msg : string) (p : Process) : Process :=
  {| clock := clock p; wss := wss p; webpackWatcher := webpackWatcher p;
     timers := timers p; nextTimerId := nextTimerId p;
     sends := sends p ++ [{| sentAt := clock p; sentTo := client; message := msg |}];
     exited := exited p; shutdownInProgress := shutdownInProgress p;
     forceExit := forceExit p; forceExitTimeout := forceExitTimeout p;
     watcherTimeout := watcherTimeout p;
     serverClosed := serverClosed p; watcherClosed := watcherClosed p |}.

(** [process.exit(code)] *)
Definition exit (code : Z) (p : Process) : Process :=
  {| clock := clock p; wss := wss p; webpackWatcher := webpackWatcher p;
     timers := timers p; nextTimerId := nextTimerId p; sends := sends p;
     exited := Some code; shutdownInProgress := shutdownInProgress p;
     forceExit := forceExit p; forceExitTimeout := forceExitTimeout p;
     watcherTimeout := watcherTimeout p;
     serverClosed := serverClosed p; watcherClosed := watcherClosed p |}.

(** The timer queue is kept in firing order: a new timer goes behind
    every timer that is due no later than it. *)
Fixpoint enqueue (tm : Timer) (q : list Timer) : list Timer :=
  match q with
  | [] => [tm]
  | x :: q' => if due x <=? due tm then x :: enqueue tm q' else tm :: q
  end.

(** [setTimeout(callback, delay)]; the identifier of the new timer is
    [nextTimerId p]. *)
Definition setTimeout (tk : Task) (delay : Z) (p : Process) : Process :=
  withTimers
    (enqueue {| timerId := nextTimerId p; due := clock p + delay; task := tk |} (timers p))
    (S (nextTimerId p)) p.

(** [clearTimeout(id)] *)
Definition clearTimeout (id : option nat) (p : Process) : Process :=
  match id with
  | Some i =>
      withTimers (List.filter (fun tm => negb (Nat.eqb (timerId tm) i)) (timers p))
        (nextTimerId p) p
  | None => p
  end.

(** *** The notifier *)

(** [Object.keys(entries).some(entry => changedFiles.some(file => file.includes(entry)))] *)
Definition entryChanged (entries : gmap string string) (changedFiles : list string)
  : bool :=
  existsb (fun entry => existsb (fun file => Str.includes file entry) changedFiles)
    (map fst (map_to_list entries)).

Definition reloadDelay : Z := 500.

(** The body of [wss.clients.forEach]. *)
Definition notifyClient (backgroundChanged contentScriptChanged extensionPageChanged : bool)
    (p : Process) (client : Client) : Process :=
  if isOpen (readyState client) then
    if backgroundChanged || contentScriptChanged then
      let p := send (clientId client) "reload-background" p in
      setTimeout (SendReloadContent (clientId client)) reloadDelay p
    else if extensionPageChanged then
      send (clientId client) "reload-page" p
    else p
  else p.

(** [notifyClientsToReload(changedFiles, entries)] *)
Definition notifyClientsToReload (changedFiles : list string)
    (entries : Entries.EntriesResult) (p : Process) : Process :=
  match wss p with
  | None => p
  | Some clients =>
      let backgroundChanged := entryChanged (Entries.background entries) changedFiles in
      let contentScriptChanged := entryChanged (Entries.contentScript entries) changedFiles in
      let extensionPageChanged := entryChanged (Entries.extensionPage entries) changedFiles in
      foldl (notifyClient backgroundChanged contentScriptChanged extensionPageChanged)
        p clients
  end.

(** *** The watch callback *)

Record Module_ : Type := {
  moduleType : string;
  nameForCondition : option string;
}.

Record Chunk : Type := {
  modules : option (list Module_);
}.

(** What the callback reads of [stats] and [stats.toJson()]. *)
Record Stats : Type := {
  hasErrors : bool;
  chunks : option (list Chunk);
}.

Record Options : Type := {
  port : Z;
  reload : bool;
  verbose : bool;
}.

(** The list [changedFiles] of the callback. *)
Definition changedFilesOf (stats : Stats) : list string :=
  match chunks stats with
  | None => []
  | Some cs =>
      List.filter (fun file => negb (String.eqb file ""))
        (flat_map
           (fun chunk =>
              match modules chunk with
              | Some ms => List.map (fun m => default "" (nameForCondition m)) ms
              | None => []
              end)
           (List.filter
              (fun chunk =>
                 match modules chunk with
                 | Some ms =>
                     existsb (fun m => String.eqb (moduleType m) "javascript/auto") ms
                 | None => false
                 end)
              cs))
  end.

(** The callback of [webpack(config).watch]: [err] says whether the
    first argument is set, [stats] is the second one. *)
Definition onBuild (options : Options) (entries : Entries.EntriesResult)
    (err : bool) (stats : option Stats) (p : Process) : Process :=
  if err then p
  else
    match stats with
    | None => p
    | Some stats =>
        if hasErrors stats then p
        else if reload options then
               notifyClientsToReload (changedFilesOf stats) entries p
             else p
    end.

(** *** Shutdown *)

(** [if (client.readyState === WebSocket.OPEN) client.close()] *)
Definition closeClient (c : Client) : Client :=
  if isOpen (readyState c) then {| clientId := clientId c; readyState := CLOSING |}
  else c.

(** The [then] of [Promise.all]: it runs once both promises are resolved. *)
Definition settle (p : Process) : Process :=
  if serverClosed p && watcherClosed p then exit 0 (clearTimeout (forceExitTimeout p) p)
  else p.

(** [shutdown()], the handler of [SIGINT] and [SIGTERM]. *)
Definition shutdown (p : Process) : Process :=
  if shutdownInProgress p then p
  else if forceExit p then exit 1 p
  else
    let forceId := nextTimerId p in
    let p := setTimeout ForceExitTimeout 3000 p in
    let p := withClients (option_map (List.map closeClient) (wss p)) p in
    let serverDone := match wss p with Some _ => false | None => true end in
    let watcherId := if webpackWatcher p then Some (nextTimerId p) else None in
    let p := if webpackWatcher p then setTimeout WatcherTimeout 2000 p else p in
    let p := withShutdown true true (Some forceId) watcherId
               serverDone (negb (webpackWatcher p)) p in
    settle p.

(** *** The event loop *)

(** The callback of a timer that fires. *)
Definition fire (tk : Task) (p : Process) : Process :=
  match tk with
  | SendReloadContent client => send client "reload-content" p
  | ForceExitTimeout => exit 1 p
  | WatcherTimeout =>
      settle (withShutdown (shutdownInProgress p) (forceExit p) (forceExitTimeout p)
                (watcherTimeout p) (serverClosed p) true p)
  end.

(** The timers due by [t] fire in queue order, each at its own time.
    No callback sets a timer, so the length of the queue bounds the
    number of rounds. *)
Fixpoint runTimers (rounds : nat) (t : Z) (p : Process) : Process :=
  match rounds with
  | O => p
  | S rounds' =>
      match exited p, timers p with
      | None, tm :: rest =>
          if due tm <=? t then
            runTimers rounds' t
              (fire (task tm) (withClock (due tm) (withTimers rest (nextTimerId p) p)))
          else p
      | _, _ => p
      end
  end.

(** What happens to the process from outside. *)
Inductive Input : Type :=
| Signal                                    (* [SIGINT] or [SIGTERM] *)
| Elapse (t : Z)                            (* time passes until [t] *)
| Built (options : Options) (entries : Entries.EntriesResult)
    (err : bool) (stats : option Stats)     (* the watcher calls back *)
| ServerCloseCallback                       (* the callback of [wss.close] *)
| WatcherCloseCallback.                     (* the callback of [webpackWatcher.close] *)

Definition step (p : Process) (i : Input) : Process :=
  match exited p with
  | Some _ => p
  | None =>
      match i with
      | Signal => shutdown p
      | Elapse t =>
          let p' := runTimers (length (timers p)) t p in
          match exited p' with
          | Some _ => p'
          | None => withClock (Z.max (clock p') t) p'
          end
      | Built options entries err stats => onBuild options entries err stats p
      | ServerCloseCallback =>
          if shutdownInProgress p && negb (serverClosed p) then
            settle (withShutdown (shutdownInProgress p) (forceExit p) (forceExitTimeout p)
                      (watcherTimeout p) true (watcherClosed p) p)
          else p
      | WatcherCloseCallback =>
          if shutdownInProgress p && webpackWatcher p then
            let p := clearTimeout (watcherTimeout p) p in
            settle (withShutdown (shutdownInProgress p) (forceExit p) (forceExitTimeout p)
                      (watcherTimeout p) (serverClosed p) true p)
          else p
      end
  end.

Definition run (p : Process) (inputs : list Input) : Process := foldl step p inputs.

End Dev.

(** ** The polling client of background scripts ([injectBackgroundReload], [src/unnamed/part_004]) *)

Module HotReload.

(** One run of the body of [checkForUpdates]: [chrome.runtime.getManifest()]
    throws, or the manifest is read and its [__dev_timestamp] is
    [undefined] ([None]) or the number a development build wrote. *)
Inductive Observation : Type :=
| GetManifestThrows
| Timestamp (currentTimestamp : option Z).

(** The variable [lastTimestamp]: [None] is [null], its initial value. *)
Record Client : Type := {
  lastTimestamp : option (option Z);
}.

Definition initial : Client := {| lastTimestamp := None |}.

(** [currentTimestamp !== lastTimestamp] on numbers and [undefined]. *)
Definition differs (a b : option Z) : bool :=
  match a, b with
  | Some x, Some y => negb (x =? y)
  | None, None => false
  | _, _ => true
  end.

(** The truthiness of a number or [undefined]. *)
Definition isSet (a : option Z) : bool :=
  match a with
  | Some x => negb (x =? 0)
  | None => false
  end.

(** [checkForUpdates()]: the new state, and whether
    [chrome.runtime.reload()] was called. *)
Definition checkForUpdates (o : Observation) (c : Client) : Client * bool :=
  match o with
  | GetManifestThrows => (c, false)
  | Timestamp currentTimestamp =>
      match lastTimestamp c with
      | None => ({| lastTimestamp := Some currentTimestamp |}, false)
      | Some last =>
          if isSet currentTimestamp && differs currentTimestamp last then (c, true)
          else (c, false)
      end
  end.

(** The polls of [setInterval(checkForUpdates, POLL_INTERVAL)], one per
    observation: which of them called [chrome.runtime.reload()]. *)
Fixpoint poll (observations : list Observation) (c : Client) : list bool :=
  match observations with
  | [] => []
  | o :: rest =>
      let '(c', reloaded) := checkForUpdates o c in
      reloaded :: poll rest c'
  end.

(** The number of reloads in a run of polls. *)
Definition reloads (triggers : list bool) : nat :=
  length (List.filter (fun b => b) triggers).

End HotReload.

(** * The vocabulary of the statements *)

(** ** What the statements are about *)

(** [manifest.background?.service_worker] *)
Definition serviceWorkerOf (manifest : json) : jsval :=
  getPropOpt (getPropOpt (Some manifest) "background") "service_worker".


(** A path that ends in a source-script extension. *)
Definition hasSourceExtension (s : string) : bool :=
  Str.endsWith s ".js" || Str.endsWith s ".jsx" || Str.endsWith s ".ts" || Str.endsWith s ".tsx".

(** The fields that are filled in from the package metadata. *)
Definition backfilledKeys : list string := ["name"; "version"; "description"].

(** The configuration error of a project without manifest.json. *)
Definition missingManifest : error := JsError "No manifest.json found in project root".

(** The scripts of the HTML files that become entries, in the order of
    their discovery, and their number. *)
Definition discoveredScripts (fs : FileSystem) : list Entries.Entry :=
  flat_map (Entries.pageScripts fs) (htmlFiles fs).



(** The sockets of [wss.clients] that are open, in iteration order. *)
Definition openClients (clients : list Dev.Client) : list nat :=
  List.map Dev.clientId (List.filter (fun c => Dev.isOpen (Dev.readyState c)) clients).



(** The two flags of [shutdown] are assigned together. *)
Definition flagsAgree (p : Dev.Process) : Prop :=
  Dev.forceExit p = Dev.shutdownInProgress p.

(** ** The spec's words, where the code has other ones *)

Module Spec.






(** [s] without [suffix] at its end. *)
Fixpoint stripSuffix (suffix s : string) : string :=
  if String.eqb s suffix then EmptyString
  else match s with
       | EmptyString => EmptyString
       | String c s' => String c (stripSuffix suffix s')
       end.

(** The entry name of the spec: the path relative to the project root,
    its extension stripped from the end, separators normalized. *)
Definition entryName (fs : FileSystem) (entryPath : string) : string :=
  let relativePath := Path.relative (cwd fs) (cwd fs) entryPath in
  Str.normalizeSeparators (stripSuffix (Path.ext relativePath) relativePath).

End Spec.

(** ** Manifests the processor accepts *)

(** A value on which the code calls [replace] when it is truthy: a string,
    or a value that is absent or falsy. *)
Definition optionalPath (v : jsval) : bool :=
  match v with
  | Some (JStr _) => true
  | _ => negb (truthy v)
  end.

Definition isString (v : json) : bool :=
  match v with JStr _ => true | _ => false end.

(** A value on which the code calls [map] when it is truthy: an array
    whose elements are [ok], or a value that is absent or falsy. *)
Definition optionalArray (ok : json -> bool) (v : jsval) : bool :=
  match v with
  | Some (JArr items) => forallb ok items
  | _ => negb (truthy v)
  end.

(** An element of [content_scripts]: not [null], and when it is an object
    its [js] and [css] are lists of strings. *)
Definition contentScriptOk (item : json) : bool :=
  match item with
  | JNull => false
  | JObj fields =>
      optionalArray isString (fields !! "js") && optionalArray isString (fields !! "css")
  | _ => true
  end.

(** An element of [web_accessible_resources]: not [null], and when it is
    an object its [resources] is a list of strings. *)
Definition resourceOk (item : json) : bool :=
  match item with
  | JNull => false
  | JObj fields => optionalArray isString (fields !! "resources")
  | _ => true
  end.

(** What the statement of [processManifest] for [key] needs of the field
    to return. *)
Definition fieldOk (key : string) (v : jsval) : bool :=
  if String.eqb key "background" then
    match v with
    | Some (JObj background) => optionalPath (background !! "service_worker")
    | _ => true
    end
  else if String.eqb key "content_scripts" then optionalArray contentScriptOk v
  else if String.eqb key "web_accessible_resources" then optionalArray resourceOk v
  else if existsb (String.eqb key) Manifest.actionKeys then
    match v with
    | Some (JObj action) => optionalPath (action !! "default_popup")
    | _ => true
    end
  else true.

(** A manifest in which every script path is a string and every list of
    paths is an array of strings, as the manifest schema has them. *)
Definition wellFormed (manifest : json) : bool :=
  match manifest with
  | JObj fields =>
      forallb (fun key => fieldOk key (fields !! key))
        ["background"; "content_scripts"; "web_accessible_resources";
         "action"; "browser_action"; "page_action"]
  | _ => false
  end.

(** The package.json is missing, or it is a JSON document other than
    [null]. *)
Definition packageReadable (fs : FileSystem) : bool :=
  match packageJson fs with
  | None => true
  | Some (Json JNull) => false
  | Some (Json _) => true
  | Some NotJson => false
  end.

(** The statement [s] returns on every manifest whose field [k] is as
    [pre] wants it. *)
Definition succeedsOn (k : string) (pre : jsval -> bool)
    (s : gmap string json -> result (gmap string json)) : Prop :=
  forall m, pre (m !! k) = true -> exists m', s m = Ok m'.

(** ** Notions of the proofs *)

(** A statement of [processManifest] that reads and assigns the one key
    [k]: it leaves the other keys alone, and it leaves alone every manifest
    whose field [k] is the one it has just produced. *)
Definition settles (k : string) (s : gmap string json -> result (gmap string json)) : Prop :=
  forall m m', s m = Ok m' ->
    (forall j, j <> k -> m' !! j = m !! j) /\
    (forall m2, m2 !! k = m' !! k -> s m2 = Ok m2).

(** A callback of [map] that leaves its own results alone. *)
Definition idempotent (f : json -> result json) : Prop :=
  forall x x', f x = Ok x' -> f x' = Ok x'.

(** Every exception of [r] satisfies [P]. *)
Definition throwsOnly {A : Type} (P : error -> Prop) (r : result A) : Prop :=
  match r with
  | Throw e => P e
  | Ok _ => True
  end.

Definition typeOrSyntax (e : error) : Prop := e = TypeError \/ e = SyntaxError.

(** ** Projects, manifests and processes of the examples *)

Module Examples.
Definition emptyProject : FileSystem :=
  {| cwd := "/home/dev/my-extension"; manifestJson := None; packageJson := None;
     htmlFiles := [] |}.

Definition backgroundManifest (serviceWorker : string) : json :=
  JObj {[ "manifest_version" := JNum 3;
          "background" := JObj {[ "service_worker" := JStr serviceWorker ]} ]}.

(** The package.json that [npm init] writes. *)
Definition packageMetadata : json :=
  JObj {[ "name" := JStr "my-extension";
          "version" := JStr "1.0.0";
          "description" := JStr "" ]}.

Definition packagedProject : FileSystem :=
  {| cwd := "/home/dev/my-extension"; manifestJson := None;
     packageJson := Some (Json packageMetadata);
     htmlFiles := [] |}.




(** Two sockets, the first one open. *)
Definition twoClients : list Dev.Client :=
  [ {| Dev.clientId := 1; Dev.readyState := Dev.OPEN |};
    {| Dev.clientId := 2; Dev.readyState := Dev.CLOSED |} ].

Definition webpackEntries : Entries.EntriesResult :=
  {| Entries.background := {[ "src/background/index" := "./src/background/index.ts" ]};
     Entries.contentScript := {[ "src/content/main" := "./src/content/main.tsx" ]};
     Entries.extensionPage := {[ "src/popup/index" := "./src/popup/index.tsx" ]} |}.

(** The statistics of a build whose one chunk holds the module [file]. *)
Definition statsOf (file : string) : Dev.Stats :=
  {| Dev.hasErrors := false;
     Dev.chunks :=
       Some [ {| Dev.modules :=
                   Some [ {| Dev.moduleType := "javascript/auto";
                             Dev.nameForCondition := Some file |} ] |} ] |}.

Definition reloadOptions : Dev.Options :=
  {| Dev.port := 10000; Dev.reload := true; Dev.verbose := false |}.

Definition fullManifestFields : gmap string json :=
       {[ "manifest_version" := JNum 3;
          "name" := JStr "";
          "background" := JObj {[ "service_worker" := JStr "src/background/index.ts" ]};
          "content_scripts" :=
            JArr [JObj {[ "matches" := JArr [JStr "<all_urls>"];
                          "js" := JArr [JStr "src/content/main.tsx"];
                          "css" := JArr [JStr "src/content/main.css"] ]}];
          "web_accessible_resources" :=
            JArr [JObj {[ "resources" := JArr [JStr "src/inject.ts"; JStr "img/logo.png"] ]}];
          "action" := JObj {[ "default_popup" := JStr "src/popup/index.html" ]} ]}.

Definition fullManifest : json := JObj fullManifestFields.

Definition fullManifestProcessed : json :=
  JObj {[ "manifest_version" := JNum 3;
          "name" := JStr "my-extension";
          "version" := JStr "1.0.0";
          "background" := JObj {[ "service_worker" := JStr "src/background/index.js" ]};
          "content_scripts" :=
            JArr [JObj {[ "matches" := JArr [JStr "<all_urls>"];
                          "js" := JArr [JStr "src/content/main.js"];
                          "css" := JArr [JStr "src/content/main.css"] ]}];
          "web_accessible_resources" :=
            JArr [JObj {[ "resources" := JArr [JStr "src/inject.js"; JStr "img/logo.png"] ]}];
          "action" := JObj {[ "default_popup" := JStr "src/popup/index.html" ]} ]}.
End Examples.


(** * Further vocabulary *)

(** ** The manifest processor *)

(** The keys of the manifest that a statement of [processManifest]
    assigns. *)
Definition rewrittenKeys : list string :=
  ["name"; "version"; "description"; "background"; "content_scripts";
   "web_accessible_resources"; "action"; "browser_action"; "page_action"].

(** A manifest in the format of version 2, and the project around it. *)
Module MoreExamples.

Definition legacyManifestFields : gmap string json :=
  {[ "manifest_version" := JNum 2;
     "name" := JStr "legacy";
     "version" := JStr "0.1";
     "permissions" := JArr [JStr "storage"; JStr "tabs"];
     "web_accessible_resources" := JArr [JStr "src/inject.ts"; JStr "img/*.png"];
     "browser_action" := JObj {[ "default_popup" := JStr "src/popup/index.tsx" ]};
     "content_scripts" :=
       JArr [JObj {[ "matches" := JArr [JStr "<all_urls>"];
                     "js" := JArr [JStr "src/content/a.ts"; JStr "src/content/b.jsx"] ]}] ]}.

Definition legacyManifest : json := JObj legacyManifestFields.

Definition legacyProject : FileSystem :=
  {| cwd := "/home/dev/legacy";
     manifestJson := Some (Json legacyManifest);
     packageJson := None;
     htmlFiles :=
       [ {| htmlFile := "src/popup/index.html"; scriptSrcs := ["./index.tsx"] |} ] |}.


(** A project of manifest version 3 with a popup page. *)
Definition extensionProject : FileSystem :=
  {| cwd := "/home/dev/my-extension";
     manifestJson := Some (Json Examples.fullManifest);
     packageJson := Some (Json Examples.packageMetadata);
     htmlFiles :=
       [ {| htmlFile := "src/popup/index.html"; scriptSrcs := ["./index.tsx"] |} ] |}.

End MoreExamples.

(** ** Entry discovery *)

(** A segment that is not empty, and one that is neither [.] nor [..]. *)
Definition notEmpty (seg : string) : bool := negb (String.eqb seg "").

Definition noDots (seg : string) : bool :=
  negb (String.eqb seg ".") && negb (String.eqb seg "..").

(** A segment of a path that names a file or a directory. *)
Definition plainSegment (seg : string) : bool :=
  negb (String.eqb seg "") && negb (String.eqb seg ".") && negb (String.eqb seg "..").

(** A relative path written without [.], [..], doubled or trailing
    slashes, as [src/content/main.ts]. *)
Definition plainPath (p : string) : bool := forallb plainSegment (Str.split "/" p).

(** An absolute path without [.] and [..] segments, as [process.cwd()] is. *)
Definition absoluteWithoutDots (dir : string) : bool :=
  Path.isAbsolute dir && forallb noDots (Str.split "/" dir).

(** Segments between slashes that name files and directories. *)
Definition plainSegments (segs : list string) : Prop :=
  Forall (fun seg => plainSegment seg = true /\ Str.split "/" seg = [seg]) segs.

(** The path, from the project root, of the script [src] of the page
    [htmlFile]: the directory of the page, then [src]. *)
Definition pageScriptPath (htmlFile src : string) : string :=
  Str.join "/" (Path.dropLast (Str.split "/" htmlFile) ++ Str.split "/" src).

(** The file of an entry in the output, by the pattern
    [entryFileNames: '[name].js'] of the configuration. *)
Definition entryFileName (name : string) : string := name ++ ".js".

(** The values of the [js] arrays of the content scripts of a manifest,
    in manifest order. *)
Definition contentScriptFiles (manifestJson : json) : list json :=
  match getPropOpt (Some manifestJson) "content_scripts" with
  | Some (JArr scripts) =>
      flat_map
        (fun script =>
           match getPropOpt (Some script) "js" with
           | Some (JArr files) => files
           | _ => []
           end)
        scripts
  | _ => []
  end.

(** Every path of the map starts with [./]. *)
Definition dotSlashPaths (entries : gmap string string) : Prop :=
  map_Forall (fun _ p => Str.startsWith p "./" = true) entries.

(** ** The hot-reload plugin ([browserExtHotReloadPlugin], [src/unnamed/part_004]) *)

Module HotReloadPlugin.

(** The snippet [transform] appends to the code of a module. *)
Inductive Injection : Type :=
| BackgroundReload        (* [injectBackgroundReload()] *)
| ContentReload           (* [injectContentReload()] *)
| ExtensionPageReload.    (* [injectExtensionPageReload()] *)

(** The loop over [Object.entries(entries)] reaches its [return]: some
    path of the map is a suffix of the module id.  Every iteration
    returns the same value, so the order of the keys does not matter. *)
Definition matchesEntry (normalizedId : string) (entries : gmap string string) : bool :=
  existsb (fun entry => Str.endsWith normalizedId entry.2) (map_to_list entries).

(** [transform(code, id)]: [None] is the result [null], and [Some i] the
    result whose code is [code], a line break and the snippet [i].
    [entries] is the variable of the plugin, [None] while it is
    [undefined]; [isDevelopment] is [process.env.NODE_ENV === 'development']. *)
Definition transform (entries : option Entries.EntriesResult) (isDevelopment : bool)
    (id : string) : option Injection :=
  if negb isDevelopment then None
  else
    let normalizedId := Str.normalizeSeparators id in
    match entries with
    | None => None
    | Some entries =>
        if matchesEntry normalizedId (Entries.background entries) then
          Some BackgroundReload
        else if matchesEntry normalizedId (Entries.contentScript entries) then
          Some ContentReload
        else if matchesEntry normalizedId (Entries.extensionPage entries) then
          Some ExtensionPageReload
        else None
    end.

End HotReloadPlugin.

(** ** The polling client *)

(** What a poll decides once the baseline is [baseline]:
    [currentTimestamp && currentTimestamp !== lastTimestamp]. *)
Definition reloadsAgainst (baseline : option Z) (o : HotReload.Observation) : bool :=
  match o with
  | HotReload.GetManifestThrows => false
  | HotReload.Timestamp current =>
      HotReload.isSet current && HotReload.differs current baseline
  end.

(** ** The development server *)

(** The timer queue is in firing order: no timer is due before one in
    front of it. *)
Fixpoint firingOrder (q : list Dev.Timer) : Prop :=
  match q with
  | [] => True
  | tm :: rest => Forall (fun x => Dev.due tm <= Dev.due x) rest /\ firingOrder rest
  end.

Definition isReloadTask (tk : Dev.Task) : bool :=
  match tk with Dev.SendReloadContent _ => true | _ => false end.

(** The process before the first signal: it runs, no shutdown has begun,
    and the timers of the queue are those of the notifier. *)
Definition serving (server : option (list Dev.Client)) (p : Dev.Process) : Prop :=
  firingOrder (Dev.timers p) /\
  Dev.wss p = server /\
  Dev.webpackWatcher p = true /\
  Dev.exited p = None /\
  Dev.shutdownInProgress p = false /\
  Dev.forceExit p = false /\
  Forall (fun tm => isReloadTask (Dev.task tm) = true) (Dev.timers p).

(** The process from the first signal on, [deadline] being the time the
    timer of the forced exit is due at: it has exited with code 0 or 1, or
    the timer of the forced exit is pending, the promise of [Promise.all]
    is pending, and so is the timer of the watcher as long as the watcher
    has not closed. *)
Definition closing (server : option (list Dev.Client)) (deadline : Z) (p : Dev.Process)
  : Prop :=
  firingOrder (Dev.timers p) /\
  Dev.webpackWatcher p = true /\
  Dev.shutdownInProgress p = true /\
  (forall clients, Dev.wss p = Some clients -> openClients clients = []) /\
  match Dev.exited p with
  | Some code => code = 0 \/ code = 1
  | None =>
      (exists tm, In tm (Dev.timers p) /\ Dev.task tm = Dev.ForceExitTimeout /\
                  Dev.watcherTimeout p <> Some (Dev.timerId tm)) /\
      Forall (fun tm => Dev.task tm = Dev.ForceExitTimeout -> Dev.due tm = deadline)
        (Dev.timers p) /\
      Dev.serverClosed p && Dev.watcherClosed p = false /\
      (server = None -> Dev.serverClosed p = true) /\
      (Dev.watcherClosed p = false ->
       exists tm, In tm (Dev.timers p) /\ Dev.task tm = Dev.WatcherTimeout /\
                  Dev.due tm = deadline - 1000)
  end.

(** From [p] to [p']: the process does not come back from its exit, and
    a promise of [shutdown] that is resolved stays so. *)
Definition advances (p p' : Dev.Process) : Prop :=
  Dev.exited p' = None ->
  Dev.exited p = None /\
  (Dev.serverClosed p = true -> Dev.serverClosed p' = true) /\
  (Dev.watcherClosed p = true -> Dev.watcherClosed p' = true).

(** An input that is no passing of time to [deadline] or later. *)
Definition elapsesBefore (deadline : Z) (i : Dev.Input) : bool :=
  match i with
  | Dev.Elapse t => t <? deadline
  | _ => true
  end.

(** Some entry name occurs in the path of some file of the build. *)
Definition touched (entries : Entries.EntriesResult) (files : list string) : bool :=
  Dev.entryChanged (Entries.background entries) files
  || Dev.entryChanged (Entries.contentScript entries) files
  || Dev.entryChanged (Entries.extensionPage entries) files.

Definition isSignal (i : Dev.Input) : bool :=
  match i with Dev.Signal => true | _ => false end.

(** ** The archive ([zip] in [src/packages/scripts/src/scripts/build.ts])

    [pathToBrowserExt.manifestJson] and [pathToBrowserExt.packageJson]
    are the manifest.json and the package.json of the project. *)

Module Zip.

(** A value in a template literal: [`${v}`]. *)
Definition template (v : jsval) : string :=
  match v with
  | None => "undefined"
  | Some x => toString x
  end.

(** [fs.readJSONSync(pathToBrowserExt.packageJson).version] *)
Definition packageVersion (fs : FileSystem) : result jsval :=
  packageJson ← readJSONSync (packageJson fs);
  getProp (Some packageJson) "version".

(** The [try] block. *)
Definition manifestOrPackageVersion (fs : FileSystem) : result jsval :=
  manifestJson ← readJSONSync (manifestJson fs);
  version ← getProp (Some manifestJson) "version";
  if truthy version then Ok version else packageVersion fs.

(** The variable [version] after the [try] statement: whatever the
    block throws is caught, and the [catch] block reads package.json. *)
Definition version (fs : FileSystem) : result jsval :=
  match manifestOrPackageVersion fs with
  | Ok version => Ok version
  | Throw _ => packageVersion fs
  end.

(** The constant [zipName]; an exception rejects the promise of [zip]. *)
Definition zipName (fs : FileSystem) : result string :=
  version ← version fs;
  Ok ("chrome-prod-" ++ template version ++ ".zip").

End Zip.



(** ** The configuration ([src/packages/core/src/config/vite.ts], [defineConfig])

    A configuration is a JSON object here.  A function in it, as
    [assetFileNames], is no object for [isObject]; a plugin is one, but
    plugins stand in arrays, and an array is no object for [isObject]
    either: both are leaves of every merge. *)

Module Config.

(** [isObject(item)]: [item && typeof item === 'object' && !Array.isArray(item)]
    as a condition. *)
Definition isObject (item : jsval) : bool :=
  match item with
  | Some (JObj _) => true
  | _ => false
  end.

(** [mergeConfig(base, override)]; both arguments are objects at every
    call.  The loop assigns each key of [override] at most once, so the
    order of the keys does not matter. *)
Fixpoint mergeConfig (base override : json) {struct override} : json :=
  match base, override with
  | JObj baseFields, JObj overrideFields =>
      JObj (map_fold
              (fun key overrideValue merged =>
                 if String.eqb key "plugins" then merged
                 else
                   match baseFields !! key with
                   | Some baseValue =>
                       if isObject (Some baseValue) && isObject (Some overrideValue) then
                         <[key := mergeConfig baseValue overrideValue]> merged
                       else <[key := overrideValue]> merged
                   | None => <[key := overrideValue]> merged
                   end)
              baseFields overrideFields)
  | _, _ => override
  end.

(** A value of a configuration that is no JSON, a function or a plugin,
    written as a leaf: no code here looks into one. *)
Definition opaque (name : string) : json := JStr ("[" ++ name ++ "]").

(** [assetFileNames] of the base configuration: [assetInfo.name] is
    [None] when it is [undefined]. *)
Definition assetFileNames (name : option string) : string :=
  let info := match name with Some n => Str.split "/" n | None => [] end in
  if (1 <? length info)%nat then "[name].[ext]" else "assets/[name].[ext]".

(** [baseConfig] of [createViteConfig]; [paths.root] is [process.cwd()]
    and [paths.chromeDev] is [path.join(process.cwd(), 'dist')]. *)
Definition baseConfig (fs : FileSystem) (isDevelopment : bool) : json :=
  JObj {[ "root" := JStr (cwd fs);
          "build" :=
            JObj {[ "outDir" := JStr (Path.join (cwd fs) "dist");
                    "emptyOutDir" := JBool true;
                    "sourcemap" := if isDevelopment then JStr "inline" else JBool false;
                    "minify" := JBool (negb isDevelopment);
                    "reportCompressedSize" := JBool false;
                    "modulePreload" := JBool false;
                    "rollupOptions" :=
                      JObj {[ "output" :=
                                JObj {[ "entryFileNames" := JStr "[name].js";
                                        "chunkFileNames" := JStr "chunks/[name]-[hash].js";
                                        "assetFileNames" := opaque "assetFileNames" ]} ]} ]};
          "resolve" :=
            JObj {[ "extensions" :=
                      JArr [JStr ".ts"; JStr ".tsx"; JStr ".js"; JStr ".jsx"; JStr ".json"] ]};
          "optimizeDeps" := JObj {[ "exclude" := JArr [JStr "@types/chrome"] ]};
          "server" :=
            JObj {[ "port" := JNum 5173; "open" := JBool false; "hmr" := JBool true ]};
          "appType" := JStr "custom" ]}.

(** [createViteConfig(userConfig)]; [isDevelopment] is
    [process.env.NODE_ENV === 'development']. *)
Definition createViteConfig (fs : FileSystem) (isDevelopment : bool) (userConfig : json)
  : json :=
  mergeConfig (baseConfig fs isDevelopment) userConfig.

(** The argument of [defineConfig] ([src/unnamed/part_003]), by its
    type; [None] is a field that is [undefined]. *)
Record BrowserExtConfig : Type := {
  typeInference : option bool;
  hotReload : option bool;
  vite : option (gmap string json);
  plugins : option (list json);
}.

(** [...v] in an array literal: the elements of an array, the
    characters of a string; nothing else here is iterable. *)
Definition iterate (v : json) : result (list json) :=
  match v with
  | JArr items => Ok items
  | JStr s => Ok (List.map (fun c => JStr (String c EmptyString)) (list_ascii_of_string s))
  | _ => Throw TypeError
  end.

(** The plugins [defineConfig] puts in front of those of the user. *)
Definition ownPlugins (isDevelopment hotReload typeInference : bool) : list json :=
  [opaque "browserExtEntriesPlugin()"; opaque "browserExtManifestPlugin()";
   opaque "browserExtAssetsPlugin()"]
  ++ (if isDevelopment && hotReload then [opaque "browserExtHotReloadPlugin()"] else [])
  ++ (if typeInference then [opaque "browserExtTypeInferencePlugin()"] else []).

(** [defineConfig(config)] *)
Definition defineConfig (fs : FileSystem) (isDevelopment : bool) (config : BrowserExtConfig)
  : result json :=
  let typeInference := default true (typeInference config) in
  let hotReload := default true (hotReload config) in
  let userViteConfig := default ∅ (vite config) in
  let userPlugins := default [] (plugins config) in
  let plugins := (ownPlugins isDevelopment hotReload typeInference ++ userPlugins)%list in
  vitePlugins ← match userViteConfig !! "plugins" with
                | Some v => if truthy (Some v) then iterate v else Ok []
                | None => Ok []
                end;
  Ok (createViteConfig fs isDevelopment
        (JObj (<["plugins" := JArr (plugins ++ vitePlugins)]> userViteConfig))).

End Config.

(** What the loop of [mergeConfig] leaves at [key]. *)
Definition mergedField (base override : gmap string json) (key : string) : jsval :=
  if String.eqb key "plugins" then base !! key
  else
    match override !! key with
    | None => base !! key
    | Some overrideValue =>
        if Config.isObject (base !! key) && Config.isObject (Some overrideValue) then
          match base !! key with
          | Some baseValue => Some (Config.mergeConfig baseValue overrideValue)
          | None => Some overrideValue
          end
        else Some overrideValue
    end.

(** [v.k1.k2...] with optional chaining. *)
Definition getPath (path : list string) (v : jsval) : jsval := foldl getPropOpt v path.

(** [base] and [override] hold objects at [path] and at every prefix
    of it: the merge descends along [path]. *)
Fixpoint mergedAlong (path : list string) (base override : jsval) : bool :=
  Config.isObject base && Config.isObject override &&
  match path with
  | [] => true
  | key :: rest => mergedAlong rest (getPropOpt base key) (getPropOpt override key)
  end.

Module ConfigExamples.

(** A user configuration with plugins of Vite and of Rollup. *)
Definition userConfig : json :=
  JObj {[ "plugins" := JArr [JStr "react"];
          "build" :=
            JObj {[ "minify" := JBool false;
                    "rollupOptions" :=
                      JObj {[ "plugins" := JArr [JStr "visualizer"];
                              "external" := JArr [JStr "chrome"] ]} ]};
          "resolve" := JObj {[ "extensions" := JArr [JStr ".mjs"] ]};
          "server" := JObj {[ "port" := JNum 3000 ]} ]}.

(** The argument of [defineConfig] with this user configuration and a
    plugin of its own. *)
Definition extensionConfig : Config.BrowserExtConfig :=
  {| Config.typeInference := None;
     Config.hotReload := Some true;
     Config.vite := Some (spread userConfig);
     Config.plugins := Some [Config.opaque "myPlugin()"] |}.

End ConfigExamples.


(** A statement of [processManifest] that returns the manifest as it
    is or with its own key assigned, and that only a backfill assigns a
    key the manifest does not have. *)
Definition assignsOwnKey (k : string)
    (s : gmap string json -> result (gmap string json)) : Prop :=
  forall m m', s m = Ok m' ->
    m' = m \/ exists v, m' = <[k := v]> m /\ (k ∈ backfilledKeys \/ is_Some (m !! k)).

(** ** The [zip] command of the command line ([src/packages/core/src/cli/index.ts]) *)

Module Cli.

(** The class [\s] of a regular expression, on code units below 256:
    tab to carriage return, the space and the no-break space. *)
Definition isSpace (c : ascii) : bool :=
  let n := nat_of_ascii c in
  ((9 <=? n) && (n <=? 13) || (n =? 32) || (n =? 160))%nat.

(** [toLowerCase] on a code unit below 256: the letters [A] to [Z] and
    the capital letters of Latin-1 have their small letter 32 places on. *)
Definition toLowerChar (c : ascii) : ascii :=
  let n := nat_of_ascii c in
  if ((65 <=? n) && (n <=? 90) || (192 <=? n) && (n <=? 214)
      || (216 <=? n) && (n <=? 222))%nat
  then ascii_of_nat (n + 32)
  else c.

(** [s.toLowerCase()] *)
Fixpoint toLowerCase (s : string) : string :=
  match s with
  | EmptyString => EmptyString
  | String c s' => String (toLowerChar c) (toLowerCase s')
  end.

(** [s.replace(/\s+/g, '-')]: every run of white space becomes one
    hyphen; [inRun] says that the character before was white space. *)
Fixpoint replaceSpaces (inRun : bool) (s : string) : string :=
  match s with
  | EmptyString => EmptyString
  | String c s' =>
      if isSpace c then
        if inRun then replaceSpaces true s' else String "-" (replaceSpaces true s')
      else String c (replaceSpaces false s')
  end.


(** The statements of the [try] block up to [zipName]; [distManifest]
    is the file [manifest.json] of the output directory. *)
Definition zipName (distManifest : option file) : result string :=
  manifest ← readJSONSync distManifest;
  version ← getProp (Some manifest) "version";
  let version := if truthy version then version else Some (JStr "1.0.0") in
  name ← getProp (Some manifest) "name";
  let name := if truthy name then name else Some (JStr "extension") in
  match name with
  | Some (JStr name) =>
      Ok (replaceSpaces false (toLowerCase name) ++ "-" ++ Zip.template version ++ ".zip")
  | _ => Throw TypeError
  end.


End Cli.



(** * Properties *)

(** ** Strings *)

Section StrFacts.
Import Str.

Lemma isScriptExt_cases s :
  isScriptExt s = true <-> s = ".js" \/ s = ".jsx" \/ s = ".ts" \/ s = ".tsx".
Proof.
  unfold isScriptExt. rewrite !orb_true_iff, !String.eqb_eq. tauto.
Qed.

Lemma isScriptExt_length s : isScriptExt s = true -> (String.length s <= 4)%nat.
Proof.
  intros H. apply isScriptExt_cases in H.
  destruct H as [-> | [-> | [-> | ->]]]; simpl; lia.
Qed.

Lemma length_append (s t : string) :
  String.length (s ++ t) = (String.length s + String.length t)%nat.
Proof. induction s as [|c s IH]; simpl; [reflexivity | rewrite IH; reflexivity]. Qed.

Lemma endsWith_cons c s suffix :
  endsWith (String c s) suffix =
  if String.eqb (String c s) suffix then true else endsWith s suffix.
Proof. reflexivity. Qed.

Lemma endsWith_nil suffix : endsWith "" suffix = String.eqb "" suffix.
Proof. simpl. destruct suffix; reflexivity. Qed.

Lemma endsWith_app p suffix : endsWith (p ++ suffix) suffix = true.
Proof.
  induction p as [|c p IH].
  - change ("" ++ suffix) with suffix.
    destruct suffix as [|a suffix].
    + reflexivity.
    + rewrite endsWith_cons, String.eqb_refl. reflexivity.
  - change (String c p ++ suffix) with (String c (p ++ suffix)).
    rewrite endsWith_cons, IH. destruct (String.eqb _ _); reflexivity.
Qed.

Lemma endsWith_spec s suffix :
  endsWith s suffix = true <-> exists p, s = p ++ suffix.
Proof.
  split.
  - induction s as [|c s IH].
    + rewrite endsWith_nil. intros H%String.eqb_eq. exists "". exact H.
    + rewrite endsWith_cons. destruct (String.eqb_spec (String c s) suffix) as [E|_].
      * intros _. exists "". exact E.
      * intros [p Hp]%IH. exists (String c p). rewrite Hp. reflexivity.
  - intros [p ->]. apply endsWith_app.
Qed.

Lemma testScriptExt_cons c s :
  testScriptExt (String c s) = if isScriptExt (String c s) then true else testScriptExt s.
Proof. reflexivity. Qed.

Lemma replaceScriptExt_cons repl c s :
  replaceScriptExt repl (String c s) =
  if isScriptExt (String c s) then repl else String c (replaceScriptExt repl s).
Proof. reflexivity. Qed.

(** The test accepts exactly the strings that end in one of the four
    extensions. *)
Lemma testScriptExt_spec s :
  testScriptExt s = true <->
  endsWith s ".js" = true \/ endsWith s ".jsx" = true \/
  endsWith s ".ts" = true \/ endsWith s ".tsx" = true.
Proof.
  induction s as [|c s IH].
  - simpl. intuition discriminate.
  - rewrite testScriptExt_cons, !endsWith_cons.
    destruct (isScriptExt (String c s)) eqn:E.
    + apply isScriptExt_cases in E.
      destruct E as [-> | [-> | [-> | ->]]]; simpl; intuition.
    + rewrite IH.
      assert (N := proj2 (isScriptExt_cases (String c s))). rewrite E in N.
      destruct (String.eqb_spec (String c s) ".js"); [exfalso; intuition congruence|].
      destruct (String.eqb_spec (String c s) ".jsx"); [exfalso; intuition congruence|].
      destruct (String.eqb_spec (String c s) ".ts"); [exfalso; intuition congruence|].
      destruct (String.eqb_spec (String c s) ".tsx"); [exfalso; intuition congruence|].
      reflexivity.
Qed.

(** A rewritten path ends in the replacement. *)
Lemma replaceScriptExt_endsWith repl s :
  testScriptExt s = true -> endsWith (replaceScriptExt repl s) repl = true.
Proof.
  induction s as [|c s IH].
  - discriminate.
  - rewrite testScriptExt_cons, replaceScriptExt_cons.
    destruct (isScriptExt (String c s)).
    + intros _. apply (endsWith_app "").
    + intros H. rewrite endsWith_cons, (IH H).
      destruct (String.eqb _ _); reflexivity.
Qed.

Lemma replaceScriptExt_no_match repl s :
  testScriptExt s = false -> replaceScriptExt repl s = s.
Proof.
  induction s as [|c s IH].
  - reflexivity.
  - rewrite testScriptExt_cons, replaceScriptExt_cons.
    destruct (isScriptExt (String c s)); [discriminate|].
    intros H. rewrite (IH H). reflexivity.
Qed.

Lemma replaceScriptExt_nonempty repl s :
  repl <> "" -> s <> "" -> replaceScriptExt repl s <> "".
Proof.
  intros Hr Hs. destruct s as [|c s]; [congruence|].
  rewrite replaceScriptExt_cons. destruct (isScriptExt _); [exact Hr | discriminate].
Qed.

(** Rewriting to [.js] twice is rewriting once. *)
Lemma replaceScriptExt_js_idem s :
  replaceScriptExt ".js" (replaceScriptExt ".js" s) = replaceScriptExt ".js" s.
Proof.
  induction s as [|c s IH].
  - reflexivity.
  - rewrite replaceScriptExt_cons.
    destruct (isScriptExt (String c s)) eqn:E.
    + reflexivity.
    + rewrite replaceScriptExt_cons, IH.
      destruct (isScriptExt (String c (replaceScriptExt ".js" s))) eqn:E'; [|reflexivity].
      exfalso.
      destruct (testScriptExt s) eqn:T.
      * (* s was rewritten: c :: (p ++ ".js") has at least four characters *)
        apply (replaceScriptExt_endsWith ".js") in T.
        apply endsWith_spec in T. destruct T as [p Hp]. rewrite Hp in E'.
        assert (L := isScriptExt_length _ E'). simpl in L.
        rewrite length_append in L. simpl in L.
        destruct p as [|a p]; [|simpl in L; lia].
        apply isScriptExt_cases in E'.
        destruct E' as [E' | [E' | [E' | E']]]; discriminate E'.
      * rewrite (replaceScriptExt_no_match _ _ T) in E'. congruence.
Qed.

(** A path rewritten to [.html] is not rewritten again. *)
Lemma replaceScriptExt_html_idem s :
  replaceScriptExt ".html" (replaceScriptExt ".html" s) = replaceScriptExt ".html" s.
Proof.
  destruct (testScriptExt s) eqn:T.
  - apply replaceScriptExt_no_match.
    apply (replaceScriptExt_endsWith ".html") in T.
    apply endsWith_spec in T. destruct T as [p ->].
    induction p as [|c p IH].
    + reflexivity.
    + change (String c p ++ ".html") with (String c (p ++ ".html")).
      rewrite testScriptExt_cons, IH.
      destruct (isScriptExt _) eqn:E; [|reflexivity].
      apply isScriptExt_length in E. simpl in E.
      rewrite length_append in E. simpl in E. lia.
  - rewrite (replaceScriptExt_no_match _ _ T). apply replaceScriptExt_no_match, T.
Qed.
End StrFacts.

(** ** Manifest processing *)

Section ManifestFacts.
Import Manifest.
Implicit Types (m : gmap string json) (k key : string).

Lemma bind_Ok {A B : Type} (r : result A) (f : A -> result B) (b : B) :
  r ≫= f = Ok b -> exists a, r = Ok a /\ f a = Ok b.
Proof. destruct r as [a|e]; [eauto | discriminate]. Qed.

Lemma bind_Ok_l {A B : Type} (a : A) (f : A -> result B) : Ok a ≫= f = f a.
Proof. reflexivity. Qed.

Lemma map_result_idempotent f items items' :
  idempotent f -> map_result f items = Ok items' -> map_result f items' = Ok items'.
Proof.
  intros Hf. revert items'. induction items as [|x items IH]; intros items' H.
  - injection H as <-. reflexivity.
  - simpl in H. apply bind_Ok in H as (x' & Hx & H).
    apply bind_Ok in H as (rest & Hrest & H). injection H as <-.
    simpl. rewrite (Hf _ _ Hx). simpl. rewrite (IH _ Hrest). reflexivity.
Qed.

Lemma mapArray_Ok f v v' :
  mapArray f v = Ok v' ->
  exists items items', v = JArr items /\ v' = JArr items' /\ map_result f items = Ok items'.
Proof.
  destruct v; try discriminate. simpl. intros H.
  apply bind_Ok in H as (items' & H1 & H2). injection H2 as <-. eauto.
Qed.

Lemma replaceFileExtension_idempotent : idempotent replaceFileExtension.
Proof.
  intros x x' H. destruct x; try discriminate. injection H as <-.
  simpl. rewrite replaceScriptExt_js_idem. reflexivity.
Qed.

Lemma rewriteResourcePath_idempotent : idempotent rewriteResourcePath.
Proof.
  intros x x'. unfold rewriteResourcePath.
  destruct (Str.testScriptExt (toString x)) eqn:T.
  - intros H. destruct x; try discriminate. injection H as <-.
    simpl in T. simpl.
    assert (T' : Str.testScriptExt (Str.replaceScriptExt ".js" s) = true).
    { apply testScriptExt_spec. left. apply replaceScriptExt_endsWith, T. }
    rewrite T'. simpl. rewrite replaceScriptExt_js_idem. reflexivity.
  - intros H. injection H as <-. rewrite T. reflexivity.
Qed.

Lemma settles_backfill key pkg : settles key (backfill key pkg).
Proof.
  intros m m'. unfold backfill.
  destruct (truthy (m !! key)) eqn:T.
  - intros H. injection H as <-. split; [reflexivity|].
    intros m2 ->. rewrite T. reflexivity.
  - intros H. apply bind_Ok in H as (v & Hv & H).
    destruct v as [x|].
    + destruct (truthy (Some x)) eqn:Tx; injection H as <-.
      * split.
        -- intros j Hj. apply lookup_insert_ne. congruence.
        -- intros m2 E. rewrite lookup_insert_eq in E. rewrite E, Tx. reflexivity.
      * split; [reflexivity|]. intros m2 ->. rewrite T, Hv, bind_Ok_l, Tx. reflexivity.
    + injection H as <-. split; [reflexivity|].
      intros m2 ->. rewrite T, Hv. reflexivity.
Qed.

Lemma truthy_JStr s : truthy (Some (JStr s)) = true <-> s <> "".
Proof.
  simpl. rewrite negb_true_iff. split.
  - intros H ->. discriminate.
  - intros H. destruct (String.eqb_spec s ""); congruence.
Qed.

Lemma settles_rewriteServiceWorker : settles "background" rewriteServiceWorker.
Proof.
  intros m m'. unfold rewriteServiceWorker.
  destruct (m !! "background") as [[| | | | |background]|] eqn:B;
    try (intros H; injection H as <-; split; [reflexivity|];
         intros m2 ->; rewrite B; reflexivity).
  destruct (background !! "service_worker") as [sw|] eqn:S.
  - destruct (truthy (Some sw)) eqn:T.
    + intros H. apply bind_Ok in H as (sw' & Hsw & H). injection H as <-.
      destruct sw; try discriminate. injection Hsw as <-.
      split.
      * intros j Hj. apply lookup_insert_ne. congruence.
      * intros m2 E. rewrite lookup_insert_eq in E. rewrite E, lookup_insert_eq.
        assert (T' : truthy (Some (JStr (Str.replaceScriptExt ".js" s))) = true).
        { apply truthy_JStr, replaceScriptExt_nonempty; [discriminate|].
          apply truthy_JStr, T. }
        rewrite T'. simpl. rewrite replaceScriptExt_js_idem, insert_insert_eq.
        rewrite (insert_id m2); [reflexivity | exact E].
    + intros H. injection H as <-. split; [reflexivity|].
      intros m2 ->. rewrite B, S, T. reflexivity.
  - intros H. injection H as <-. split; [reflexivity|].
    intros m2 ->. rewrite B, S. reflexivity.
Qed.

Lemma settles_rewritePopup key : settles key (rewritePopup key).
Proof.
  intros m m'. unfold rewritePopup.
  destruct (m !! key) as [[| | | | |action]|] eqn:B;
    try (intros H; injection H as <-; split; [reflexivity|];
         intros m2 ->; rewrite B; reflexivity).
  destruct (action !! "default_popup") as [popup|] eqn:S.
  - destruct (truthy (Some popup)) eqn:T.
    + destruct popup; try discriminate. intros H. injection H as <-.
      split.
      * intros j Hj. apply lookup_insert_ne. congruence.
      * intros m2 E. rewrite lookup_insert_eq in E. rewrite E, lookup_insert_eq.
        assert (T' : truthy (Some (JStr (Str.replaceScriptExt ".html" s))) = true).
        { apply truthy_JStr, replaceScriptExt_nonempty; [discriminate|].
          apply truthy_JStr, T. }
        rewrite T'. rewrite replaceScriptExt_html_idem, insert_insert_eq.
        rewrite (insert_id m2); [reflexivity | exact E].
    + intros H. injection H as <-. split; [reflexivity|].
      intros m2 ->. rewrite B, S, T. reflexivity.
  - intros H. injection H as <-. split; [reflexivity|].
    intros m2 ->. rewrite B, S. reflexivity.
Qed.

Lemma settles_rewriteArrayField key f :
  idempotent f -> settles key (rewriteArrayField key f).
Proof.
  intros Hf m m'. unfold rewriteArrayField.
  destruct (m !! key) as [l|] eqn:B.
  - destruct (truthy (Some l)) eqn:T.
    + intros H. apply bind_Ok in H as (l' & Hl & H). injection H as <-.
      apply mapArray_Ok in Hl as (items & items' & -> & -> & Hitems).
      split.
      * intros j Hj. apply lookup_insert_ne. congruence.
      * intros m2 E. rewrite lookup_insert_eq in E. rewrite E. simpl.
        rewrite (map_result_idempotent _ _ _ Hf Hitems). simpl.
        rewrite (insert_id m2); [reflexivity | exact E].
    + intros H. injection H as <-. split; [reflexivity|].
      intros m2 ->. rewrite B, T. reflexivity.
  - intros H. injection H as <-. split; [reflexivity|].
    intros m2 ->. rewrite B. reflexivity.
Qed.

(** A run of statements on distinct keys: what it leaves alone, and that
    every statement finds nothing more to do in the result. *)
Lemma runSteps_settled (steps : list (string * (gmap string json -> result (gmap string json)))) :
  NoDup steps.*1 ->
  Forall (fun ks => settles ks.1 ks.2) steps ->
  forall m m', runSteps steps.*2 m = Ok m' ->
    (forall j, j ∉ steps.*1 -> m' !! j = m !! j) /\
    Forall (fun ks => ks.2 m' = Ok m') steps.
Proof.
  induction steps as [|[k s] steps IH]; intros Hnd Hall m m' H.
  - injection H as <-. split; [reflexivity | constructor].
  - simpl in H. apply bind_Ok in H as (m1 & Hs & H).
    apply NoDup_cons in Hnd as [Hk Hnd].
    apply Forall_cons in Hall as [Hset Hall].
    destruct (IH Hnd Hall _ _ H) as [Hframe Hfix].
    destruct (Hset _ _ Hs) as [Hother Hstable].
    split.
    + intros j Hj. simpl in Hj. apply not_elem_of_cons in Hj as [Hjk Hj].
      rewrite (Hframe _ Hj). apply Hother, Hjk.
    + constructor; [|exact Hfix].
      simpl. apply Hstable. apply Hframe, Hk.
Qed.

Lemma runSteps_fixed (steps : list (gmap string json -> result (gmap string json))) m :
  Forall (fun s => s m = Ok m) steps -> runSteps steps m = Ok m.
Proof.
  induction 1 as [|s steps Hs _ IH]; [reflexivity|].
  simpl. rewrite Hs. exact IH.
Qed.

Lemma runSteps_idempotent (steps : list (string * (gmap string json -> result (gmap string json)))) :
  NoDup steps.*1 ->
  Forall (fun ks => settles ks.1 ks.2) steps ->
  forall m m', runSteps steps.*2 m = Ok m' -> runSteps steps.*2 m' = Ok m'.
Proof.
  intros Hnd Hall m m' H.
  destruct (runSteps_settled steps Hnd Hall m m' H) as [_ Hfix].
  apply runSteps_fixed. apply Forall_fmap. exact Hfix.
Qed.

Lemma rewriteList_JObj key f fields :
  rewriteList key f (JObj fields) =
  fields' ← rewriteArrayField key f fields; Ok (JObj fields').
Proof.
  unfold rewriteList, rewriteArrayField, getProp. rewrite bind_Ok_l.
  destruct (fields !! key) as [l|]; [|reflexivity].
  destruct (truthy (Some l)); [|reflexivity].
  destruct (mapArray f l); reflexivity.
Qed.

(** The callback of [content_scripts.map] as a run of two statements. *)
Lemma rewriteContentScript_JObj fields :
  rewriteContentScript (JObj fields) =
  fields' ← runSteps [rewriteArrayField "js" replaceFileExtension;
                      rewriteArrayField "css" replaceFileExtension] fields;
  Ok (JObj fields').
Proof.
  unfold rewriteContentScript. rewrite rewriteList_JObj. simpl.
  destruct (rewriteArrayField "js" replaceFileExtension fields) as [f1|]; [|reflexivity].
  rewrite !bind_Ok_l, rewriteList_JObj.
  destruct (rewriteArrayField "css" replaceFileExtension f1); reflexivity.
Qed.

Lemma rewriteContentScript_idempotent : idempotent rewriteContentScript.
Proof.
  intros x x' H.
  destruct x as [| | | | |fields];
    try discriminate; try (injection H as E; subst x'; reflexivity).
  rewrite rewriteContentScript_JObj in H.
  apply bind_Ok in H as (fields' & Hrun & H). injection H as <-.
  rewrite rewriteContentScript_JObj.
  assert (Hnd : NoDup ["js"; "css"]).
  { compute_done. }
  assert (Hall : Forall (fun ks => settles ks.1 ks.2)
                   [("js", rewriteArrayField "js" replaceFileExtension);
                    ("css", rewriteArrayField "css" replaceFileExtension)]).
  { repeat apply List.Forall_cons; try apply List.Forall_nil;
      apply settles_rewriteArrayField, replaceFileExtension_idempotent. }
  assert (Hfix := runSteps_idempotent
                    [("js", rewriteArrayField "js" replaceFileExtension);
                     ("css", rewriteArrayField "css" replaceFileExtension)]
                    Hnd Hall _ _ Hrun).
  cbn [fmap list_fmap fst snd] in Hfix. rewrite Hfix. reflexivity.
Qed.

Lemma rewriteResource_idempotent : idempotent rewriteResource.
Proof.
  intros x x' H. unfold rewriteResource in *.
  destruct x as [| | | | |fields];
    try discriminate; try (injection H as E; subst x'; reflexivity).
  rewrite rewriteList_JObj in H.
  apply bind_Ok in H as (fields' & Hrun & H). injection H as <-.
  rewrite rewriteList_JObj.
  destruct (settles_rewriteArrayField "resources" rewriteResourcePath
              rewriteResourcePath_idempotent _ _ Hrun) as [_ Hstable].
  rewrite (Hstable fields' eq_refl). reflexivity.
Qed.

Lemma manifestSteps_keys pkg : NoDup (manifestSteps pkg).*1.
Proof. compute_done. Qed.

Lemma manifestSteps_settle pkg :
  Forall (fun ks => settles ks.1 ks.2) (manifestSteps pkg).
Proof.
  unfold manifestSteps.
  repeat apply List.Forall_cons; try apply List.Forall_nil; cbn [fst snd];
    auto using settles_backfill, settles_rewriteServiceWorker, settles_rewritePopup,
      settles_rewriteArrayField, rewriteContentScript_idempotent,
      rewriteResource_idempotent.
Qed.

(** [processManifest] is the run of its statements on a copy of the
    manifest, and the timestamp in development mode. *)
Lemma processManifest_steps fs now manifestContent isDevelopment :
  processManifest fs now manifestContent isDevelopment =
  pkg ← readPackageJson fs;
  manifest ← runSteps (manifestSteps pkg).*2 (spread manifestContent);
  Ok (JObj (if isDevelopment then <["__dev_timestamp" := JNum now]> manifest
            else manifest)).
Proof.
  unfold processManifest.
  destruct (readPackageJson fs) as [pkg|]; [|reflexivity].
  rewrite !bind_Ok_l. cbn [manifestSteps fmap list_fmap runSteps snd actionKeys foldl].
  repeat match goal with
         | |- context [?s ?m ≫= _] =>
             lazymatch type of m with
             | gmap string json => destruct (s m); [rewrite ?bind_Ok_l | reflexivity]
             end
         end.
  reflexivity.
Qed.

(** The statement of key [k] in a run: it starts from the field the run
    started from, and its result is the field the run ends with. *)
Lemma runSteps_at (steps : list (string * (gmap string json -> result (gmap string json)))) :
  NoDup steps.*1 ->
  Forall (fun ks => settles ks.1 ks.2) steps ->
  forall k s m m', (k, s) ∈ steps -> runSteps steps.*2 m = Ok m' ->
    exists m1 m2, m1 !! k = m !! k /\ s m1 = Ok m2 /\ m' !! k = m2 !! k.
Proof.
  induction steps as [|[k0 s0] steps IH]; intros Hnd Hall k s m m' Hin H.
  - apply elem_of_nil in Hin as [].
  - simpl in H. apply bind_Ok in H as (ma & Hs0 & H).
    apply NoDup_cons in Hnd as [Hk0 Hnd].
    apply Forall_cons in Hall as [Hset Hall].
    apply elem_of_cons in Hin as [E | Hin].
    + injection E as -> ->. exists m, ma. split; [reflexivity|]. split; [exact Hs0|].
      apply (runSteps_settled steps Hnd Hall _ _ H), Hk0.
    + destruct (IH Hnd Hall _ _ _ _ Hin H) as (m1 & m2 & E1 & Hs & E2).
      exists m1, m2. split; [|split; assumption].
      rewrite E1. apply (Hset _ _ Hs0).
      intros ->. apply Hk0. apply list_elem_of_fmap. exists (k0, s). split; [reflexivity | exact Hin].
Qed.

Lemma processManifest_Ok fs now manifestContent isDevelopment processed :
  processManifest fs now manifestContent isDevelopment = Ok processed ->
  exists pkg m',
    readPackageJson fs = Ok pkg /\
    runSteps (manifestSteps pkg).*2 (spread manifestContent) = Ok m' /\
    processed = JObj (if isDevelopment then <["__dev_timestamp" := JNum now]> m' else m').
Proof.
  rewrite processManifest_steps. intros H.
  apply bind_Ok in H as (pkg & Hpkg & H). apply bind_Ok in H as (m' & Hrun & H).
  injection H as E. exists pkg, m'. auto.
Qed.

(** The field of key [k] after processing is the one its statement [s]
    produced from the field of the manifest. *)
Lemma processManifest_at fs now fields isDevelopment processed pkg k s :
  processManifest fs now (JObj fields) isDevelopment = Ok processed ->
  readPackageJson fs = Ok pkg ->
  (k, s) ∈ manifestSteps pkg ->
  exists m1 m2, m1 !! k = fields !! k /\ s m1 = Ok m2 /\
                getPropOpt (Some processed) k = m2 !! k.
Proof.
  intros H Hpkg Hin.
  apply processManifest_Ok in H as (pkg' & m' & Hpkg' & Hrun & ->).
  assert (pkg' = pkg) as -> by congruence.
  destruct (runSteps_at _ (manifestSteps_keys pkg) (manifestSteps_settle pkg)
              _ _ _ _ Hin Hrun) as (m1 & m2 & E1 & Hs & E2).
  exists m1, m2. split; [exact E1|]. split; [exact Hs|].
  cbn [getPropOpt]. destruct isDevelopment; [|exact E2].
  rewrite lookup_insert_ne; [exact E2|].
  intros <-. revert Hin. unfold manifestSteps. clear. intros Hin.
  repeat (apply elem_of_cons in Hin as [Hin|Hin]; [discriminate Hin|]).
  apply elem_of_nil in Hin as [].
Qed.
(** *** The processor returns on the manifests of the schema *)

Lemma map_result_total (f : json -> result json) (ok : json -> bool) items :
  (forall x, ok x = true -> exists x', f x = Ok x') ->
  forallb ok items = true -> exists items', map_result f items = Ok items'.
Proof.
  intros Hf. induction items as [|x items IH]; intros H.
  - exists []. reflexivity.
  - simpl in H. apply andb_true_iff in H as [Hx H].
    destruct (Hf _ Hx) as [x' Ex]. destruct (IH H) as [items' Ei].
    exists (x' :: items'). simpl. rewrite Ex, bind_Ok_l, Ei. reflexivity.
Qed.

Lemma replaceFileExtension_total x :
  isString x = true -> exists x', replaceFileExtension x = Ok x'.
Proof. destruct x; try discriminate. intros _. eexists. reflexivity. Qed.

Lemma rewriteResourcePath_total x :
  isString x = true -> exists x', rewriteResourcePath x = Ok x'.
Proof.
  destruct x; try discriminate. intros _. unfold rewriteResourcePath.
  destruct (Str.testScriptExt _); eexists; reflexivity.
Qed.

Lemma rewriteArrayField_total key f ok :
  (forall x, ok x = true -> exists x', f x = Ok x') ->
  succeedsOn key (optionalArray ok) (rewriteArrayField key f).
Proof.
  intros Hf m H. unfold rewriteArrayField.
  destruct (m !! key) as [l|]; [|eexists; reflexivity].
  destruct (truthy (Some l)) eqn:T; [|eexists; reflexivity].
  destruct l; cbn [optionalArray] in H; try (rewrite T in H; discriminate H).
  destruct (map_result_total f ok items Hf H) as [items' E].
  exists (<[key := JArr items']> m). cbn [mapArray]. rewrite E. reflexivity.
Qed.

Lemma rewriteContentScript_total x :
  contentScriptOk x = true -> exists x', rewriteContentScript x = Ok x'.
Proof.
  destruct x as [| | | | |fields]; try discriminate; try (intros _; eexists; reflexivity).
  intros H. cbn [contentScriptOk] in H. apply andb_true_iff in H as [Hjs Hcss].
  unfold rewriteContentScript. rewrite rewriteList_JObj.
  destruct (rewriteArrayField_total "js" replaceFileExtension isString
              replaceFileExtension_total fields Hjs) as [f1 E1].
  rewrite E1, !bind_Ok_l, rewriteList_JObj.
  destruct (settles_rewriteArrayField "js" _ replaceFileExtension_idempotent _ _ E1)
    as [Hframe _].
  destruct (rewriteArrayField_total "css" replaceFileExtension isString
              replaceFileExtension_total f1) as [f2 E2].
  { rewrite Hframe by discriminate. exact Hcss. }
  rewrite E2. eexists. reflexivity.
Qed.

Lemma rewriteResource_total x :
  resourceOk x = true -> exists x', rewriteResource x = Ok x'.
Proof.
  destruct x as [| | | | |fields]; try discriminate; try (intros _; eexists; reflexivity).
  intros H. cbn [resourceOk] in H. unfold rewriteResource. rewrite rewriteList_JObj.
  destruct (rewriteArrayField_total "resources" rewriteResourcePath isString
              rewriteResourcePath_total fields H) as [f1 E1].
  rewrite E1. eexists. reflexivity.
Qed.

Lemma backfill_total key pkg :
  pkg <> JNull -> succeedsOn key (fieldOk key) (backfill key pkg).
Proof.
  intros Hpkg m _. unfold backfill. destruct (truthy (m !! key)); [eexists; reflexivity|].
  destruct pkg; try congruence; cbn [getProp]; rewrite bind_Ok_l;
    try (eexists; reflexivity).
  destruct (fields !! key) as [x|]; [|eexists; reflexivity].
  destruct (truthy (Some x)); eexists; reflexivity.
Qed.

Lemma rewriteServiceWorker_total :
  succeedsOn "background" (fieldOk "background") rewriteServiceWorker.
Proof.
  intros m H. unfold rewriteServiceWorker. cbn in H.
  destruct (m !! "background") as [[| | | | |background]|]; try (eexists; reflexivity).
  destruct (background !! "service_worker") as [sw|]; [|eexists; reflexivity].
  destruct (truthy (Some sw)) eqn:T; [|eexists; reflexivity].
  destruct sw; cbn [optionalPath] in H; try (rewrite T in H; discriminate H).
  eexists. reflexivity.
Qed.

Lemma rewritePopup_total key :
  key ∈ actionKeys -> succeedsOn key (fieldOk key) (rewritePopup key).
Proof.
  intros Hkey m H. unfold rewritePopup.
  assert (E : fieldOk key (m !! key) =
              match m !! key with
              | Some (JObj action) => optionalPath (action !! "default_popup")
              | _ => true
              end).
  { unfold actionKeys in Hkey.
    repeat (apply elem_of_cons in Hkey as [->|Hkey]; [reflexivity|]).
    apply elem_of_nil in Hkey as []. }
  rewrite E in H. clear E.
  destruct (m !! key) as [[| | | | |action]|]; try (eexists; reflexivity).
  destruct (action !! "default_popup") as [popup|]; [|eexists; reflexivity].
  destruct (truthy (Some popup)) eqn:T; [|eexists; reflexivity].
  destruct popup; cbn [optionalPath] in H; try (rewrite T in H; discriminate H).
  eexists. reflexivity.
Qed.

Lemma manifestSteps_succeed pkg :
  pkg <> JNull ->
  Forall (fun ks => succeedsOn ks.1 (fieldOk ks.1) ks.2) (manifestSteps pkg).
Proof.
  intros Hpkg. unfold manifestSteps.
  repeat apply List.Forall_cons; try apply List.Forall_nil; cbn [fst snd].
  - apply backfill_total, Hpkg.
  - apply backfill_total, Hpkg.
  - apply backfill_total, Hpkg.
  - apply rewriteServiceWorker_total.
  - apply (rewriteArrayField_total _ _ contentScriptOk), rewriteContentScript_total.
  - apply (rewriteArrayField_total _ _ resourceOk), rewriteResource_total.
  - apply rewritePopup_total. compute_done.
  - apply rewritePopup_total. compute_done.
  - apply rewritePopup_total. compute_done.
Qed.

(** A run of statements on distinct keys returns when every statement
    finds its field as it wants it. *)
Lemma runSteps_total (pre : string -> jsval -> bool)
    (steps : list (string * (gmap string json -> result (gmap string json)))) :
  NoDup steps.*1 ->
  Forall (fun ks => settles ks.1 ks.2) steps ->
  Forall (fun ks => succeedsOn ks.1 (pre ks.1) ks.2) steps ->
  forall m, Forall (fun ks => pre ks.1 (m !! ks.1) = true) steps ->
    exists m', runSteps steps.*2 m = Ok m'.
Proof.
  induction steps as [|[k s] steps IH]; intros Hnd Hset Hsuc m Hpre.
  - exists m. reflexivity.
  - apply NoDup_cons in Hnd as [Hk Hnd].
    apply Forall_cons in Hset as [Hs Hset].
    apply Forall_cons in Hsuc as [Hok Hsuc].
    apply Forall_cons in Hpre as [Hm Hpre].
    cbn [fst snd] in Hs, Hok, Hm.
    destruct (Hok m Hm) as [m1 E1].
    destruct (Hs _ _ E1) as [Hframe _].
    destruct (IH Hnd Hset Hsuc m1) as [m' E'].
    { apply Forall_forall. intros [k' s'] Hin. cbn [fst].
      rewrite Hframe.
      - apply (proj1 (Forall_forall _ _) Hpre (k', s') Hin).
      - intros ->. apply Hk. apply list_elem_of_fmap. exists (k, s'). auto. }
    exists m'. cbn [fmap list_fmap snd runSteps]. rewrite E1. exact E'.
Qed.

(** [processManifest] returns on every well-formed manifest when the
    package.json can be read. *)
Lemma processManifest_total fs now manifest isDevelopment :
  packageReadable fs = true ->
  wellFormed manifest = true ->
  exists processed, processManifest fs now manifest isDevelopment = Ok processed.
Proof.
  intros Hpkg Hwf. rewrite processManifest_steps.
  assert (exists pkg, readPackageJson fs = Ok pkg /\ pkg <> JNull) as (pkg & -> & Hnull).
  { unfold packageReadable in Hpkg. unfold readPackageJson.
    destruct (packageJson fs) as [[|pkg]|]; try discriminate Hpkg.
    - exists pkg. split; [reflexivity|]. intros ->. discriminate Hpkg.
    - exists (JObj ∅). split; [reflexivity | discriminate]. }
  rewrite bind_Ok_l.
  destruct manifest as [| | | | |fields]; try discriminate Hwf.
  destruct (runSteps_total fieldOk (manifestSteps pkg) (manifestSteps_keys pkg)
              (manifestSteps_settle pkg) (manifestSteps_succeed pkg Hnull) fields)
    as [m' E].
  { cbn [wellFormed] in Hwf. rewrite forallb_forall in Hwf.
    unfold manifestSteps.
    repeat apply List.Forall_cons; try apply List.Forall_nil; cbn [fst];
      try reflexivity; apply Hwf; cbn; tauto. }
  cbn [spread]. rewrite E. eexists. reflexivity.
Qed.
End ManifestFacts.

Section ManifestClaims.
Import Manifest.

(** C1.  When [background.service_worker] of the manifest is a path that
    ends in [.js], [.jsx], [.ts] or [.tsx], the same field of the
    processed manifest is that path with its extension replaced by [.js],
    so it ends in [.js]; for the path [src/background/index.ts] it is
    [src/background/index.js].  The processor returns on such a manifest
    when it is well formed and the package.json can be read. *)
Theorem service_worker_extension_rewritten fs now manifest isDevelopment (s : string) :
  serviceWorkerOf manifest = Some (JStr s) ->
  hasSourceExtension s = true ->
  (forall processed,
      processManifest fs now manifest isDevelopment = Ok processed ->
      serviceWorkerOf processed = Some (JStr (Str.replaceScriptExt ".js" s)) /\
      Str.endsWith (Str.replaceScriptExt ".js" s) ".js" = true /\
      (s = "src/background/index.ts" ->
       serviceWorkerOf processed = Some (JStr "src/background/index.js"))) /\
  (packageReadable fs = true -> wellFormed manifest = true ->
   exists processed, processManifest fs now manifest isDevelopment = Ok processed).
Proof.
  intros Hsw Hext. split; [|apply processManifest_total].
  intros processed H.
  destruct manifest as [| | | | |fields]; try discriminate Hsw.
  unfold serviceWorkerOf in Hsw. cbn [getPropOpt] in Hsw.
  destruct (fields !! "background") as [[| | | | |background]|] eqn:B; try discriminate Hsw.
  cbn [getPropOpt] in Hsw.
  destruct (processManifest_Ok _ _ _ _ _ H) as (pkg & _ & Hpkg & _ & _).
  destruct (processManifest_at fs now fields isDevelopment processed pkg
              "background" rewriteServiceWorker H Hpkg) as (m1 & m2 & E1 & Hs & E2).
  { unfold manifestSteps. set_solver. }
  assert (T : truthy (Some (JStr s)) = true).
  { apply truthy_JStr. intros ->. discriminate Hext. }
  unfold rewriteServiceWorker in Hs. rewrite E1, B, Hsw, T in Hs.
  cbn in Hs. injection Hs as <-.
  assert (E : serviceWorkerOf processed = Some (JStr (Str.replaceScriptExt ".js" s))).
  { unfold serviceWorkerOf. rewrite E2, lookup_insert_eq. cbn [getPropOpt].
    apply lookup_insert_eq. }
  split; [exact E|]. split.
  - apply replaceScriptExt_endsWith, testScriptExt_spec.
    unfold hasSourceExtension in Hext. rewrite !orb_true_iff in Hext. tauto.
  - intros ->. exact E.
Qed.

(** The processor on the manifest of the scenario. *)
Lemma service_worker_extension_rewritten_witness :
  serviceWorkerOf (Examples.backgroundManifest "src/background/index.ts")
    = Some (JStr "src/background/index.ts") /\
  processManifest Examples.emptyProject 0
    (Examples.backgroundManifest "src/background/index.ts") false
    = Ok (Examples.backgroundManifest "src/background/index.js") /\
  serviceWorkerOf (Examples.backgroundManifest "src/background/index.js")
    = Some (JStr "src/background/index.js").
Proof.
  split; [reflexivity|]. split; [vm_compute; reflexivity|].
  destruct (service_worker_extension_rewritten Examples.emptyProject 0
              (Examples.backgroundManifest "src/background/index.ts") false
              "src/background/index.ts" eq_refl eq_refl) as [H _].
  destruct (H (Examples.backgroundManifest "src/background/index.js")) as (_ & _ & E).
  - vm_compute; reflexivity.
  - apply E. reflexivity.
Defined.

(** C2.  In production mode the processor leaves a manifest it has
    produced as it is: processing the output again, with the same
    package metadata, returns the output. *)
Theorem processManifest_idempotent fs now now' manifest processed :
  processManifest fs now manifest false = Ok processed ->
  processManifest fs now' processed false = Ok processed.
Proof.
  intros H. apply processManifest_Ok in H as (pkg & m' & Hpkg & Hrun & ->).
  rewrite processManifest_steps, Hpkg, bind_Ok_l. cbn [spread].
  rewrite (runSteps_idempotent _ (manifestSteps_keys pkg) (manifestSteps_settle pkg)
             _ _ Hrun).
  reflexivity.
Qed.

(** Two runs on a manifest with scripts, styles, resources and a popup. *)
Lemma processManifest_idempotent_witness :
  processManifest Examples.packagedProject 1700000000000 Examples.fullManifest false
    = Ok Examples.fullManifestProcessed /\
  processManifest Examples.packagedProject 1700000000500 Examples.fullManifestProcessed false
    = Ok Examples.fullManifestProcessed.
Proof.
  split; [vm_compute; reflexivity|].
  apply (processManifest_idempotent Examples.packagedProject 1700000000000
           1700000000500 Examples.fullManifest).
  vm_compute; reflexivity.
Defined.

(** C8, as the code has it.  For [name], [version] and [description]:
    when the field of the manifest is absent or falsy (the empty string,
    [null], [0], [false]) and the value of the package metadata is truthy,
    the processed manifest has the value of the package metadata; in every
    other case (the field of the manifest is truthy, or the package
    metadata has no truthy value) the field is as it was in the manifest,
    absent if it was absent.  The processor returns on a well-formed
    manifest when the package.json can be read. *)
Theorem metadata_backfilled fs now fields isDevelopment pkg key :
  key ∈ backfilledKeys ->
  readPackageJson fs = Ok pkg ->
  (forall processed,
      processManifest fs now (JObj fields) isDevelopment = Ok processed ->
      getPropOpt (Some processed) key =
        if truthy (fields !! key) then fields !! key
        else if truthy (getPropOpt (Some pkg) key) then getPropOpt (Some pkg) key
             else fields !! key) /\
  (packageReadable fs = true -> wellFormed (JObj fields) = true ->
   exists processed, processManifest fs now (JObj fields) isDevelopment = Ok processed).
Proof.
  intros Hkey Hpkg. split; [|apply processManifest_total].
  intros processed H.
  destruct (processManifest_at fs now fields isDevelopment processed pkg
              key (backfill key pkg) H Hpkg) as (m1 & m2 & E1 & Hs & E2).
  { unfold backfilledKeys in Hkey. unfold manifestSteps.
    repeat (apply elem_of_cons in Hkey as [->|Hkey]; [set_solver|]).
    apply elem_of_nil in Hkey as []. }
  rewrite E2. clear E2 H. unfold backfill in Hs. rewrite E1 in Hs.
  destruct (truthy (fields !! key)).
  - injection Hs as <-. exact E1.
  - apply bind_Ok in Hs as (v & Hv & Hs).
    assert (Ev : getPropOpt (Some pkg) key = v).
    { destruct pkg; try discriminate Hv; cbn in Hv |- *; congruence. }
    rewrite Ev. destruct v as [x|].
    + destruct (truthy (Some x)); injection Hs as <-.
      * apply lookup_insert_eq.
      * exact E1.
    + injection Hs as <-. exact E1.
Qed.

(** The empty name of the manifest is replaced by the name of the package. *)
Lemma metadata_backfilled_witness :
  "name" ∈ backfilledKeys /\
  processManifest Examples.packagedProject 1700000000000 Examples.fullManifest false
    = Ok Examples.fullManifestProcessed /\
  getPropOpt (Some Examples.fullManifestProcessed) "name" = Some (JStr "my-extension").
Proof.
  split; [compute_done|]. split; [vm_compute; reflexivity|].
  destruct (metadata_backfilled Examples.packagedProject 1700000000000
              Examples.fullManifestFields false Examples.packageMetadata "name")
    as [H _]; [compute_done | reflexivity |].
  rewrite (H Examples.fullManifestProcessed); vm_compute; reflexivity.
Defined.

(** C8 as stated fails.  The manifest has no [description] and the
    package metadata has the description [""], as [npm init] writes it:
    the processed manifest has no [description], which is not the value
    of the package metadata.  And a manifest whose [name] is present as
    [""] does not keep it: it gets the name of the package. *)
Lemma metadata_backfilled_counterexample :
  let manifest := JObj {[ "name" := JStr "x"; "version" := JStr "1" ]} in
  let pkg := Examples.packageMetadata in
  readPackageJson Examples.packagedProject = Ok pkg /\
  (* the description is absent, and the processed one is not the package's *)
  getPropOpt (Some manifest) "description" = None /\
  getPropOpt (Some pkg) "description" = Some (JStr "") /\
  processManifest Examples.packagedProject 0 manifest false = Ok manifest /\
  getPropOpt (Some manifest) "description" <> getPropOpt (Some pkg) "description" /\
  (* the name is present, and the processed one is another *)
  getPropOpt (Some Examples.fullManifest) "name" = Some (JStr "") /\
  processManifest Examples.packagedProject 0 Examples.fullManifest false
    = Ok Examples.fullManifestProcessed /\
  getPropOpt (Some Examples.fullManifestProcessed) "name"
    <> getPropOpt (Some Examples.fullManifest) "name".
Proof.
  cbv zeta. repeat split; try (vm_compute; reflexivity); vm_compute; discriminate.
Qed.
End ManifestClaims.

(** ** Entry discovery *)

Section EntriesFacts.
Import Entries.
Implicit Types (entries : gmap string string) (es : list Entry).

Lemma foldl_addEntry_app entries es1 es2 :
  foldl addEntry entries (es1 ++ es2)%list = foldl addEntry (foldl addEntry entries es1) es2.
Proof. apply foldl_app. Qed.

Lemma getExtensionPageEntries_fold fs :
  getExtensionPageEntries fs = foldl addEntry ∅ (discoveredScripts fs).
Proof.
  unfold getExtensionPageEntries, discoveredScripts.
  generalize (∅ : gmap string string).
  induction (htmlFiles fs) as [|html htmls IH]; intros entries.
  - reflexivity.
  - simpl. rewrite foldl_addEntry_app. apply IH.
Qed.






Lemma stripPrefix_Some p s rest : Str.stripPrefix p s = Some rest -> s = p ++ rest.
Proof.
  revert s. induction p as [|a p IH]; intros s H.
  - simpl in H. injection H as ->. reflexivity.
  - destruct s as [|b s]; [discriminate|]. simpl in H.
    destruct (Ascii.eqb_spec a b) as [->|]; [|discriminate].
    apply IH in H. rewrite H. reflexivity.
Qed.

Lemma stripPrefix_refl p : Str.stripPrefix p p = Some "".
Proof.
  induction p as [|a p IH]; [reflexivity|]. simpl. rewrite Ascii.eqb_refl. exact IH.
Qed.

(** Where the extension occurs in the path at its end only, removing its
    first occurrence is stripping it. *)
Lemma replaceFirst_stripSuffix ext rel :
  (forall p q, rel = p ++ ext ++ q -> q = "") ->
  Str.replaceFirst ext "" rel = Spec.stripSuffix ext rel.
Proof.
  induction rel as [|c rel IH]; intros H.
  - simpl. destruct ext; reflexivity.
  - cbn [Str.replaceFirst Spec.stripSuffix].
    destruct (Str.stripPrefix ext (String c rel)) as [rest|] eqn:E.
    + apply stripPrefix_Some in E.
      assert (rest = "") as -> by (apply (H ""); exact E).
      assert (E' : String c rel = ext).
      { rewrite E. clear. induction ext as [|a ext IHe]; [reflexivity|].
      change (String a ext ++ "") with (String a (ext ++ "")). rewrite IHe. reflexivity. }
      rewrite E', String.eqb_refl. reflexivity.
    + destruct (String.eqb_spec (String c rel) ext) as [E'|_].
      { rewrite E', stripPrefix_refl in E. discriminate. }
      rewrite IH; [reflexivity|].
      intros p q Hr. apply (H (String c p)). rewrite Hr. reflexivity.
Qed.

Lemma stripSuffix_empty rel : Spec.stripSuffix "" rel = rel.
Proof.
  induction rel as [|c rel IH]; [reflexivity|].
  cbn [Spec.stripSuffix]. rewrite IH. reflexivity.
Qed.

(** The name of the code is the name of the spec for every path without
    extension, and for every path in which the extension of the file
    occurs at the end only. *)
Lemma getEntry_name_stripped fs entryPath :
  let relativePath := Path.relative (cwd fs) (cwd fs) entryPath in
  Path.ext relativePath = "" \/
  (forall p q, relativePath = p ++ Path.ext relativePath ++ q -> q = "") ->
  name (getEntry fs entryPath) = Spec.entryName fs entryPath.
Proof.
  cbv zeta. intros [H|H]; unfold getEntry, Spec.entryName; cbn [name].
  - rewrite H, stripSuffix_empty.
    destruct (Path.relative (cwd fs) (cwd fs) entryPath); reflexivity.
  - rewrite (replaceFirst_stripSuffix _ _ H). reflexivity.
Qed.
End EntriesFacts.

Section EntriesClaims.
Import Entries.




(** C4 fails on the code: [relativePath.replace(parsedPath.ext, '')]
    removes the first occurrence of the extension, which need not be the
    one at the end.  For a content script under a directory named
    [chart.js] the name loses the [.js] of the directory and keeps the
    extension of the file, where the stated name is the path without its
    last [.js]. *)
Theorem entry_name_first_occurrence :
  getEntry Examples.emptyProject "vendor/chart.js/content.js"
    = {| name := "vendor/chart/content.js"; path := "./vendor/chart.js/content.js" |} /\
  Spec.entryName Examples.emptyProject "vendor/chart.js/content.js"
    = "vendor/chart.js/content" /\
  name (getEntry Examples.emptyProject "vendor/chart.js/content.js")
    <> Spec.entryName Examples.emptyProject "vendor/chart.js/content.js" /\
  getEntry Examples.emptyProject "src/background/index.ts"
    = {| name := "src/background/index"; path := "./src/background/index.ts" |} /\
  Spec.entryName Examples.emptyProject "src/background/index.ts"
    = "src/background/index".
Proof. repeat split; try (vm_compute; reflexivity). vm_compute. discriminate. Qed.

End EntriesClaims.

(** ** What the functions throw *)

Section Exceptions.
Context {P : error -> Prop}.

Lemma throwsOnly_bind {A B : Type} (r : result A) (k : A -> result B) :
  throwsOnly P r -> (forall a, throwsOnly P (k a)) -> throwsOnly P (r ≫= k).
Proof. destruct r as [a|e]; intros Hr Hk; [apply Hk | exact Hr]. Qed.

Lemma throwsOnly_map_result (f : json -> result json) items :
  (forall x, throwsOnly P (f x)) -> throwsOnly P (map_result f items).
Proof.
  intros Hf. induction items as [|x items IH]; [exact I|].
  simpl. apply throwsOnly_bind; [apply Hf|]. intros x'.
  apply throwsOnly_bind; [exact IH|]. intros; exact I.
Qed.

Lemma throwsOnly_foldl {A B : Type} (f : A -> B -> result A) (l : list B) (r : result A) :
  throwsOnly P r -> (forall a b, throwsOnly P (f a b)) ->
  throwsOnly P (foldl (fun acc b => acc ≫= fun a => f a b) r l).
Proof.
  intros Hr Hf. revert r Hr. induction l as [|b l IH]; intros r Hr; [exact Hr|].
  simpl. apply IH. apply throwsOnly_bind; [exact Hr|]. intros a. apply Hf.
Qed.

Lemma throwsOnly_runSteps steps m :
  Forall (fun s => forall m, throwsOnly P (s m)) steps ->
  throwsOnly P (Manifest.runSteps steps m).
Proof.
  intros H. revert m. induction H as [|s steps Hs _ IH]; intros m; [exact I|].
  simpl. apply throwsOnly_bind; [apply Hs | exact IH].
Qed.
End Exceptions.

Section ExceptionFacts.
Import Manifest Entries.

Ltac throws :=
  repeat first
    [ exact I
    | reflexivity
    | progress cbn [throwsOnly]
    | apply throwsOnly_bind; [|intros ?]
    | match goal with
      | |- throwsOnly _ (match ?x with _ => _ end) => destruct x
      | |- throwsOnly _ (if ?b then _ else _) => destruct b
      end ].

Lemma getProp_throws v key : throwsOnly (eq TypeError) (getProp v key).
Proof. unfold getProp. throws. Qed.

Lemma replaceFileExtension_throws x : throwsOnly (eq TypeError) (replaceFileExtension x).
Proof. unfold replaceFileExtension. throws. Qed.

Lemma mapArray_throws f v :
  (forall x, throwsOnly (eq TypeError) (f x)) -> throwsOnly (eq TypeError) (mapArray f v).
Proof.
  intros Hf. unfold mapArray. destruct v; try reflexivity.
  apply throwsOnly_bind; [apply throwsOnly_map_result, Hf | intros; exact I].
Qed.

Lemma rewriteList_throws key f x :
  (forall y, throwsOnly (eq TypeError) (f y)) ->
  throwsOnly (eq TypeError) (rewriteList key f x).
Proof.
  intros Hf. unfold rewriteList.
  apply throwsOnly_bind; [apply getProp_throws|]. intros v.
  destruct x; try exact I. destruct v; try exact I.
  destruct (truthy _); [|exact I].
  apply throwsOnly_bind; [apply mapArray_throws, Hf | intros; exact I].
Qed.

Lemma rewriteArrayField_throws key f m :
  (forall y, throwsOnly (eq TypeError) (f y)) ->
  throwsOnly (eq TypeError) (rewriteArrayField key f m).
Proof.
  intros Hf. unfold rewriteArrayField.
  destruct (m !! key); [|exact I]. destruct (truthy _); [|exact I].
  apply throwsOnly_bind; [apply mapArray_throws, Hf | intros; exact I].
Qed.

Lemma manifestSteps_throw pkg :
  Forall (fun s => forall m, throwsOnly (eq TypeError) (s m)) (manifestSteps pkg).*2.
Proof.
  unfold manifestSteps. cbn [fmap list_fmap snd].
  repeat apply List.Forall_cons; try apply List.Forall_nil; intros m.
  1-3: unfold backfill; destruct (truthy _); [exact I|];
       (apply throwsOnly_bind; [apply getProp_throws|]); intros v; throws.
  - unfold rewriteServiceWorker. throws. apply replaceFileExtension_throws.
  - apply rewriteArrayField_throws. intros y. unfold rewriteContentScript.
    apply throwsOnly_bind; [|intros ?];
      apply rewriteList_throws, replaceFileExtension_throws.
  - apply rewriteArrayField_throws. intros y. unfold rewriteResource.
    apply rewriteList_throws. intros z. unfold rewriteResourcePath.
    destruct (Str.testScriptExt _); [apply replaceFileExtension_throws | exact I].
  - unfold rewritePopup. throws.
  - unfold rewritePopup. throws.
  - unfold rewritePopup. throws.
Qed.

Lemma readPackageJson_throws fs : throwsOnly (eq SyntaxError) (readPackageJson fs).
Proof.
  unfold readPackageJson. destruct (packageJson fs) as [[|content]|]; cbn; auto.
Qed.

Lemma throwsOnly_weaken {A : Type} (P Q : error -> Prop) (r : result A) :
  (forall e, P e -> Q e) -> throwsOnly P r -> throwsOnly Q r.
Proof. intros H. destruct r; cbn; auto. Qed.

(** What [processManifest] throws is a [TypeError] of its own or the
    [SyntaxError] of a package.json that is no JSON. *)
Lemma processManifest_throws fs now manifestContent isDevelopment :
  throwsOnly typeOrSyntax (processManifest fs now manifestContent isDevelopment).
Proof.
  rewrite processManifest_steps.
  apply throwsOnly_bind.
  { apply (throwsOnly_weaken (eq SyntaxError)); [|apply readPackageJson_throws].
    intros e <-. right. reflexivity. }
  intros pkg. apply throwsOnly_bind; [|intros; exact I].
  apply (throwsOnly_weaken (eq TypeError)).
  { intros e <-. left. reflexivity. }
  apply throwsOnly_runSteps, manifestSteps_throw.
Qed.

Lemma getEntryOf_throws fs v : throwsOnly (eq TypeError) (getEntryOf fs v).
Proof. unfold getEntryOf. throws. Qed.

Lemma forEachArray_throws f l entries :
  (forall e x, throwsOnly (eq TypeError) (f e x)) ->
  throwsOnly (eq TypeError) (forEachArray f l entries).
Proof.
  intros Hf. unfold forEachArray. destruct l; try reflexivity.
  apply (throwsOnly_foldl f); [exact I | exact Hf].
Qed.

Lemma getBackgroundEntries_throws fs manifestJson :
  throwsOnly (eq TypeError) (getBackgroundEntries fs manifestJson).
Proof.
  unfold getBackgroundEntries.
  apply throwsOnly_bind; [apply getProp_throws|]. intros background.
  destruct (getPropOpt _ _); [|exact I]. destruct (truthy _); [|exact I].
  apply throwsOnly_bind; [apply getEntryOf_throws | intros; exact I].
Qed.

Lemma getContentScriptEntries_throws fs manifestJson :
  throwsOnly (eq TypeError) (getContentScriptEntries fs manifestJson).
Proof.
  unfold getContentScriptEntries.
  apply throwsOnly_bind; [apply getProp_throws|]. intros contentScripts.
  destruct contentScripts; [|exact I]. destruct (truthy _); [|exact I].
  apply forEachArray_throws. intros entries contentScript.
  apply throwsOnly_bind; [apply getProp_throws|]. intros js.
  destruct js; [|exact I]. destruct (truthy _); [|exact I].
  apply forEachArray_throws. intros entries' file.
  apply throwsOnly_bind; [apply getEntryOf_throws | intros; exact I].
Qed.
End ExceptionFacts.

(** ** The missing manifest *)

Section LifecycleClaims.
Import Manifest Entries.

(** C9.  Without a manifest.json, entry discovery and the start of the
    manifest plugin both throw the error [No manifest.json found in
    project root]: no entry map is returned, the plugin keeps no
    manifest, and a plugin that holds no manifest emits no file.  With a
    manifest.json, neither of them throws that error. *)
Theorem missing_manifest_is_fatal fs :
  (manifestJson fs = None ->
     discoverEntries fs = Throw missingManifest /\
     forall now p, buildStart fs now p = Throw missingManifest) /\
  (forall p, manifestContent p = None ->
     generateBundle p = Throw (JsError "Manifest content not loaded")) /\
  (forall f, manifestJson fs = Some f ->
     discoverEntries fs <> Throw missingManifest /\
     forall now p, buildStart fs now p <> Throw missingManifest).
Proof.
  split; [|split].
  - intros H. unfold discoverEntries, buildStart. rewrite H. auto.
  - intros p H. unfold generateBundle. rewrite H. reflexivity.
  - intros f H. unfold discoverEntries, buildStart. rewrite H. cbn [existsSync negb].
    split.
    + intros E.
      assert (T : throwsOnly typeOrSyntax
                    (manifestJson ← readJSONSync (Some f);
                     backgroundEntries ← getBackgroundEntries fs manifestJson;
                     contentScriptEntries ← getContentScriptEntries fs manifestJson;
                     Ok {| background := backgroundEntries;
                           contentScript := contentScriptEntries;
                           extensionPage := getExtensionPageEntries fs |})).
      { apply throwsOnly_bind.
        { destruct f; cbn; [right; reflexivity | exact I]. }
        intros m. apply throwsOnly_bind.
        { apply (throwsOnly_weaken (eq TypeError)); [|apply getBackgroundEntries_throws].
          intros e <-. left. reflexivity. }
        intros b. apply throwsOnly_bind; [|intros; exact I].
        apply (throwsOnly_weaken (eq TypeError)); [|apply getContentScriptEntries_throws].
        intros e <-. left. reflexivity. }
      rewrite E in T. destruct T; discriminate.
    + intros now p E.
      assert (T : throwsOnly typeOrSyntax
                    (rawManifest ← readJSONSync (Some f);
                     processed ← processManifest fs now rawManifest (isDevelopment p);
                     Ok {| manifestContent := Some processed;
                           isDevelopment := isDevelopment p;
                           emitted := emitted p |})).
      { apply throwsOnly_bind.
        { destruct f; cbn; [right; reflexivity | exact I]. }
        intros m. apply throwsOnly_bind; [apply processManifest_throws | intros; exact I]. }
      rewrite E in T. destruct T; discriminate.
Qed.

(** A project directory without manifest.json. *)
Lemma missing_manifest_is_fatal_witness :
  manifestJson Examples.emptyProject = None /\
  discoverEntries Examples.emptyProject = Throw missingManifest /\
  buildStart Examples.emptyProject 0 Manifest.initial = Throw missingManifest.
Proof.
  split; [reflexivity|].
  destruct (missing_manifest_is_fatal Examples.emptyProject) as [H _].
  destruct (H eq_refl) as [H1 H2]. split; [exact H1 | apply H2].
Defined.
End LifecycleClaims.

(** ** The polling client *)

Section HotReloadClaims.
Import HotReload.

(** C7.  The first timestamp a client observes becomes its baseline and
    calls no reload, whatever it is.  A client that observes the
    timestamps of two development builds one after the other, the two
    different, calls the reload once, at the second observation.  A
    timestamp is the [Date.now()] of its build, a number of milliseconds
    that is not zero. *)
Theorem polling_client_reloads_once (t1 t2 : Z) :
  t1 <> t2 -> t2 <> 0 ->
  (forall ts, checkForUpdates (Timestamp ts) initial
              = ({| lastTimestamp := Some ts |}, false)) /\
  poll [Timestamp (Some t1); Timestamp (Some t2)] initial = [false; true] /\
  reloads (poll [Timestamp (Some t1); Timestamp (Some t2)] initial) = 1%nat.
Proof.
  intros Hne Hnz. split; [reflexivity|].
  assert (E : poll [Timestamp (Some t1); Timestamp (Some t2)] initial = [false; true]).
  { cbn. destruct (Z.eqb_spec t2 0) as [|_]; [contradiction|].
    destruct (Z.eqb_spec t2 t1) as [|_]; [congruence|]. reflexivity. }
  rewrite E. split; reflexivity.
Qed.

(** Two builds, 4.2 s apart. *)
Lemma polling_client_reloads_once_witness :
  poll [Timestamp (Some 1700000000000); Timestamp (Some 1700000004200)] initial
    = [false; true].
Proof.
  apply (polling_client_reloads_once 1700000000000 1700000004200); discriminate.
Defined.
End HotReloadClaims.

(** ** The development server *)

Section DevFacts.
Import Dev.





Lemma openClients_cons c clients :
  openClients (c :: clients) =
  if isOpen (readyState c) then clientId c :: openClients clients else openClients clients.
Proof. unfold openClients. simpl. destruct (isOpen _); reflexivity. Qed.










Lemma fire_timers tk p : exited (fire tk p) = None -> timers (fire tk p) = timers p.
Proof.
  destruct tk; cbn [fire]; try reflexivity; try discriminate.
  unfold settle. cbn [withShutdown serverClosed watcherClosed].
  destruct (serverClosed p && true); [discriminate | reflexivity].
Qed.

Lemma runTimers_exited rounds t p c : exited p = Some c -> runTimers rounds t p = p.
Proof. intros H. destruct rounds; [reflexivity|]. cbn [runTimers]. rewrite H. reflexivity. Qed.

(** The rounds are enough: no callback sets a timer, so once the timers
    of the queue have had their round, the process has exited or the next
    timer in the queue is not due yet. *)
Lemma runTimers_complete rounds t :
  forall p, (length (timers p) <= rounds)%nat ->
    exited (runTimers rounds t p) = None ->
    match timers (runTimers rounds t p) with
    | [] => True
    | tm :: _ => t < due tm
    end.
Proof.
  induction rounds as [|rounds IH]; intros p Hlen He.
  - cbn [runTimers] in *. destruct (timers p); [exact I | simpl in Hlen; lia].
  - cbn [runTimers] in *. destruct (exited p) eqn:Ex.
    { rewrite Ex in He. discriminate. }
    destruct (timers p) as [|tm rest] eqn:Et.
    { rewrite Et. exact I. }
    destruct (Z.leb_spec (due tm) t).
    + set (q := fire (task tm) (withClock (due tm) (withTimers rest (nextTimerId p) p))) in *.
      destruct (exited q) as [c|] eqn:Eq.
      { rewrite (runTimers_exited _ _ _ _ Eq) in He. congruence. }
      apply IH; [|exact He].
      subst q. rewrite (fire_timers _ _ Eq). simpl in Hlen |- *. lia.
    + rewrite Et. assumption.
Qed.
End DevFacts.

Section DevClaims.
Import Dev.



Lemma clearTimeout_flags id p : flagsAgree p -> flagsAgree (clearTimeout id p).
Proof. destruct id; intros H; exact H. Qed.

Lemma settle_flags p : flagsAgree p -> flagsAgree (settle p).
Proof.
  intros H. unfold settle. destruct (_ && _); [|exact H].
  apply (clearTimeout_flags (forceExitTimeout p)) in H. exact H.
Qed.

Lemma fire_flags tk p : flagsAgree p -> flagsAgree (fire tk p).
Proof.
  destruct tk; cbn [fire]; auto. intros H. apply settle_flags. exact H.
Qed.

Lemma runTimers_flags rounds t p : flagsAgree p -> flagsAgree (runTimers rounds t p).
Proof.
  revert p. induction rounds as [|rounds IH]; intros p H; [exact H|].
  cbn [runTimers]. destruct (exited p); [exact H|].
  destruct (timers p) as [|tm rest]; [exact H|].
  destruct (due tm <=? t); [|exact H].
  apply IH, fire_flags. exact H.
Qed.

Lemma notify_flags bg cs page clients p :
  flagsAgree p -> flagsAgree (foldl (notifyClient bg cs page) p clients).
Proof.
  revert p. induction clients as [|c clients IH]; intros p H; [exact H|].
  cbn [foldl]. apply IH. unfold notifyClient.
  destruct (isOpen _); [|exact H]. destruct (bg || cs); [exact H|].
  destruct page; exact H.
Qed.

Lemma shutdown_flags p : flagsAgree p -> flagsAgree (shutdown p).
Proof.
  intros H. unfold shutdown. destruct (shutdownInProgress p) eqn:S; [exact H|].
  destruct (forceExit p); [exact H|]. apply settle_flags. reflexivity.
Qed.

Lemma step_flags p i : flagsAgree p -> flagsAgree (step p i).
Proof.
  intros H. unfold step. destruct (exited p); [exact H|].
  destruct i as [|t|options entries err stats| |].
  - apply shutdown_flags, H.
  - assert (H' := runTimers_flags (length (timers p)) t p H).
    destruct (exited (runTimers _ _ _)); exact H'.
  - unfold onBuild. destruct err; [exact H|]. destruct stats as [stats|]; [|exact H].
    destruct (hasErrors stats); [exact H|]. destruct (reload options); [|exact H].
    unfold notifyClientsToReload. destruct (wss p); [|exact H]. apply notify_flags, H.
  - destruct (_ && _); [|exact H]. apply settle_flags. exact H.
  - destruct (_ && _); [|exact H]. apply settle_flags.
    apply (clearTimeout_flags (watcherTimeout p)) in H. exact H.
Qed.

(** In every state the process reaches, [forceExit] is set exactly when
    [shutdownInProgress] is: the statement [process.exit(1)] behind
    [if (forceExit)] is never reached. *)
Lemma run_flags t server inputs : flagsAgree (run (started t server) inputs).
Proof.
  unfold run. generalize (started t server) (eq_refl : flagsAgree (started t server)).
  induction inputs as [|i inputs IH]; intros p H; [exact H|].
  cbn [foldl]. apply IH, step_flags, H.
Qed.

(** C6 fails on the code.  In every state the process reaches after
    [dev] has started, a signal that arrives while a shutdown is in
    progress returns from [shutdown] at its first test: the state is
    unchanged and the process has not exited, although [forceExit] is
    set. *)
Theorem second_signal_is_ignored t server inputs :
  let p := run (started t server) inputs in
  shutdownInProgress p = true ->
  exited p = None ->
  step p Signal = p /\ exited (step p Signal) = None /\ forceExit p = true.
Proof.
  cbv zeta. intros Hs He.
  assert (E : step (run (started t server) inputs) Signal = run (started t server) inputs).
  { unfold step, shutdown. rewrite He, Hs. reflexivity. }
  rewrite E. split; [reflexivity|]. split; [exact He|].
  rewrite <- Hs. apply run_flags.
Qed.

(** Two signals in a row. *)
Lemma second_signal_is_ignored_witness :
  let p := run (started 1000 (Some Examples.twoClients)) [Signal] in
  shutdownInProgress p = true /\ exited p = None /\
  run (started 1000 (Some Examples.twoClients)) [Signal; Signal] = p /\
  exited (run (started 1000 (Some Examples.twoClients)) [Signal; Signal]) = None.
Proof.
  cbv zeta. split; [reflexivity|]. split; [reflexivity|].
  destruct (second_signal_is_ignored 1000 (Some Examples.twoClients) [Signal]
              eq_refl eq_refl) as (H1 & H2 & _).
  split; [exact H1 | exact H2].
Defined.
End DevClaims.

(** * Further properties *)

(** ** The manifest processor *)

Section ManifestExtras.
Import Manifest.

Lemma rewrittenKeys_steps pkg : (manifestSteps pkg).*1 = rewrittenKeys.
Proof. reflexivity. Qed.

(** X1.  Processing leaves every field of the manifest alone that is not
    one of the nine rewritten keys or the timestamp: permissions, the
    manifest version, icons and the rest reach the output as they are. *)
Theorem processManifest_keeps_other_fields fs now fields isDevelopment processed key :
  key ∉ rewrittenKeys ->
  key <> "__dev_timestamp" ->
  processManifest fs now (JObj fields) isDevelopment = Ok processed ->
  getPropOpt (Some processed) key = fields !! key.
Proof.
  intros Hkey Hts H.
  apply processManifest_Ok in H as (pkg & m' & _ & Hrun & ->).
  destruct (runSteps_settled _ (manifestSteps_keys pkg) (manifestSteps_settle pkg)
              _ _ Hrun) as [Hframe _].
  cbn [getPropOpt spread] in *.
  rewrite <- (Hframe key) by (rewrite rewrittenKeys_steps; exact Hkey).
  destruct isDevelopment; [|reflexivity].
  apply lookup_insert_ne. congruence.
Qed.

(** The permissions of a manifest in the format of version 2. *)
Lemma processManifest_keeps_other_fields_witness :
  exists processed,
    processManifest MoreExamples.legacyProject 1700000000000
      MoreExamples.legacyManifest true = Ok processed /\
    getPropOpt (Some processed) "permissions"
      = Some (JArr [JStr "storage"; JStr "tabs"]).
Proof.
  destruct (processManifest MoreExamples.legacyProject 1700000000000
              MoreExamples.legacyManifest true) as [processed|e] eqn:E;
    [|vm_compute in E; discriminate E].
  exists processed. split; [reflexivity|].
  rewrite (processManifest_keeps_other_fields MoreExamples.legacyProject 1700000000000
             MoreExamples.legacyManifestFields true processed "permissions");
    [reflexivity | compute_done | discriminate | exact E].
Defined.

(** X2.  The output of a development build is the output of the
    production build with [__dev_timestamp] set to the time of the build,
    and it fails where the production build fails: the timestamp is the
    one difference between the two modes, and between two development
    builds of one manifest. *)
Theorem development_adds_timestamp fs now now' manifestContent :
  processManifest fs now' manifestContent true =
  match processManifest fs now manifestContent false with
  | Ok processed => Ok (JObj (<["__dev_timestamp" := JNum now']> (spread processed)))
  | Throw e => Throw e
  end.
Proof.
  rewrite !processManifest_steps.
  destruct (readPackageJson fs) as [pkg|]; [|reflexivity].
  rewrite !bind_Ok_l.
  destruct (runSteps _ _) as [m'|]; reflexivity.
Qed.

Lemma isScriptExt_app_false c p ext :
  Str.isScriptExt ext = true -> Str.isScriptExt (String c (p ++ ext)) = false.
Proof.
  intros Hext. destruct (Str.isScriptExt (String c (p ++ ext))) eqn:E; [|reflexivity].
  exfalso. assert (L := isScriptExt_length _ E). simpl in L. rewrite length_append in L.
  apply isScriptExt_cases in Hext.
  destruct p as [|a p].
  - apply isScriptExt_cases in E.
    destruct Hext as [-> | [-> | [-> | ->]]];
      destruct E as [E | [E | [E | E]]]; discriminate E.
  - destruct Hext as [-> | [-> | [-> | ->]]]; simpl in L; lia.
Qed.

Lemma replaceScriptExt_app repl p ext :
  Str.isScriptExt ext = true -> Str.replaceScriptExt repl (p ++ ext) = p ++ repl.
Proof.
  intros Hext. induction p as [|c p IH].
  - change ("" ++ ext) with ext. destruct ext as [|a ext]; [discriminate Hext|].
    rewrite replaceScriptExt_cons, Hext. reflexivity.
  - change (String c p ++ ext) with (String c (p ++ ext)).
    rewrite replaceScriptExt_cons, (isScriptExt_app_false c p ext Hext), IH. reflexivity.
Qed.

(** X3.  [replaceFileExtension] on paths: a path that ends in [.js], [.jsx],
    [.ts] or [.tsx] is returned with that extension replaced by [.js], an
    earlier occurrence of an extension in the path staying as it is; every
    other path (a style sheet, an image, an HTML page) is returned
    unchanged. *)
Theorem replaceFileExtension_paths (p ext s : string) :
  (Str.isScriptExt ext = true ->
   replaceFileExtension (JStr (p ++ ext)) = Ok (JStr (p ++ ".js"))) /\
  (hasSourceExtension s = false -> replaceFileExtension (JStr s) = Ok (JStr s)).
Proof.
  split.
  - intros H. cbn [replaceFileExtension]. rewrite (replaceScriptExt_app _ _ _ H). reflexivity.
  - intros H. cbn [replaceFileExtension]. rewrite replaceScriptExt_no_match; [reflexivity|].
    destruct (Str.testScriptExt s) eqn:T; [|reflexivity].
    apply testScriptExt_spec in T. unfold hasSourceExtension in H.
    rewrite !orb_false_iff in H. destruct H as [[[H1 H2] H3] H4].
    destruct T as [T | [T | [T | T]]]; congruence.
Qed.

(** A script in a directory named like a script, and a style sheet. *)
Lemma replaceFileExtension_paths_witness :
  replaceFileExtension (JStr "vendor/chart.js/content.tsx")
    = Ok (JStr "vendor/chart.js/content.js") /\
  replaceFileExtension (JStr "src/content/main.css") = Ok (JStr "src/content/main.css").
Proof.
  destruct (replaceFileExtension_paths "vendor/chart.js/content" ".tsx"
              "src/content/main.css") as [H1 H2].
  split; [apply H1 | apply H2]; reflexivity.
Defined.

Lemma map_result_Forall2 {A B : Type} (f : A -> result B) l l' :
  map_result f l = Ok l' -> Forall2 (fun x x' => f x = Ok x') l l'.
Proof.
  revert l'. induction l as [|x l IH]; intros l' H.
  - injection H as <-. constructor.
  - simpl in H. apply bind_Ok in H as (x' & Hx & H).
    apply bind_Ok in H as (rest & Hrest & H). injection H as <-.
    constructor; [exact Hx | apply IH, Hrest].
Qed.

Lemma map_result_paths (g : string -> string) (f : json -> result json) paths :
  (forall s, f (JStr s) = Ok (JStr (g s))) ->
  map_result f (JStr <$> paths) = Ok (JStr <$> (g <$> paths)).
Proof.
  intros Hf. induction paths as [|s paths IH]; [reflexivity|].
  cbn [fmap list_fmap map_result] in *. rewrite Hf, bind_Ok_l, IH. reflexivity.
Qed.

(** X4.  The scripts of a content script: when [content_scripts] is an
    array, the processed manifest has an array of the same length; a
    content script whose [js] is a list of paths has, at the same index,
    these paths with [replaceFileExtension] applied to each, in order, and
    its fields other than [js] and [css] (the match patterns, [run_at])
    unchanged. *)
Theorem content_script_paths_rewritten
    fs now fields isDevelopment processed scripts (i : nat) script paths :
  processManifest fs now (JObj fields) isDevelopment = Ok processed ->
  fields !! "content_scripts" = Some (JArr scripts) ->
  scripts !! i = Some (JObj script) ->
  script !! "js" = Some (JArr (JStr <$> paths)) ->
  exists scripts' script',
    getPropOpt (Some processed) "content_scripts" = Some (JArr scripts') /\
    length scripts' = length scripts /\
    scripts' !! i = Some (JObj script') /\
    script' !! "js" = Some (JArr (JStr <$> (Str.replaceScriptExt ".js" <$> paths))) /\
    (forall key, key <> "js" -> key <> "css" -> script' !! key = script !! key).
Proof.
  intros H Hcs Hi Hjs.
  destruct (processManifest_Ok _ _ _ _ _ H) as (pkg & _ & Hpkg & _ & _).
  destruct (processManifest_at fs now fields isDevelopment processed pkg
              "content_scripts" (rewriteArrayField "content_scripts" rewriteContentScript)
              H Hpkg) as (m1 & m2 & E1 & Hs & E2).
  { unfold manifestSteps. set_solver. }
  unfold rewriteArrayField in Hs. rewrite E1, Hcs in Hs. cbn [truthy mapArray] in Hs.
  apply bind_Ok in Hs as (l' & Hl & Hs). apply bind_Ok in Hl as (scripts' & Hmap & Hl).
  injection Hl as <-. injection Hs as <-. rewrite lookup_insert_eq in E2.
  apply map_result_Forall2 in Hmap.
  destruct (Forall2_lookup_l _ _ _ _ _ Hmap Hi) as (x' & Hi' & Hx).
  rewrite rewriteContentScript_JObj in Hx.
  apply bind_Ok in Hx as (script' & Hrun & Hx). injection Hx as <-.
  assert (Hnd : NoDup ["js"; "css"]) by compute_done.
  assert (Hall : Forall (fun ks => settles ks.1 ks.2)
                   [("js", rewriteArrayField "js" replaceFileExtension);
                    ("css", rewriteArrayField "css" replaceFileExtension)]).
  { repeat apply List.Forall_cons; try apply List.Forall_nil;
      apply settles_rewriteArrayField, replaceFileExtension_idempotent. }
  destruct (runSteps_settled
              [("js", rewriteArrayField "js" replaceFileExtension);
               ("css", rewriteArrayField "css" replaceFileExtension)]
              Hnd Hall _ _ Hrun) as [Hframe _].
  destruct (runSteps_at
              [("js", rewriteArrayField "js" replaceFileExtension);
               ("css", rewriteArrayField "css" replaceFileExtension)]
              Hnd Hall "js" (rewriteArrayField "js" replaceFileExtension) _ _
              ltac:(apply list_elem_of_here) Hrun) as (f1 & f2 & F1 & Hf & F2).
  unfold rewriteArrayField in Hf. rewrite F1, Hjs in Hf. cbn [truthy mapArray] in Hf.
  rewrite (map_result_paths (Str.replaceScriptExt ".js")) in Hf by reflexivity.
  rewrite !bind_Ok_l in Hf. injection Hf as <-. rewrite lookup_insert_eq in F2.
  exists scripts', script'. split; [exact E2|]. split.
  { symmetry. apply (Forall2_length _ _ _ Hmap). }
  split; [exact Hi'|]. split; [exact F2|].
  intros key K1 K2. apply Hframe. cbn. set_solver.
Qed.

(** The two scripts of the content script of the legacy manifest. *)
Lemma content_script_paths_rewritten_witness :
  exists processed scripts' script',
    processManifest MoreExamples.legacyProject 0 MoreExamples.legacyManifest false
      = Ok processed /\
    getPropOpt (Some processed) "content_scripts" = Some (JArr scripts') /\
    scripts' !! 0%nat = Some (JObj script') /\
    script' !! "js" = Some (JArr [JStr "src/content/a.js"; JStr "src/content/b.js"]) /\
    script' !! "matches" = Some (JArr [JStr "<all_urls>"]).
Proof.
  destruct (processManifest MoreExamples.legacyProject 0 MoreExamples.legacyManifest false)
    as [processed|e] eqn:E; [|vm_compute in E; discriminate E].
  destruct (content_script_paths_rewritten MoreExamples.legacyProject 0
              MoreExamples.legacyManifestFields false processed
              [JObj {[ "matches" := JArr [JStr "<all_urls>"];
                       "js" := JArr [JStr "src/content/a.ts"; JStr "src/content/b.jsx"] ]}]
              0
              {[ "matches" := JArr [JStr "<all_urls>"];
                 "js" := JArr [JStr "src/content/a.ts"; JStr "src/content/b.jsx"] ]}
              ["src/content/a.ts"; "src/content/b.jsx"] E)
    as (scripts' & script' & H1 & _ & H3 & H4 & H5);
    [vm_compute; reflexivity | reflexivity | vm_compute; reflexivity |].
  exists processed, scripts', script'. split; [reflexivity|].
  split; [exact H1|]. split; [exact H3|]. split; [exact H4|].
  rewrite H5 by discriminate. vm_compute. reflexivity.
Defined.

(** X5.  The popup of an action: for [action], [browser_action] and
    [page_action], a [default_popup] that is a path ending in a script
    extension ends in [.html] in the processed manifest (not in [.js]),
    any other path is unchanged, and the other fields of the action (its
    icon, its title) are unchanged. *)
Theorem popup_rewritten_to_html fs now fields isDevelopment processed key action (s : string) :
  key ∈ actionKeys ->
  processManifest fs now (JObj fields) isDevelopment = Ok processed ->
  fields !! key = Some (JObj action) ->
  action !! "default_popup" = Some (JStr s) ->
  s <> "" ->
  exists action',
    getPropOpt (Some processed) key = Some (JObj action') /\
    action' !! "default_popup" = Some (JStr (Str.replaceScriptExt ".html" s)) /\
    (forall p ext, s = p ++ ext -> Str.isScriptExt ext = true ->
       action' !! "default_popup" = Some (JStr (p ++ ".html"))) /\
    (hasSourceExtension s = false -> action' !! "default_popup" = Some (JStr s)) /\
    (forall k, k <> "default_popup" -> action' !! k = action !! k).
Proof.
  intros Hkey H Hact Hpop Hs.
  destruct (processManifest_Ok _ _ _ _ _ H) as (pkg & _ & Hpkg & _ & _).
  destruct (processManifest_at fs now fields isDevelopment processed pkg
              key (rewritePopup key) H Hpkg) as (m1 & m2 & E1 & Hstep & E2).
  { unfold actionKeys in Hkey. unfold manifestSteps.
    repeat (apply elem_of_cons in Hkey as [->|Hkey]; [set_solver|]).
    apply elem_of_nil in Hkey as []. }
  unfold rewritePopup in Hstep. rewrite E1, Hact, Hpop in Hstep.
  rewrite (proj2 (truthy_JStr s) Hs) in Hstep. injection Hstep as <-.
  rewrite lookup_insert_eq in E2.
  eexists. split; [exact E2|]. split; [apply lookup_insert_eq|]. split; [|split].
  - intros p ext -> Hext. rewrite lookup_insert_eq, (replaceScriptExt_app _ _ _ Hext).
    reflexivity.
  - intros Hno. rewrite lookup_insert_eq, replaceScriptExt_no_match; [reflexivity|].
    destruct (Str.testScriptExt s) eqn:T; [|reflexivity].
    apply testScriptExt_spec in T. unfold hasSourceExtension in Hno.
    rewrite !orb_false_iff in Hno. destruct Hno as [[[H1 H2] H3] H4].
    destruct T as [T | [T | [T | T]]]; congruence.
  - intros k Hk. apply lookup_insert_ne. congruence.
Qed.

(** The popup of the legacy manifest, a [.tsx] file. *)
Lemma popup_rewritten_to_html_witness :
  exists processed action',
    processManifest MoreExamples.legacyProject 0 MoreExamples.legacyManifest false
      = Ok processed /\
    getPropOpt (Some processed) "browser_action" = Some (JObj action') /\
    action' !! "default_popup" = Some (JStr "src/popup/index.html").
Proof.
  destruct (processManifest MoreExamples.legacyProject 0 MoreExamples.legacyManifest false)
    as [processed|e] eqn:E; [|vm_compute in E; discriminate E].
  destruct (popup_rewritten_to_html MoreExamples.legacyProject 0
              MoreExamples.legacyManifestFields false processed "browser_action"
              {[ "default_popup" := JStr "src/popup/index.tsx" ]} "src/popup/index.tsx")
    as (action' & H1 & _ & H3 & _);
    [compute_done | exact E | vm_compute; reflexivity | reflexivity | discriminate |].
  exists processed, action'. split; [reflexivity|]. split; [exact H1|].
  apply (H3 "src/popup/index" ".tsx"); reflexivity.
Defined.

Lemma rewriteResourcePath_JStr s :
  rewriteResourcePath (JStr s) = Ok (JStr (Str.replaceScriptExt ".js" s)).
Proof.
  unfold rewriteResourcePath. cbn [toString].
  destruct (Str.testScriptExt s) eqn:T; [reflexivity|].
  rewrite replaceScriptExt_no_match by exact T. reflexivity.
Qed.

Lemma map_result_strings (f : json -> result json) paths :
  (forall s, f (JStr s) = Ok (JStr s)) ->
  map_result f (JStr <$> paths) = Ok (JStr <$> paths).
Proof.
  intros Hf. induction paths as [|s paths IH]; [reflexivity|].
  cbn [fmap list_fmap map_result] in *. rewrite Hf, bind_Ok_l, IH. reflexivity.
Qed.

(** X6.  Web-accessible resources.  In the format of manifest version 2,
    a list of paths, the list reaches the output unchanged: a script among
    the paths keeps its source extension.  In the format of version 3, the
    [resources] of an entry are rewritten path by path like the scripts of
    a content script. *)
Theorem web_accessible_resources_rewritten fs now fields isDevelopment processed :
  processManifest fs now (JObj fields) isDevelopment = Ok processed ->
  (forall paths,
      fields !! "web_accessible_resources" = Some (JArr (JStr <$> paths)) ->
      getPropOpt (Some processed) "web_accessible_resources"
        = Some (JArr (JStr <$> paths))) /\
  (forall items (i : nat) entry paths,
      fields !! "web_accessible_resources" = Some (JArr items) ->
      items !! i = Some (JObj entry) ->
      entry !! "resources" = Some (JArr (JStr <$> paths)) ->
      exists items' entry',
        getPropOpt (Some processed) "web_accessible_resources" = Some (JArr items') /\
        items' !! i = Some (JObj entry') /\
        entry' !! "resources"
          = Some (JArr (JStr <$> (Str.replaceScriptExt ".js" <$> paths)))).
Proof.
  intros H.
  destruct (processManifest_Ok _ _ _ _ _ H) as (pkg & _ & Hpkg & _ & _).
  destruct (processManifest_at fs now fields isDevelopment processed pkg
              "web_accessible_resources"
              (rewriteArrayField "web_accessible_resources" rewriteResource)
              H Hpkg) as (m1 & m2 & E1 & Hs & E2).
  { unfold manifestSteps. set_solver. }
  unfold rewriteArrayField in Hs. rewrite E1 in Hs. split.
  - intros paths Hw. rewrite Hw in Hs. cbn [truthy mapArray] in Hs.
    rewrite (map_result_strings rewriteResource) in Hs by reflexivity.
    rewrite !bind_Ok_l in Hs. injection Hs as <-.
    rewrite E2. apply lookup_insert_eq.
  - intros items i entry paths Hw Hi Hres. rewrite Hw in Hs. cbn [truthy mapArray] in Hs.
    apply bind_Ok in Hs as (l' & Hl & Hs). apply bind_Ok in Hl as (items' & Hmap & Hl).
    injection Hl as <-. injection Hs as <-. rewrite lookup_insert_eq in E2.
    apply map_result_Forall2 in Hmap.
    destruct (Forall2_lookup_l _ _ _ _ _ Hmap Hi) as (x' & Hi' & Hx).
    unfold rewriteResource in Hx. rewrite rewriteList_JObj in Hx.
    apply bind_Ok in Hx as (entry' & Hrun & Hx). injection Hx as <-.
    unfold rewriteArrayField in Hrun. rewrite Hres in Hrun. cbn [truthy mapArray] in Hrun.
    rewrite (map_result_paths (Str.replaceScriptExt ".js")) in Hrun
      by apply rewriteResourcePath_JStr.
    rewrite !bind_Ok_l in Hrun. injection Hrun as <-.
    exists items', (<["resources" :=
                       JArr (JStr <$> (Str.replaceScriptExt ".js" <$> paths))]> entry).
    split; [exact E2|]. split; [exact Hi' | apply lookup_insert_eq].
Qed.

(** The resources of the legacy manifest and of the manifest of version 3. *)
Lemma web_accessible_resources_rewritten_witness :
  (exists processed,
      processManifest MoreExamples.legacyProject 0 MoreExamples.legacyManifest false
        = Ok processed /\
      getPropOpt (Some processed) "web_accessible_resources"
        = Some (JArr [JStr "src/inject.ts"; JStr "img/*.png"])) /\
  processManifest Examples.packagedProject 0 Examples.fullManifest false
    = Ok Examples.fullManifestProcessed.
Proof.
  split; [|vm_compute; reflexivity].
  destruct (processManifest MoreExamples.legacyProject 0 MoreExamples.legacyManifest false)
    as [processed|e] eqn:E; [|vm_compute in E; discriminate E].
  exists processed. split; [reflexivity|].
  destruct (web_accessible_resources_rewritten MoreExamples.legacyProject 0
              MoreExamples.legacyManifestFields false processed E) as [H _].
  apply (H ["src/inject.ts"; "img/*.png"]). vm_compute. reflexivity.
Defined.

(** X7.  From [buildStart] to [generateBundle]: when [buildStart] returns,
    the manifest.json of the project is a JSON document, the plugin holds
    the manifest processed in the mode of the plugin, and [generateBundle]
    returns and emits one more file, [manifest.json], with the processed
    manifest as its source. *)
Theorem generateBundle_emits_processed fs now p p1 :
  buildStart fs now p = Ok p1 ->
  exists rawManifest processed,
    manifestJson fs = Some (Json rawManifest) /\
    processManifest fs now rawManifest (isDevelopment p) = Ok processed /\
    manifestContent p1 = Some processed /\
    generateBundle p1 =
      Ok {| manifestContent := Some processed;
            isDevelopment := isDevelopment p;
            emitted := emitted p ++ [("manifest.json", processed)] |}.
Proof.
  unfold buildStart. intros H.
  destruct (manifestJson fs) as [[|rawManifest]|]; try discriminate H.
  cbn [existsSync negb readJSONSync] in H. rewrite bind_Ok_l in H.
  apply bind_Ok in H as (processed & Hp & H). injection H as <-.
  exists rawManifest, processed. split; [reflexivity|]. split; [exact Hp|].
  split; [reflexivity|].
  apply processManifest_Ok in Hp as (pkg & m' & _ & _ & ->).
  reflexivity.
Qed.

(** The build of the legacy project, in production mode. *)
Lemma generateBundle_emits_processed_witness :
  exists p1 p2 processed,
    buildStart MoreExamples.legacyProject 0 Manifest.initial = Ok p1 /\
    generateBundle p1 = Ok p2 /\
    emitted p2 = [("manifest.json", processed)] /\
    getPropOpt (Some processed) "name" = Some (JStr "legacy").
Proof.
  destruct (buildStart MoreExamples.legacyProject 0 Manifest.initial) as [p1|e] eqn:E;
    [|vm_compute in E; discriminate E].
  destruct (generateBundle_emits_processed MoreExamples.legacyProject 0 Manifest.initial
              p1 E) as (raw & processed & Hraw & Hp & _ & Hg).
  injection Hraw as <-.
  eexists p1, _, processed. split; [reflexivity|]. split; [exact Hg|].
  split; [reflexivity|].
  change (isDevelopment Manifest.initial) with false in Hp.
  vm_compute in Hp. injection Hp as <-. vm_compute. reflexivity.
Defined.

Lemma backfill_assigns key pkg : key ∈ backfilledKeys -> assignsOwnKey key (backfill key pkg).
Proof.
  intros Hkey m m' H. unfold backfill in H.
  destruct (truthy (m !! key)); [injection H as <-; left; reflexivity|].
  apply bind_Ok in H as (v & _ & H).
  destruct v as [x|]; [|injection H as <-; left; reflexivity].
  destruct (truthy (Some x)); injection H as <-; [right; eauto | left; reflexivity].
Qed.

Lemma rewriteServiceWorker_assigns : assignsOwnKey "background" rewriteServiceWorker.
Proof.
  intros m m' H. unfold rewriteServiceWorker in H.
  destruct (m !! "background") as [[| | | | |background]|] eqn:E;
    try (injection H as <-; left; reflexivity).
  destruct (background !! "service_worker") as [sw|];
    [|injection H as <-; left; reflexivity].
  destruct (truthy (Some sw)); [|injection H as <-; left; reflexivity].
  apply bind_Ok in H as (sw' & _ & H). injection H as <-. right. eauto.
Qed.

Lemma rewriteArrayField_assigns key f : assignsOwnKey key (rewriteArrayField key f).
Proof.
  intros m m' H. unfold rewriteArrayField in H.
  destruct (m !! key) as [l|] eqn:E; [|injection H as <-; left; reflexivity].
  destruct (truthy (Some l)); [|injection H as <-; left; reflexivity].
  apply bind_Ok in H as (l' & _ & H). injection H as <-. right. eauto.
Qed.

Lemma rewritePopup_assigns key : assignsOwnKey key (rewritePopup key).
Proof.
  intros m m' H. unfold rewritePopup in H.
  destruct (m !! key) as [[| | | | |action]|] eqn:E;
    try (injection H as <-; left; reflexivity).
  destruct (action !! "default_popup") as [popup|];
    [|injection H as <-; left; reflexivity].
  destruct (truthy (Some popup)); [|injection H as <-; left; reflexivity].
  destruct popup; try discriminate H. injection H as <-. right. eauto.
Qed.

Lemma manifestSteps_assign pkg :
  Forall (fun ks => assignsOwnKey ks.1 ks.2) (manifestSteps pkg).
Proof.
  unfold manifestSteps.
  repeat apply List.Forall_cons; try apply List.Forall_nil; cbn [fst snd].
  - apply backfill_assigns. compute_done.
  - apply backfill_assigns. compute_done.
  - apply backfill_assigns. compute_done.
  - apply rewriteServiceWorker_assigns.
  - apply rewriteArrayField_assigns.
  - apply rewriteArrayField_assigns.
  - apply rewritePopup_assigns.
  - apply rewritePopup_assigns.
  - apply rewritePopup_assigns.
Qed.

Lemma runSteps_keys (steps : list (string * (gmap string json -> result (gmap string json)))) :
  Forall (fun ks => assignsOwnKey ks.1 ks.2) steps ->
  forall m m', runSteps steps.*2 m = Ok m' ->
    forall key,
      (is_Some (m !! key) -> is_Some (m' !! key)) /\
      (is_Some (m' !! key) -> is_Some (m !! key) \/ key ∈ backfilledKeys).
Proof.
  induction steps as [|[k s] steps IH]; intros Hall m m' H key.
  - injection H as <-. auto.
  - cbn in H. apply bind_Ok in H as (m1 & Hs & H).
    apply Forall_cons in Hall as [Hk Hall]. cbn [fst snd] in Hk.
    destruct (IH Hall _ _ H key) as [IH1 IH2].
    destruct (Hk _ _ Hs) as [-> | (v & -> & Hv)]; [auto|].
    split.
    + intros Hm. apply IH1. destruct (decide (key = k)) as [->|Hne].
      * rewrite lookup_insert_eq. eauto.
      * rewrite lookup_insert_ne by congruence. exact Hm.
    + intros Hm'. destruct (IH2 Hm') as [Hm1|Hb]; [|auto].
      destruct (decide (key = k)) as [->|Hne].
      * destruct Hv; auto.
      * rewrite lookup_insert_ne in Hm1 by congruence. auto.
Qed.

(** X8.  Processing drops no field and invents none: every key of
    the manifest is a key of the processed manifest, and a key of the
    processed manifest that the manifest does not have is [name],
    [version] or [description], or the timestamp of a development build. *)
Theorem processManifest_keys fs now fields isDevelopment processed :
  processManifest fs now (JObj fields) isDevelopment = Ok processed ->
  forall key,
    (is_Some (fields !! key) -> is_Some (getPropOpt (Some processed) key)) /\
    (is_Some (getPropOpt (Some processed) key) ->
     is_Some (fields !! key) \/ key ∈ backfilledKeys \/
     (isDevelopment = true /\ key = "__dev_timestamp")).
Proof.
  intros H key.
  apply processManifest_Ok in H as (pkg & m' & _ & Hrun & ->).
  destruct (runSteps_keys _ (manifestSteps_assign pkg) _ _ Hrun key) as [H1 H2].
  cbn [getPropOpt spread] in *.
  destruct isDevelopment; [|split; [exact H1 | intros Hp; destruct (H2 Hp); auto]].
  destruct (decide (key = "__dev_timestamp")) as [->|Hne].
  - rewrite lookup_insert_eq. split; [eauto | auto].
  - rewrite lookup_insert_ne by congruence.
    split; [exact H1 | intros Hp; destruct (H2 Hp); auto].
Qed.

(** The legacy manifest in a development build: its [permissions] are
    kept, and it gets no [description]. *)
Lemma processManifest_keys_witness :
  exists processed,
    processManifest MoreExamples.legacyProject 1700000000000
      MoreExamples.legacyManifest true = Ok processed /\
    is_Some (getPropOpt (Some processed) "permissions") /\
    getPropOpt (Some processed) "description" = None.
Proof.
  destruct (processManifest MoreExamples.legacyProject 1700000000000
              MoreExamples.legacyManifest true) as [processed|e] eqn:E;
    [|vm_compute in E; discriminate E].
  exists processed. split; [reflexivity|].
  split.
  - apply (processManifest_keys MoreExamples.legacyProject 1700000000000
             MoreExamples.legacyManifestFields true processed E "permissions").
    vm_compute. eauto.
  - vm_compute in E. injection E as <-. vm_compute. reflexivity.
Defined.
End ManifestExtras.

(** ** Paths *)

Section PathExtras.

Lemma split_cons sep c s :
  Str.split sep (String c s) =
  if Ascii.eqb c sep then EmptyString :: Str.split sep s
  else match Str.split sep s with
       | [] => [String c EmptyString]
       | h :: t => String c h :: t
       end.
Proof. reflexivity. Qed.

Lemma split_nonempty sep s : Str.split sep s <> [].
Proof.
  destruct s as [|c s]; [discriminate|]. rewrite split_cons.
  destruct (Ascii.eqb c sep); [discriminate|].
  destruct (Str.split sep s); discriminate.
Qed.

Lemma split_app a b :
  Str.split "/" (a ++ "/" ++ b) = (Str.split "/" a ++ Str.split "/" b)%list.
Proof.
  induction a as [|c a IH].
  - reflexivity.
  - change (String c a ++ "/" ++ b) with (String c (a ++ "/" ++ b)).
    rewrite !split_cons, IH. destruct (Ascii.eqb c "/"); [reflexivity|].
    destruct (Str.split "/" a) as [|h t] eqn:E; [|reflexivity].
    destruct (split_nonempty _ _ E).
Qed.

Lemma join_cons sep x y l :
  Str.join sep (x :: y :: l) = x ++ sep ++ Str.join sep (y :: l).
Proof. reflexivity. Qed.

Lemma join_split s : Str.join "/" (Str.split "/" s) = s.
Proof.
  induction s as [|c s IH]; [reflexivity|].
  rewrite split_cons. destruct (Ascii.eqb_spec c "/") as [->|_].
  - destruct (Str.split "/" s) as [|h t] eqn:E; [destruct (split_nonempty _ _ E)|].
    rewrite join_cons, IH. reflexivity.
  - destruct (Str.split "/" s) as [|h [|h' t]] eqn:E.
    + destruct (split_nonempty _ _ E).
    + cbn in IH |- *. rewrite IH. reflexivity.
    + rewrite join_cons in IH. rewrite join_cons, <- IH. reflexivity.
Qed.

(** Without [.] and [..] the normalization only drops the empty segments. *)
Lemma normalizeSegments_noDots allowAboveRoot acc segs :
  forallb noDots segs = true ->
  Path.normalizeSegments allowAboveRoot acc segs
  = (rev acc ++ List.filter notEmpty segs)%list.
Proof.
  revert acc. induction segs as [|seg segs IH]; intros acc H.
  - cbn. rewrite app_nil_r. reflexivity.
  - cbn [forallb] in H. apply andb_true_iff in H as [Hseg H].
    unfold noDots in Hseg. apply andb_true_iff in Hseg as [Hdot Hdots].
    cbn [Path.normalizeSegments List.filter]. unfold notEmpty at 1, Path.isDots.
    destruct (String.eqb seg "") eqn:E1; cbn [orb negb].
    + apply IH, H.
    + apply negb_true_iff in Hdot, Hdots. rewrite Hdot, Hdots.
      rewrite (IH _ H). cbn [rev]. rewrite <- app_assoc. reflexivity.
Qed.

Lemma dropCommon_app a b : Path.dropCommon a (a ++ b)%list = ([], b).
Proof.
  induction a as [|x a IH]; [destruct b; reflexivity|].
  cbn. rewrite String.eqb_refl. exact IH.
Qed.

Lemma plainPath_relative p : plainPath p = true -> Path.isAbsolute p = false.
Proof.
  destruct p as [|c p]; [reflexivity|]. unfold plainPath, Path.isAbsolute, Str.startsWith.
  cbn [Str.stripPrefix]. rewrite split_cons, (Ascii.eqb_sym "/"%char c).
  destruct (Ascii.eqb c "/"); [|reflexivity]. cbn. discriminate.
Qed.

Lemma plainPath_filter p :
  plainPath p = true ->
  forallb noDots (Str.split "/" p) = true /\
  List.filter notEmpty (Str.split "/" p) = Str.split "/" p.
Proof.
  unfold plainPath. induction (Str.split "/" p) as [|seg segs IH]; [split; reflexivity|].
  cbn [forallb List.filter]. intros [Hseg H]%andb_true_iff.
  destruct (IH H) as [IH1 IH2]. unfold plainSegment in Hseg.
  apply andb_true_iff in Hseg as [[H1 H2]%andb_true_iff H3].
  unfold noDots at 1, notEmpty at 1. rewrite H1, H2, H3, IH1, IH2. split; reflexivity.
Qed.

(** [path.relative(process.cwd(), p)] is [p] for a plain path [p]. *)
Lemma relative_plainPath wd p :
  absoluteWithoutDots wd = true -> plainPath p = true ->
  Path.relative wd wd p = p.
Proof.
  intros [Habs Hwd]%andb_true_iff Hp.
  pose proof (plainPath_relative _ Hp) as Hrel.
  destruct (plainPath_filter _ Hp) as [Hdots Hfilter].
  unfold Path.relative.
  destruct (String.eqb_spec wd p) as [->|_]; [congruence|].
  unfold Path.resolveSegments. rewrite Habs, Hrel, split_app.
  rewrite !normalizeSegments_noDots;
    [|rewrite forallb_app; apply andb_true_iff; split; assumption | assumption].
  cbn [rev app]. rewrite List.filter_app, dropCommon_app, Hfilter.
  cbn [List.map app]. apply join_split.
Qed.

End PathExtras.

(** ** Entry discovery *)

Section EntriesExtras.
Import Entries.

(** X9.  In a working directory that is an absolute path without [.]
    and [..], the entry of a plain relative path such as
    [src/content/main.ts] has the path itself behind [./] as its path,
    and as its name the path without the first occurrence of the
    extension of its file. *)
Theorem getEntry_plain_path fs entryPath :
  absoluteWithoutDots (cwd fs) = true ->
  plainPath entryPath = true ->
  getEntry fs entryPath =
    {| name := Str.normalizeSeparators (Str.replaceFirst (Path.ext entryPath) "" entryPath);
       path := "./" ++ Str.normalizeSeparators entryPath |}.
Proof.
  intros Hwd Hp. unfold getEntry. rewrite (relative_plainPath _ _ Hwd Hp). reflexivity.
Qed.

(** The content script of the legacy project. *)
Lemma getEntry_plain_path_witness :
  getEntry MoreExamples.legacyProject "src/content/a.ts"
  = {| name := "src/content/a"; path := "./src/content/a.ts" |}.
Proof.
  rewrite (getEntry_plain_path MoreExamples.legacyProject "src/content/a.ts");
    reflexivity.
Defined.


Lemma foldl_Throw {A B : Type} (f : A -> B -> result A) (l : list B) (e : error) :
  foldl (fun acc x => a ← acc; f a x) (Throw e) l = Throw e.
Proof. induction l as [|x l IH]; [reflexivity | exact IH]. Qed.

Lemma forEach_files fs files acc r :
  forEachArray (fun entries file => entry ← getEntryOf fs file; Ok (addEntry entries entry))
    files acc = Ok r ->
  exists paths, files = JArr (JStr <$> paths) /\
                r = foldl addEntry acc (getEntry fs <$> paths).
Proof.
  destruct files as [| | | |items|]; try discriminate. cbn [forEachArray].
  revert acc. induction items as [|x items IH]; intros acc H.
  - injection H as <-. exists []. split; reflexivity.
  - cbn [foldl] in H. rewrite bind_Ok_l in H.
    destruct x as [| | |s| |]; cbn [getEntryOf] in H;
      try (change (Throw TypeError ≫= _) with (@Throw (gmap string string) TypeError) in H;
           rewrite foldl_Throw in H; discriminate H).
    rewrite bind_Ok_l in H. destruct (IH _ H) as (paths & E & ->).
    injection E as ->. exists (s :: paths). split; reflexivity.
Qed.

Lemma forEach_script fs script acc r :
  (js ← getProp (Some script) "js";
   match js with
   | Some files =>
       if truthy js then
         forEachArray
           (fun entries file => entry ← getEntryOf fs file; Ok (addEntry entries entry))
           files acc
       else Ok acc
   | None => Ok acc
   end) = Ok r ->
  exists paths,
    match getPropOpt (Some script) "js" with Some (JArr files) => files | _ => [] end
      = JStr <$> paths /\
    r = foldl addEntry acc (getEntry fs <$> paths).
Proof.
  intros H. apply bind_Ok in H as (js & Hjs & H).
  assert (Hopt : getPropOpt (Some script) "js" = js).
  { destruct script; cbn in Hjs |- *; congruence. }
  rewrite Hopt. destruct js as [files|].
  - destruct (truthy (Some files)) eqn:T.
    + destruct (forEach_files _ _ _ _ H) as (paths & -> & ->). exists paths.
      split; reflexivity.
    + injection H as <-. exists []. destruct files; try discriminate T; split; reflexivity.
  - injection H as <-. exists []. split; reflexivity.
Qed.

Lemma getContentScriptEntries_fold fs manifestJson entries :
  getContentScriptEntries fs manifestJson = Ok entries ->
  exists paths,
    contentScriptFiles manifestJson = JStr <$> paths /\
    entries = foldl addEntry ∅ (getEntry fs <$> paths).
Proof.
  intros H.
  unfold getContentScriptEntries in H. apply bind_Ok in H as (cs & Hcs & H).
  assert (Hopt : getPropOpt (Some manifestJson) "content_scripts" = cs).
  { destruct manifestJson; cbn in Hcs |- *; congruence. }
  unfold contentScriptFiles. rewrite Hopt. clear Hcs Hopt.
  destruct cs as [scripts|]; [|injection H as <-; exists []; split; reflexivity].
  destruct (truthy (Some scripts)) eqn:T;
    [|injection H as <-; exists []; destruct scripts; try discriminate T;
      split; reflexivity].
  clear T.
  destruct scripts as [| | | |items|]; try discriminate H. cbn [forEachArray] in H.
  revert H. generalize (∅ : gmap string string).
  induction items as [|script items IH]; intros acc H.
  - injection H as <-. exists []. split; reflexivity.
  - cbn [foldl] in H. rewrite bind_Ok_l in H.
    match type of H with
    | foldl _ ?r _ = _ => destruct r as [acc'|e] eqn:E
    end; [|rewrite foldl_Throw in H; discriminate H].
    destruct (forEach_script _ _ _ _ E) as (paths1 & E1 & ->).
    destruct (IH _ H) as (paths2 & E2 & ->).
    exists (paths1 ++ paths2)%list. cbn [flat_map]. rewrite E1, E2, !fmap_app.
    split; [reflexivity|]. symmetry. apply foldl_app.
Qed.



Lemma getEntry_dotSlash fs entryPath :
  Str.startsWith (path (getEntry fs entryPath)) "./" = true.
Proof. reflexivity. Qed.

Lemma foldl_addEntry_dotSlash fs acc paths :
  dotSlashPaths acc -> dotSlashPaths (foldl addEntry acc (getEntry fs <$> paths)).
Proof.
  revert acc. induction paths as [|p paths IH]; intros acc H; [exact H|].
  cbn [fmap list_fmap foldl]. apply IH. unfold addEntry.
  apply map_Forall_insert_2; [apply getEntry_dotSlash | exact H].
Qed.

Lemma pageScripts_getEntry fs html :
  exists paths, pageScripts fs html = getEntry fs <$> paths.
Proof.
  unfold pageScripts.
  exists (List.map (Path.join (Path.dirname (Path.join (cwd fs) (htmlFile html))))
            (List.filter isLocalScript (scriptSrcs html))).
  induction (List.filter isLocalScript (scriptSrcs html)) as [|src srcs IH]; [reflexivity|].
  cbn [List.map fmap list_fmap]. f_equal. exact IH.
Qed.

Lemma discoveredScripts_getEntry fs :
  exists paths, discoveredScripts fs = getEntry fs <$> paths.
Proof.
  unfold discoveredScripts. induction (htmlFiles fs) as [|html htmls [paths IH]].
  - exists []. reflexivity.
  - destruct (pageScripts_getEntry fs html) as [paths1 E]. exists (paths1 ++ paths)%list.
    cbn [flat_map]. rewrite E, IH, fmap_app. reflexivity.
Qed.

(** Every entry the discovery returns has a path that starts with [./]. *)
Lemma discoverEntries_dotSlash fs entries :
  discoverEntries fs = Ok entries ->
  dotSlashPaths (background entries) /\ dotSlashPaths (contentScript entries) /\
  dotSlashPaths (extensionPage entries).
Proof.
  unfold discoverEntries. destruct (negb (existsSync (manifestJson fs))); [discriminate|].
  intros H. apply bind_Ok in H as (m & _ & H). apply bind_Ok in H as (bg & Hbg & H).
  apply bind_Ok in H as (cs & Hcs & H). injection H as <-. cbn [background contentScript extensionPage].
  split; [|split].
  - unfold getBackgroundEntries in Hbg. apply bind_Ok in Hbg as (b & _ & Hbg).
    destruct (getPropOpt b "service_worker") as [sw|];
      [|injection Hbg as <-; apply map_Forall_empty].
    destruct (truthy (Some sw)); [|injection Hbg as <-; apply map_Forall_empty].
    apply bind_Ok in Hbg as (entry & He & Hbg). injection Hbg as <-.
    destruct sw; try discriminate He. injection He as <-.
    apply (foldl_addEntry_dotSlash fs ∅ [_]), map_Forall_empty.
  - destruct (getContentScriptEntries_fold fs m cs Hcs) as (paths & _ & ->).
    apply foldl_addEntry_dotSlash, map_Forall_empty.
  - rewrite getExtensionPageEntries_fold.
    destruct (discoveredScripts_getEntry fs) as [paths ->].
    apply foldl_addEntry_dotSlash, map_Forall_empty.
Qed.
End EntriesExtras.

(** ** The hot-reload plugin *)

Section HotReloadExtras.
Import HotReloadPlugin.

Lemma includes_cons c s sub :
  Str.includes (String c s) sub =
  if Str.startsWith (String c s) sub then true else Str.includes s sub.
Proof. reflexivity. Qed.

Lemma includes_suffix s suffix sub :
  Str.endsWith s suffix = true -> Str.startsWith suffix sub = true ->
  Str.includes s sub = true.
Proof.
  intros [p ->]%endsWith_spec Hsub. induction p as [|c p IH].
  - change ("" ++ suffix) with suffix. destruct suffix as [|a suffix].
    + cbn [Str.includes]. rewrite Hsub. reflexivity.
    + rewrite includes_cons, Hsub. reflexivity.
  - change (String c p ++ suffix) with (String c (p ++ suffix)).
    rewrite includes_cons, IH.
    match goal with |- (if ?b then _ else _) = _ => destruct b end; reflexivity.
Qed.

Lemma matchesEntry_dotSlash normalizedId entries :
  dotSlashPaths entries -> Str.includes normalizedId "./" = false ->
  matchesEntry normalizedId entries = false.
Proof.
  intros Hpaths Hid. unfold matchesEntry.
  destruct (existsb _ _) eqn:E; [|reflexivity].
  apply existsb_exists in E as ([n p] & Hin & Hends).
  apply list_elem_of_In, elem_of_map_to_list in Hin.
  rewrite (includes_suffix _ _ _ Hends (Hpaths n p Hin)) in Hid. discriminate Hid.
Qed.

(** X11.  With the entries the discovery returns, [transform] appends
    a snippet to no module whose id is written without [./] (nor the
    same with a backslash): every path of the entries starts with [./],
    and the id is compared with it by [endsWith].  The absolute path of
    an entry file is such an id. *)
Theorem transform_skips_resolved_ids fs entries isDevelopment id :
  Entries.discoverEntries fs = Ok entries ->
  Str.includes (Str.normalizeSeparators id) "./" = false ->
  transform (Some entries) isDevelopment id = None.
Proof.
  intros H Hid. destruct (discoverEntries_dotSlash _ _ H) as (Hbg & Hcs & Hep).
  unfold transform. destruct isDevelopment; [|reflexivity]. cbn [negb].
  rewrite !matchesEntry_dotSlash by assumption. reflexivity.
Qed.

(** The service worker of the extension project, by its absolute path,
    in development mode; and by the path of its entry. *)
Lemma transform_skips_resolved_ids_witness :
  exists entries,
    Entries.discoverEntries MoreExamples.extensionProject = Ok entries /\
    Entries.background entries !! "src/background/index"
      = Some "./src/background/index.ts" /\
    transform (Some entries) true "/home/dev/my-extension/src/background/index.ts" = None /\
    transform (Some entries) true "./src/background/index.ts" = Some BackgroundReload.
Proof.
  destruct (Entries.discoverEntries MoreExamples.extensionProject) as [entries|e] eqn:E;
    [|vm_compute in E; discriminate E].
  exists entries. split; [reflexivity|]. split; [|split].
  - vm_compute in E. injection E as <-. vm_compute. reflexivity.
  - apply (transform_skips_resolved_ids MoreExamples.extensionProject);
      [exact E | vm_compute; reflexivity].
  - vm_compute in E. injection E as <-. vm_compute. reflexivity.
Defined.

(** X12.  The polling client takes its baseline once: the first
    timestamp it reads is kept for good and triggers no reload, and every
    later poll reloads exactly when it reads a timestamp that is set and
    differs from the baseline; a poll at which [getManifest] throws
    changes nothing.  After a reload request the baseline is still the
    old one, so the next poll with the new timestamp asks again. *)
Theorem poll_compares_with_first_timestamp (observations : list HotReload.Observation)
    (baseline : option Z) :
  HotReload.poll observations {| HotReload.lastTimestamp := Some baseline |}
    = List.map (reloadsAgainst baseline) observations /\
  HotReload.poll (HotReload.Timestamp baseline :: observations) HotReload.initial
    = false :: List.map (reloadsAgainst baseline) observations /\
  HotReload.poll (HotReload.GetManifestThrows :: observations) HotReload.initial
    = false :: HotReload.poll observations HotReload.initial.
Proof.
  assert (H : HotReload.poll observations {| HotReload.lastTimestamp := Some baseline |}
              = List.map (reloadsAgainst baseline) observations).
  { induction observations as [|o observations IH]; [reflexivity|].
    cbn [HotReload.poll List.map]. destruct o as [|current].
    - cbn [HotReload.checkForUpdates reloadsAgainst]. rewrite IH. reflexivity.
    - cbn [HotReload.checkForUpdates HotReload.lastTimestamp reloadsAgainst].
      destruct (HotReload.isSet current && HotReload.differs current baseline);
        rewrite IH; reflexivity. }
  split; [exact H|]. split; [|reflexivity].
  cbn [HotReload.poll HotReload.checkForUpdates HotReload.initial HotReload.lastTimestamp].
  rewrite H. reflexivity.
Qed.

End HotReloadExtras.

(** ** The scripts of the extension pages *)

Section PageExtras.
Import Entries.

Lemma split_segments s : Forall (fun seg => Str.split "/" seg = [seg]) (Str.split "/" s).
Proof.
  induction s as [|c s IH]; [repeat constructor|].
  rewrite split_cons. destruct (Ascii.eqb_spec c "/") as [->|Hc].
  - constructor; [reflexivity | exact IH].
  - destruct (Str.split "/" s) as [|h t] eqn:E; [destruct (split_nonempty _ _ E)|].
    apply Forall_cons in IH as [Hh Ht]. constructor; [|exact Ht].
    rewrite split_cons, Hh. apply Ascii.eqb_neq in Hc. rewrite Hc. reflexivity.
Qed.

Lemma split_join l :
  l <> [] -> Forall (fun seg => Str.split "/" seg = [seg]) l ->
  Str.split "/" (Str.join "/" l) = l.
Proof.
  induction l as [|x [|y l] IH]; intros Hne H; [congruence| |].
  - apply Forall_cons in H as [Hx _]. exact Hx.
  - apply Forall_cons in H as [Hx H]. rewrite join_cons, split_app, Hx, IH by (congruence || assumption).
    reflexivity.
Qed.

Lemma plainPath_segments p : plainPath p = true -> plainSegments (Str.split "/" p).
Proof.
  unfold plainPath, plainSegments. intros H.
  pose proof (split_segments p) as Hs.
  induction (Str.split "/" p) as [|seg segs IH]; [constructor|].
  cbn [forallb] in H. apply andb_true_iff in H as [Hseg H].
  apply Forall_cons in Hs as [Hs1 Hs]. constructor; auto.
Qed.

Lemma plainSegments_filter segs :
  plainSegments segs ->
  forallb noDots segs = true /\ List.filter notEmpty segs = segs /\
  Forall (fun seg => Str.split "/" seg = [seg]) segs.
Proof.
  induction 1 as [|seg segs [Hseg Hsplit] _ (IH1 & IH2 & IH3)];
    [repeat split; constructor|].
  unfold plainSegment in Hseg. apply andb_true_iff in Hseg as [[H1 H2]%andb_true_iff H3].
  cbn [forallb List.filter]. unfold noDots at 1, notEmpty at 1.
  rewrite H1, H2, H3, IH1, IH2. repeat split. constructor; assumption.
Qed.

Lemma plainSegments_app a b : plainSegments a -> plainSegments b -> plainSegments (a ++ b).
Proof. apply Forall_app_2. Qed.

Lemma dropLast_app (a l : list string) :
  l <> [] -> Path.dropLast (a ++ l) = (a ++ Path.dropLast l)%list.
Proof.
  intros Hl. unfold Path.dropLast. rewrite rev_app_distr.
  destruct (rev l) as [|x r] eqn:E.
  - apply (f_equal (@rev string)) in E. rewrite rev_involutive in E. cbn in E. congruence.
  - cbn [tl app]. rewrite rev_app_distr, rev_involutive. reflexivity.
Qed.

Lemma plainSegments_dropLast l : plainSegments l -> plainSegments (Path.dropLast l).
Proof.
  unfold plainSegments, Path.dropLast. intros H.
  apply Forall_rev. apply Forall_rev in H.
  destruct (rev l); [constructor|]. apply Forall_cons in H as [_ H]. exact H.
Qed.

Lemma endsWith_slash a q :
  q <> "" -> Str.endsWith (a ++ "/" ++ q) "/" = Str.endsWith q "/".
Proof.
  intros Hq. assert (Hne : forall c s, String.eqb (String c (s ++ "/" ++ q)) "/" = false).
  { intros c s. apply String.eqb_neq. intros E. injection E as _ E.
    destruct s; discriminate E. }
  induction a as [|c a IH].
  - change ("" ++ "/" ++ q) with (String "/" q). rewrite endsWith_cons.
    destruct (String.eqb_spec (String "/" q) "/") as [E|_]; [|reflexivity].
    injection E as E. congruence.
  - change (String c a ++ "/" ++ q) with (String c (a ++ "/" ++ q)).
    rewrite endsWith_cons, Hne. exact IH.
Qed.

Lemma plainPath_nonempty q : plainPath q = true -> q <> "".
Proof. intros H ->. discriminate H. Qed.

Lemma plainPath_no_trailing q : plainPath q = true -> Str.endsWith q "/" = false.
Proof.
  intros H. destruct (Str.endsWith q "/") eqn:E; [|reflexivity].
  apply endsWith_spec in E as [p ->].
  unfold plainPath in H. change (p ++ "/") with (p ++ "/" ++ "") in H.
  rewrite (split_app p "") in H.
  rewrite forallb_app in H. apply andb_true_iff in H as [_ H]. discriminate H.
Qed.

Lemma join_nonempty x l : x <> "" -> Str.join "/" (x :: l) <> "".
Proof.
  intros Hx. destruct l as [|y l]; [exact Hx|]. rewrite join_cons.
  destruct x; [congruence | discriminate].
Qed.

Lemma isAbsolute_cons p : Path.isAbsolute p = true -> exists rest, p = String "/" rest.
Proof.
  unfold Path.isAbsolute, Str.startsWith. destruct p as [|c p]; [discriminate|].
  cbn [Str.stripPrefix]. destruct (Ascii.eqb_spec "/" c) as [<-|]; [eauto | discriminate].
Qed.

Lemma filter_notEmpty_In seg segs : In seg (List.filter notEmpty segs) -> seg <> "".
Proof.
  intros [_ H]%filter_In ->. discriminate H.
Qed.

(** [path.join] of a directory and a plain path. *)
Lemma join_plainPath a q :
  absoluteWithoutDots a = true -> plainPath q = true ->
  Path.join a q
  = "/" ++ Str.join "/" (List.filter notEmpty (Str.split "/" a) ++ Str.split "/" q).
Proof.
  intros [Habs Hdots]%andb_true_iff Hq.
  destruct (isAbsolute_cons _ Habs) as [a' ->].
  pose proof (plainPath_nonempty _ Hq) as Hne.
  destruct (plainPath_filter _ Hq) as [Hqdots Hqfilter].
  unfold Path.join.
  change (String.eqb (String "/" a') "") with false. cbv iota.
  destruct (String.eqb_spec q "") as [|_]; [congruence|].
  change (String "/" a' ++ "/" ++ q) with (String "/" (a' ++ "/" ++ q)).
  change (String.eqb (String "/" (a' ++ "/" ++ q)) "") with false. cbv iota.
  unfold Path.normalize.
  change (String.eqb (String "/" (a' ++ "/" ++ q)) "") with false. cbv iota.
  change (String "/" (a' ++ "/" ++ q)) with (String "/" a' ++ "/" ++ q).
  rewrite endsWith_slash, (plainPath_no_trailing _ Hq) by exact Hne.
  assert (Hjoined : Path.isAbsolute (String "/" a' ++ "/" ++ q) = true) by reflexivity.
  rewrite Hjoined. cbn [negb]. rewrite split_app.
  rewrite normalizeSegments_noDots
    by (rewrite forallb_app; apply andb_true_iff; split; assumption).
  cbn [rev app]. rewrite List.filter_app, Hqfilter.
  destruct (String.eqb_spec
              (Str.join "/" (List.filter notEmpty (Str.split "/" (String "/" a'))
                             ++ Str.split "/" q)) "") as [E|_]; [|reflexivity].
  exfalso. revert E.
  destruct (List.filter notEmpty (Str.split "/" (String "/" a'))) as [|w ws] eqn:Ew.
  - destruct (Str.split "/" q) as [|h t] eqn:Eh; [destruct (split_nonempty _ _ Eh)|].
    apply join_nonempty. unfold plainPath in Hq. rewrite Eh in Hq.
    cbn [forallb] in Hq. apply andb_true_iff in Hq as [Hh _]. intros ->. discriminate Hh.
  - apply join_nonempty, (filter_notEmpty_In w (Str.split "/" (String "/" a'))).
    rewrite Ew. left. reflexivity.
Qed.


Lemma split_slash s : Str.split "/" (String "/" s) = EmptyString :: Str.split "/" s.
Proof. reflexivity. Qed.

(** [path.dirname] of a file below the root. *)
Lemma dirname_segments (dirs file : list string) :
  file <> [] ->
  Forall (fun seg => Str.split "/" seg = [seg]) (dirs ++ file) ->
  Path.dirname ("/" ++ Str.join "/" (dirs ++ file))
  = "/" ++ Str.join "/" (dirs ++ Path.dropLast file).
Proof.
  intros Hfile Hsegs. unfold Path.dirname.
  change ("/" ++ Str.join "/" (dirs ++ file)) with (String "/" (Str.join "/" (dirs ++ file))).
  rewrite split_slash, split_join by (try exact Hsegs; destruct dirs, file; cbn; congruence).
  change (EmptyString :: dirs ++ file)%list with ((EmptyString :: dirs) ++ file)%list.
  rewrite (dropLast_app _ _ Hfile). cbn [app].
  destruct (dirs ++ Path.dropLast file)%list as [|y l]; reflexivity.
Qed.

Lemma directory_segments a :
  absoluteWithoutDots a = true -> plainSegments (List.filter notEmpty (Str.split "/" a)).
Proof.
  intros [_ Hdots]%andb_true_iff. unfold plainSegments.
  pose proof (split_segments a) as Hs.
  induction (Str.split "/" a) as [|seg segs IH]; [constructor|].
  cbn [forallb] in Hdots. apply andb_true_iff in Hdots as [Hseg Hdots].
  apply Forall_cons in Hs as [Hs1 Hs]. cbn [List.filter].
  destruct (notEmpty seg) eqn:E; [|auto]. constructor; [|auto].
  split; [|exact Hs1]. unfold plainSegment. unfold notEmpty in E. unfold noDots in Hseg.
  rewrite E. exact Hseg.
Qed.

(** A slash and plain segments: an absolute path without dots. *)
Lemma absolute_of_segments segs :
  plainSegments segs ->
  absoluteWithoutDots ("/" ++ Str.join "/" segs) = true /\
  List.filter notEmpty (Str.split "/" ("/" ++ Str.join "/" segs)) = segs.
Proof.
  intros H. destruct (plainSegments_filter _ H) as (Hdots & Hfilter & Hsplit).
  destruct segs as [|seg segs]; [split; reflexivity|].
  change ("/" ++ Str.join "/" (seg :: segs)) with (String "/" (Str.join "/" (seg :: segs))).
  unfold absoluteWithoutDots. rewrite split_slash, split_join by (congruence || assumption).
  split.
  - apply andb_true_iff. split; [reflexivity|].
    change (forallb noDots (EmptyString :: seg :: segs))
      with (noDots "" && forallb noDots (seg :: segs)).
    rewrite Hdots. reflexivity.
  - change (List.filter notEmpty (EmptyString :: seg :: segs))
      with (List.filter notEmpty (seg :: segs)). exact Hfilter.
Qed.

(** [path.relative] from the working directory to a file below it. *)
Lemma relative_below wd segs :
  absoluteWithoutDots wd = true -> plainSegments segs -> segs <> [] ->
  Path.relative wd wd ("/" ++ Str.join "/" (List.filter notEmpty (Str.split "/" wd) ++ segs))
  = Str.join "/" segs.
Proof.
  intros Hwd Hsegs Hne.
  pose proof (plainSegments_app _ _ (directory_segments _ Hwd) Hsegs) as Hall.
  destruct (absolute_of_segments _ Hall) as [Habs Hfilter].
  apply andb_true_iff in Habs as [Habs Hdots].
  pose proof Hwd as [Hwabs Hwdots]%andb_true_iff.
  unfold Path.relative.
  destruct (String.eqb_spec wd
              ("/" ++ Str.join "/" (List.filter notEmpty (Str.split "/" wd) ++ segs)))
    as [E|_].
  { exfalso. rewrite <- E in Hfilter. apply (f_equal (@length string)) in Hfilter.
    rewrite length_app in Hfilter. destruct segs; [congruence | cbn in Hfilter; lia]. }
  unfold Path.resolveSegments. rewrite Hwabs, Habs.
  rewrite !normalizeSegments_noDots by assumption. cbn [rev app].
  rewrite Hfilter, dropCommon_app. reflexivity.
Qed.

Lemma normalizeSegments_skip_dot allowAboveRoot pre :
  forall acc post,
    Path.normalizeSegments allowAboveRoot acc (pre ++ "." :: post)
    = Path.normalizeSegments allowAboveRoot acc (pre ++ post).
Proof.
  induction pre as [|seg pre IH]; intros acc post; [reflexivity|].
  cbn [app Path.normalizeSegments].
  destruct (String.eqb seg "" || String.eqb seg "."); [apply IH|].
  destruct (Path.isDots seg); [|apply IH].
  destruct acc as [|top acc']; [apply IH|].
  destruct (Path.isDots top); apply IH.
Qed.

(** A leading [./] of the second path changes nothing. *)
Lemma join_dotSlash a q :
  Path.isAbsolute a = true -> q <> "" -> Path.join a ("./" ++ q) = Path.join a q.
Proof.
  intros Habs Hq. destruct (isAbsolute_cons _ Habs) as [a' ->].
  unfold Path.join.
  change (String.eqb (String "/" a') "") with false. cbv iota.
  change (String.eqb ("./" ++ q) "") with false. cbv iota.
  destruct (String.eqb_spec q "") as [|_]; [congruence|].
  change (String "/" a' ++ "/" ++ "./" ++ q) with (String "/" (a' ++ "/" ++ "./" ++ q)).
  change (String "/" a' ++ "/" ++ q) with (String "/" (a' ++ "/" ++ q)).
  change (String.eqb (String "/" (a' ++ "/" ++ "./" ++ q)) "") with false.
  change (String.eqb (String "/" (a' ++ "/" ++ q)) "") with false. cbv iota.
  unfold Path.normalize.
  change (String.eqb (String "/" (a' ++ "/" ++ "./" ++ q)) "") with false.
  change (String.eqb (String "/" (a' ++ "/" ++ q)) "") with false. cbv iota.
  change (Path.isAbsolute (String "/" (a' ++ "/" ++ "./" ++ q))) with true.
  change (Path.isAbsolute (String "/" (a' ++ "/" ++ q))) with true.
  change (String "/" (a' ++ "/" ++ "./" ++ q)) with (String "/" a' ++ "/" ++ ("." ++ "/" ++ q)).
  change (String "/" (a' ++ "/" ++ q)) with (String "/" a' ++ "/" ++ q).
  rewrite (endsWith_slash (String "/" a') ("." ++ "/" ++ q)) by discriminate.
  rewrite (endsWith_slash "." q), (endsWith_slash (String "/" a') q) by exact Hq.
  rewrite (split_app (String "/" a') ("." ++ "/" ++ q)), (split_app "." q).
  rewrite (split_app (String "/" a') q).
  change (Str.split "/" "." ++ Str.split "/" q)%list with ("." :: Str.split "/" q).
  rewrite normalizeSegments_skip_dot. reflexivity.
Qed.

(** X13.  The scripts of a page are entries relative to the directory
    of the page: in a working directory that is an absolute path without
    [.] and [..], for a page found at the plain path [htmlFile] and a
    [src] that is a plain path, with or without [./] in front, the script
    path the discovery builds has the entry of the path made of the
    directory of the page and [src], from the project root. *)
Theorem page_script_entry fs html src :
  absoluteWithoutDots (cwd fs) = true ->
  plainPath (htmlFile html) = true ->
  plainPath src = true ->
  let dirname := Path.dirname (Path.join (cwd fs) (htmlFile html)) in
  let relativePath := pageScriptPath (htmlFile html) src in
  let entry :=
    {| name := Str.normalizeSeparators
                 (Str.replaceFirst (Path.ext relativePath) "" relativePath);
       path := "./" ++ Str.normalizeSeparators relativePath |} in
  getEntry fs (Path.join dirname src) = entry /\
  getEntry fs (Path.join dirname ("./" ++ src)) = entry.
Proof.
  intros Hwd Hhtml Hsrc. cbv zeta.
  pose proof (directory_segments _ Hwd) as HW.
  pose proof (plainPath_segments _ Hhtml) as HH.
  pose proof (plainPath_segments _ Hsrc) as HS.
  set (W := List.filter notEmpty (Str.split "/" (cwd fs))) in *.
  assert (Hdir : Path.dirname (Path.join (cwd fs) (htmlFile html))
                 = "/" ++ Str.join "/" (W ++ Path.dropLast (Str.split "/" (htmlFile html)))).
  { rewrite (join_plainPath _ _ Hwd Hhtml). fold W. apply dirname_segments.
    - apply split_nonempty.
    - apply plainSegments_filter, plainSegments_app; assumption. }
  pose proof (plainSegments_app _ _ HW (plainSegments_dropLast _ HH)) as HD.
  destruct (absolute_of_segments _ HD) as [Habs Hfilter].
  assert (Hscript : Path.join (Path.dirname (Path.join (cwd fs) (htmlFile html))) src
                    = "/" ++ Str.join "/"
                        (W ++ (Path.dropLast (Str.split "/" (htmlFile html))
                               ++ Str.split "/" src))).
  { rewrite Hdir, (join_plainPath _ _ Habs Hsrc), Hfilter, <- app_assoc. reflexivity. }
  assert (Hentry : getEntry fs (Path.join (Path.dirname (Path.join (cwd fs) (htmlFile html))) src)
                   = {| name := Str.normalizeSeparators
                                  (Str.replaceFirst
                                     (Path.ext (pageScriptPath (htmlFile html) src)) ""
                                     (pageScriptPath (htmlFile html) src));
                        path := "./" ++ Str.normalizeSeparators
                                          (pageScriptPath (htmlFile html) src) |}).
  { unfold getEntry. rewrite Hscript. subst W. rewrite relative_below; [reflexivity | exact Hwd | |].
    - apply plainSegments_app; [apply plainSegments_dropLast, HH | exact HS].
    - intros E. apply app_eq_nil in E as [_ E]. exact (split_nonempty _ _ E). }
  split; [exact Hentry|].
  rewrite join_dotSlash; [exact Hentry | | apply plainPath_nonempty, Hsrc].
  rewrite Hdir. reflexivity.
Qed.

(** The popup of the extension project and its script [./index.tsx]. *)
Lemma page_script_entry_witness :
  getExtensionPageEntries MoreExamples.extensionProject
  = {[ "src/popup/index" := "./src/popup/index.tsx" ]} /\
  getEntry MoreExamples.extensionProject
    (Path.join (Path.dirname (Path.join "/home/dev/my-extension" "src/popup/index.html"))
       ("./" ++ "index.tsx"))
  = {| name := "src/popup/index"; path := "./src/popup/index.tsx" |}.
Proof.
  split; [vm_compute; reflexivity|].
  destruct (page_script_entry MoreExamples.extensionProject
              {| htmlFile := "src/popup/index.html"; scriptSrcs := ["./index.tsx"] |}
              "index.tsx") as [_ H]; [reflexivity | reflexivity | reflexivity |].
  cbn [cwd htmlFile MoreExamples.extensionProject] in H. rewrite H. vm_compute. reflexivity.
Defined.


(** *** The entry of a script and the manifest *)

Lemma append_assoc (a b c : string) : (a ++ b) ++ c = a ++ b ++ c.
Proof.
  induction a as [|x a IH]; [reflexivity|].
  change (String x ((a ++ b) ++ c) = String x (a ++ b ++ c)). rewrite IH. reflexivity.
Qed.

Lemma append_nil_r (a : string) : a ++ "" = a.
Proof.
  induction a as [|x a IH]; [reflexivity|].
  change (String x (a ++ "") = String x a). rewrite IH. reflexivity.
Qed.

Lemma fromLastDot_suffix s e : Path.fromLastDot s = Some e -> exists pre, s = pre ++ e.
Proof.
  revert e. induction s as [|c s IH]; intros e H; [discriminate|].
  cbn [Path.fromLastDot] in H. destruct (Path.fromLastDot s) as [e'|].
  - injection H as <-. destruct (IH _ eq_refl) as [pre ->]. exists (String c pre). reflexivity.
  - destruct (Ascii.eqb c "."); [|discriminate]. injection H as <-. exists "". reflexivity.
Qed.

Lemma extOfBase_suffix base : exists pre, base = pre ++ Path.extOfBase base.
Proof.
  unfold Path.extOfBase. destruct base as [|c rest]; [exists ""; reflexivity|].
  destruct (Path.fromLastDot rest) as [e|] eqn:E.
  - destruct (Path.isDots (String c rest)).
    + exists (String c rest). symmetry. apply append_nil_r.
    + destruct (fromLastDot_suffix _ _ E) as [pre ->]. exists (String c pre). reflexivity.
  - exists (String c rest). symmetry. apply append_nil_r.
Qed.

Lemma join_last l b : exists pre, Str.join "/" (l ++ [b]) = pre ++ b.
Proof.
  induction l as [|x l [pre IH]]; [exists ""; reflexivity|].
  destruct l as [|y l].
  - exists (x ++ "/"). cbn [app]. rewrite join_cons, append_assoc. reflexivity.
  - exists (x ++ "/" ++ pre). cbn [app] in *. rewrite join_cons, IH, !append_assoc.
    reflexivity.
Qed.

(** The extension of a plain path is at its end. *)
Lemma ext_suffix p : plainPath p = true -> exists q, p = q ++ Path.ext p.
Proof.
  intros Hp. unfold Path.ext, Path.basename.
  destruct (plainPath_filter _ Hp) as [_ Hfilter].
  destruct (rev (Str.split "/" p)) as [|b r] eqn:E.
  { apply (f_equal (@rev string)) in E. rewrite rev_involutive in E. cbn in E.
    destruct (split_nonempty _ _ E). }
  assert (Hsplit : Str.split "/" p = (rev r ++ [b])%list).
  { apply (f_equal (@rev string)) in E. rewrite rev_involutive in E. exact E. }
  assert (Hb : b <> "").
  { intros ->. unfold plainPath in Hp. rewrite Hsplit, forallb_app in Hp.
    apply andb_true_iff in Hp as [_ Hp]. discriminate Hp. }
  assert (Hbase : filter (fun seg : string => seg ≠ "") (b :: r) = b :: filter (fun seg : string => seg ≠ "") r).
  { apply filter_cons_True. exact Hb. }
  rewrite Hbase.
  destruct (join_last (rev r) b) as [pre Hjoin]. rewrite <- Hsplit, join_split in Hjoin.
  destruct (extOfBase_suffix b) as [pre' Hext].
  exists (pre ++ pre'). rewrite append_assoc, <- Hext. exact Hjoin.
Qed.

Lemma replaceFirst_at_end ext q :
  (forall a b, q ++ ext = a ++ ext ++ b -> b = "") ->
  Str.replaceFirst ext "" (q ++ ext) = q.
Proof.
  induction q as [|c q IH]; intros H.
  - change ("" ++ ext) with ext. destruct ext as [|x ext]; [reflexivity|].
    cbn [Str.replaceFirst]. rewrite stripPrefix_refl. reflexivity.
  - change (String c q ++ ext) with (String c (q ++ ext)) in *.
    cbn [Str.replaceFirst].
    destruct (Str.stripPrefix ext (String c (q ++ ext))) as [rest|] eqn:E.
    + apply stripPrefix_Some in E. pose proof (H "" rest E) as ->.
      rewrite append_nil_r in E. apply (f_equal String.length) in E.
      cbn [String.length] in E. rewrite length_append in E. lia.
    + rewrite IH; [reflexivity|]. intros a b Hab. apply (H (String c a)).
      rewrite Hab. reflexivity.
Qed.

Lemma normalizeSeparators_app a b :
  Str.normalizeSeparators (a ++ b) = Str.normalizeSeparators a ++ Str.normalizeSeparators b.
Proof.
  induction a as [|c a IH]; [reflexivity|].
  change (String c a ++ b) with (String c (a ++ b)). cbn [Str.normalizeSeparators].
  rewrite IH. reflexivity.
Qed.

(** X14.  The manifest and the bundle agree on a script: for a plain
    path whose extension is a script extension that occurs in the path
    at its end only, the path [replaceFileExtension] writes into the
    manifest is the file the bundler writes for the entry of the path,
    by the pattern [[name].js].  (Where the extension occurs earlier in
    the path too, the two differ.) *)
Theorem manifest_references_bundle fs entryPath :
  absoluteWithoutDots (cwd fs) = true ->
  plainPath entryPath = true ->
  Str.isScriptExt (Path.ext entryPath) = true ->
  (forall a b, entryPath = a ++ Path.ext entryPath ++ b -> b = "") ->
  exists rewritten,
    Manifest.replaceFileExtension (JStr entryPath) = Ok (JStr rewritten) /\
    Str.normalizeSeparators rewritten = entryFileName (name (getEntry fs entryPath)).
Proof.
  intros Hwd Hp Hext Honce.
  destruct (ext_suffix _ Hp) as [q Hq].
  exists (q ++ ".js"). split.
  - cbn [Manifest.replaceFileExtension]. rewrite Hq at 1.
    rewrite (replaceScriptExt_app _ _ _ Hext). reflexivity.
  - unfold getEntry, entryFileName. cbn [name].
    rewrite (relative_plainPath _ _ Hwd Hp), normalizeSeparators_app.
    f_equal. f_equal. symmetry.
    rewrite Hq at 2. apply replaceFirst_at_end. rewrite <- Hq. exact Honce.
Qed.

(** The service worker of the extension project; and a path in which
    the extension occurs twice. *)
Lemma manifest_references_bundle_witness :
  (exists rewritten,
      Manifest.replaceFileExtension (JStr "src/background/index.ts") = Ok (JStr rewritten) /\
      rewritten = "src/background/index.js" /\
      entryFileName (name (getEntry MoreExamples.extensionProject "src/background/index.ts"))
      = "src/background/index.js") /\
  Manifest.replaceFileExtension (JStr "src/my.ts.files/worker.ts")
    = Ok (JStr "src/my.ts.files/worker.js") /\
  entryFileName (name (getEntry MoreExamples.extensionProject "src/my.ts.files/worker.ts"))
    = "src/my.files/worker.ts.js".
Proof.
  split; [|split; vm_compute; reflexivity].
  destruct (manifest_references_bundle MoreExamples.extensionProject "src/background/index.ts")
    as (rewritten & H1 & H2); [reflexivity | reflexivity | reflexivity | |].
  - intros a b H. change (Path.ext "src/background/index.ts") with ".ts" in H.
    do 24 (destruct a as [|? a];
           [vm_compute in H; congruence
           |vm_compute in H; first [discriminate H | injection H as _ H]]).
  - exists rewritten. split; [exact H1|]. vm_compute in H1. injection H1 as <-.
    split; reflexivity.
Defined.

End PageExtras.

(** ** The development server: shutdown *)

Section DevExtras.
Import Dev.

Lemma In_enqueue x tm q : In x (enqueue tm q) <-> x = tm \/ In x q.
Proof.
  induction q as [|y q IH]; cbn [enqueue].
  - cbn. intuition congruence.
  - destruct (due y <=? due tm); cbn [In]; [rewrite IH|]; intuition congruence.
Qed.

Lemma Forall_enqueue (P : Timer -> Prop) tm q :
  P tm -> Forall P q -> Forall P (enqueue tm q).
Proof.
  intros Htm Hq. apply Forall_forall. intros x [->|Hx]%list_elem_of_In%In_enqueue; [exact Htm|].
  apply (proj1 (Forall_forall _ _) Hq), list_elem_of_In, Hx.
Qed.

Lemma firingOrder_enqueue tm q : firingOrder q -> firingOrder (enqueue tm q).
Proof.
  induction q as [|x q IH]; intros H.
  - cbn. split; [constructor | exact I].
  - cbn [enqueue]. destruct H as [Hx Hq]. destruct (Z.leb_spec (due x) (due tm)) as [Hle|Hlt].
    + cbn [firingOrder]. split; [|apply IH, Hq]. apply Forall_enqueue; assumption.
    + cbn [firingOrder]. split; [|split; assumption].
      constructor; [lia|]. eapply Forall_impl; [exact Hx|]. cbn. intros; lia.
Qed.

Lemma Forall_List_filter {A : Type} (P : A -> Prop) (f : A -> bool) (l : list A) :
  Forall P l -> Forall P (List.filter f l).
Proof.
  induction 1 as [|x l Hx _ IH]; cbn [List.filter]; [constructor|].
  destruct (f x); [constructor; assumption | assumption].
Qed.

Lemma firingOrder_filter f q : firingOrder q -> firingOrder (List.filter f q).
Proof.
  induction q as [|x q IH]; intros H; [exact I|]. destruct H as [Hx Hq].
  cbn [List.filter]. destruct (f x); [|apply IH, Hq].
  split; [apply Forall_List_filter, Hx | apply IH, Hq].
Qed.

Lemma advances_refl p : advances p p.
Proof. intros H. auto. Qed.

Lemma advances_trans p q r : advances p q -> advances q r -> advances p r.
Proof.
  intros H1 H2 Hr. destruct (H2 Hr) as (Hq & S2 & W2). destruct (H1 Hq) as (Hp & S1 & W1).
  auto.
Qed.

(** *** The notifier *)

Lemma openClients_closeClient clients : openClients (List.map closeClient clients) = [].
Proof.
  induction clients as [|c clients IH]; [reflexivity|].
  cbn [List.map]. rewrite openClients_cons, IH. unfold closeClient.
  destruct (readyState c) eqn:E; cbn [isOpen readyState]; rewrite ?E; reflexivity.
Qed.

Lemma notify_closed bg cs page clients p :
  openClients clients = [] -> foldl (notifyClient bg cs page) p clients = p.
Proof.
  induction clients as [|c clients IH]; intros H; [reflexivity|].
  rewrite openClients_cons in H. cbn [foldl]. unfold notifyClient at 2.
  destruct (isOpen (readyState c)); [discriminate H | apply IH, H].
Qed.

Lemma notify_serving server bg cs page clients p :
  serving server p -> serving server (foldl (notifyClient bg cs page) p clients).
Proof.
  revert p. induction clients as [|c clients IH]; intros p H; [exact H|].
  cbn [foldl]. apply IH. unfold notifyClient.
  destruct (isOpen _); [|exact H]. destruct (bg || cs); [|destruct page; exact H].
  destruct H as (H1 & H2 & H3 & H4 & H5 & H6 & H7).
  repeat split; try assumption.
  - apply firingOrder_enqueue, H1.
  - apply Forall_enqueue; [reflexivity | exact H7].
Qed.

Lemma onBuild_serving server options entries err stats p :
  serving server p -> serving server (onBuild options entries err stats p).
Proof.
  intros H. unfold onBuild. destruct err; [exact H|]. destruct stats as [stats|]; [|exact H].
  destruct (hasErrors stats); [exact H|]. destruct (reload options); [|exact H].
  unfold notifyClientsToReload. destruct (wss p); [|exact H]. apply notify_serving, H.
Qed.

Lemma runTimers_serving server rounds t p :
  serving server p -> serving server (runTimers rounds t p).
Proof.
  revert p. induction rounds as [|rounds IH]; intros p H; [exact H|].
  cbn [runTimers]. destruct (exited p); [exact H|].
  destruct (timers p) as [|tm rest] eqn:Et; [exact H|].
  destruct (due tm <=? t); [|exact H]. apply IH.
  destruct H as (H1 & H2 & H3 & H4 & H5 & H6 & H7). rewrite Et in H1, H7.
  apply Forall_cons in H7 as [Htm H7]. destruct H1 as [_ H1].
  destruct (task tm); try discriminate Htm.
  repeat split; assumption.
Qed.

Lemma step_serving server p i :
  serving server p -> isSignal i = false -> serving server (step p i).
Proof.
  intros H Hi. unfold step.
  assert (He : exited p = None) by apply H. rewrite He.
  assert (Hs : shutdownInProgress p = false) by apply H.
  destruct i as [|t|options entries err stats| |]; [discriminate Hi| | | |].
  - pose proof (runTimers_serving server (length (timers p)) t p H) as H'.
    assert (He' : exited (runTimers (length (timers p)) t p) = None) by apply H'.
    rewrite He'. exact H'.
  - apply onBuild_serving, H.
  - rewrite Hs. exact H.
  - rewrite Hs. exact H.
Qed.

Lemma started_serving t server : serving server (started t server).
Proof. repeat split; constructor. Qed.


Lemma Forall_In {A : Type} (P : A -> Prop) (l : list A) (x : A) :
  Forall P l -> In x l -> P x.
Proof. intros H Hx. apply (proj1 (Forall_forall _ _) H), list_elem_of_In, Hx. Qed.

Lemma shutdown_closing server p :
  serving server p ->
  closing server (clock p + 3000) (shutdown p) /\ exited (shutdown p) = None.
Proof.
  intros (H1 & H2 & H3 & H4 & H5 & H6 & H7).
  unfold shutdown. rewrite H5, H6.
  unfold settle, setTimeout, withClients, withShutdown, withTimers. cbn.
  rewrite H3. cbn. rewrite H4, andb_false_r. split; [|reflexivity].
  unfold closing. cbn. split; [|split; [reflexivity|split; [reflexivity|split]]].
  - apply firingOrder_enqueue, firingOrder_enqueue, H1.
  - intros clients E. destruct (wss p) as [cl|]; [|discriminate E].
    injection E as <-. apply openClients_closeClient.
  - split; [|split; [|split; [|split]]].
    + eexists. split; [apply In_enqueue; right; apply In_enqueue; left; reflexivity|].
      split; [reflexivity|]. cbn. intros E. injection E as E. lia.
    + apply Forall_enqueue; [discriminate|]. apply Forall_enqueue; [reflexivity|].
      eapply Forall_impl; [exact H7|]. cbn. intros tm Htm E. rewrite E in Htm. discriminate.
    + apply andb_false_r.
    + intros ->. rewrite H2. reflexivity.
    + intros _. eexists. split; [apply In_enqueue; left; reflexivity|].
      split; [reflexivity|]. cbn. lia.
Qed.

(** The callback of the first timer of the queue. *)
Lemma fire_closing server deadline p tm rest :
  closing server deadline p -> exited p = None -> timers p = tm :: rest ->
  let p' := fire (task tm) (withClock (due tm) (withTimers rest (nextTimerId p) p)) in
  closing server deadline p' /\ advances p p' /\
  (exited p' = Some 1 -> due tm = deadline) /\
  (task tm = WatcherTimeout -> exited p' = None -> watcherClosed p' = true).
Proof.
  intros (H1 & H2 & H3 & H4 & H5) He Et. rewrite He in H5.
  destruct H5 as ((f & Hf & Hft & Hfw) & Hall & Hpending & Hserver & Hwatcher).
  rewrite Et in H1, Hf, Hall, Hwatcher. destruct H1 as [Hhead Hrest].
  apply Forall_cons in Hall as [Htm Hall].
  cbv zeta. destruct (task tm) as [c| |] eqn:Etask; cbn [fire].
  - (* the delayed message of the notifier *)
    split; [|split; [|split]].
    + unfold closing. cbn. rewrite He.
      split; [exact Hrest|]. split; [exact H2|]. split; [exact H3|]. split; [exact H4|].
      split; [|split; [exact Hall|split; [exact Hpending|split; [exact Hserver|]]]].
      * exists f. destruct Hf as [<-|Hf]; [congruence|]. auto.
      * intros Hw. destruct (Hwatcher Hw) as (w & [<-|Hw'] & Hwt & Hwd); [congruence|].
        exists w. auto.
    + intros _. cbn. auto.
    + cbn. rewrite He. discriminate.
    + discriminate.
  - (* the forced exit *)
    split; [|split; [|split]].
    + unfold closing. cbn. auto 10.
    + intros E. discriminate E.
    + intros _. auto.
    + discriminate.
  - (* the timeout of the watcher *)
    unfold settle. cbn. rewrite andb_true_r.
    destruct (serverClosed p) eqn:Es.
    + split; [|split; [|split]].
      * destruct (forceExitTimeout p); unfold closing; cbn;
          (split; [first [apply firingOrder_filter; exact Hrest | exact Hrest] | auto 10]).
      * intros E. discriminate E.
      * cbn. discriminate.
      * intros _ E. discriminate E.
    + split; [|split; [|split]]; [| | |reflexivity].
      * unfold closing. cbn. rewrite He.
        split; [exact Hrest|]. split; [exact H2|]. split; [exact H3|]. split; [exact H4|].
        split; [|split; [exact Hall|split; [reflexivity|split; [exact Hserver|]]]].
        -- exists f. destruct Hf as [<-|Hf]; [congruence|]. auto.
        -- discriminate.
      * intros _. cbn. split; [exact He|]. rewrite Es. split; [discriminate | reflexivity].
      * cbn. rewrite He. discriminate.
Qed.

Lemma runTimers_closing server deadline rounds t p :
  closing server deadline p ->
  let p' := runTimers rounds t p in
  closing server deadline p' /\ advances p p' /\
  (exited p' = Some 1 -> exited p = Some 1 \/ deadline <= t).
Proof.
  revert p. induction rounds as [|rounds IH]; intros p H; cbv zeta.
  - split; [exact H|]. split; [apply advances_refl | intros E; left; exact E].
  - cbn [runTimers]. destruct (exited p) eqn:He.
    { split; [exact H|]. split; [apply advances_refl | intros E; left; congruence]. }
    destruct (timers p) as [|tm rest] eqn:Et.
    { split; [exact H|]. split; [apply advances_refl | intros E; left; congruence]. }
    destruct (Z.leb_spec (due tm) t) as [Hdue|_].
    2:{ split; [exact H|]. split; [apply advances_refl | intros E; left; congruence]. }
    destruct (fire_closing server deadline p tm rest H He Et) as (Hc & Ha & H1 & _).
    destruct (IH _ Hc) as (Hc' & Ha' & H1').
    split; [exact Hc'|]. split; [eapply advances_trans; eassumption|].
    intros E. right. destruct (H1' E) as [E1|Hle]; [|exact Hle].
    rewrite <- (H1 E1). exact Hdue.
Qed.


Lemma firingOrder_head tm rest x :
  firingOrder (tm :: rest) -> In x (tm :: rest) -> due tm <= due x.
Proof.
  intros [H _] [<-|Hx]; [lia|]. exact (Forall_In _ _ _ H Hx).
Qed.

(** One input in a shutdown. *)
Lemma step_closing server deadline p i :
  closing server deadline p ->
  closing server deadline (step p i) /\ advances p (step p i) /\
  (exited (step p i) = Some 1 -> exited p = Some 1 \/ elapsesBefore deadline i = false) /\
  (exited (step p i) = None ->
   (i = ServerCloseCallback -> serverClosed (step p i) = true) /\
   (i = WatcherCloseCallback -> watcherClosed (step p i) = true) /\
   (forall t, i = Elapse t ->
      t < deadline /\ (deadline - 1000 <= t -> watcherClosed (step p i) = true))).
Proof.
  intros H. unfold step. destruct (exited p) as [code|] eqn:He.
  { split; [exact H|]. split; [apply advances_refl|].
    split; [intros E; left; congruence | intros E; congruence]. }
  pose proof H as (H1 & H2 & H3 & H4 & H5). rewrite He in H5.
  destruct H5 as ((f & Hf & Hft & Hfw) & Hall & Hpending & Hserver & Hwatcher).
  destruct i as [|t|options entries err stats| |].
  - (* a further signal *)
    unfold shutdown. rewrite H3.
    split; [exact H|]. split; [apply advances_refl|]. split; [intros E; left; congruence|].
    intros _. split; [discriminate|]. split; discriminate.
  - (* time passes *)
    destruct (runTimers_closing server deadline (length (timers p)) t p H)
      as (Hc & Ha & Hforced).
    cbv zeta in Hc, Ha, Hforced.
    destruct (exited (runTimers (length (timers p)) t p)) as [code|] eqn:He'.
    + split; [exact Hc|]. split; [exact Ha|]. rewrite He'. split; [|discriminate].
      intros E. right. destruct (Hforced E) as [E'|Hle]; [congruence|].
      cbn [elapsesBefore]. apply Z.ltb_ge, Hle.
    + pose proof (runTimers_complete _ t p (Nat.le_refl _) He') as Hnext.
      pose proof Hc as (C1 & C2 & C3 & C4 & C5). rewrite He' in C5.
      destruct C5 as ((f' & Hf' & Hft' & Hfw') & Hall' & Hpending' & Hserver' & Hwatcher').
      split; [|split; [|split]].
      * unfold closing. cbn. rewrite He'.
        split; [exact C1|]. split; [exact C2|]. split; [exact C3|]. split; [exact C4|].
        repeat split; eauto.
      * intros _. destruct (Ha He') as (_ & S & W). cbn. auto.
      * cbn. rewrite He'. discriminate.
      * intros _. split; [discriminate|]. split; [discriminate|].
        intros t' E. injection E as <-. cbn [watcherClosed withClock].
        destruct (timers (runTimers (length (timers p)) t p)) as [|tm rest] eqn:Et;
          [destruct Hf'|].
        assert (Hdeadline : t < deadline).
        { pose proof (firingOrder_head _ _ _ C1 Hf') as Hle.
          rewrite (Forall_In _ _ _ Hall' Hf' Hft') in Hle. lia. }
        split; [exact Hdeadline|]. intros Hle.
        destruct (watcherClosed (runTimers (length (timers p)) t p)) eqn:Ew; [reflexivity|].
        destruct (Hwatcher' eq_refl) as (w & Hw & _ & Hwd).
        pose proof (firingOrder_head _ _ _ C1 Hw) as Hle'. lia.
  - (* a build *)
    assert (E : onBuild options entries err stats p = p).
    { unfold onBuild. destruct err; [reflexivity|]. destruct stats as [stats|]; [|reflexivity].
      destruct (hasErrors stats); [reflexivity|]. destruct (reload options); [|reflexivity].
      unfold notifyClientsToReload. destruct (wss p) as [clients|] eqn:Ew; [|reflexivity].
      apply notify_closed, H4. reflexivity. }
    rewrite E. split; [exact H|]. split; [apply advances_refl|].
    split; [intros E1; left; congruence|].
    intros _. split; [discriminate|]. split; discriminate.
  - (* the server has closed *)
    rewrite H3. cbn [andb]. destruct (serverClosed p) eqn:Es; cbn [negb].
    { split; [exact H|]. split; [apply advances_refl|].
      split; [intros E1; left; congruence|].
      intros _. split; [intros _; exact Es|]. split; discriminate. }
    unfold settle. cbn [serverClosed watcherClosed withShutdown andb].
    destruct (watcherClosed p) eqn:Ew.
    + split; [|split; [|split]].
      * destruct (forceExitTimeout p); unfold closing; cbn;
          (split; [first [apply firingOrder_filter; exact H1 | exact H1] | auto 10]).
      * intros E. destruct (forceExitTimeout p); discriminate E.
      * destruct (forceExitTimeout p); cbn; discriminate.
      * destruct (forceExitTimeout p); cbn; discriminate.
    + split; [|split; [|split]].
      * unfold closing. cbn. rewrite He, ?Ew.
        split; [exact H1|]. split; [exact H2|]. split; [reflexivity|]. split; [exact H4|].
        repeat split; eauto.
      * intros _. cbn. rewrite ?Ew. split; [exact He|]. split; [reflexivity | discriminate].
      * cbn. rewrite He. discriminate.
      * intros _. split; [reflexivity|]. split; discriminate.
  - (* the watcher has closed *)
    rewrite H3, H2. cbn [andb].
    assert (Hq : firingOrder (timers (clearTimeout (watcherTimeout p) p)) /\
                 In f (timers (clearTimeout (watcherTimeout p) p)) /\
                 Forall (fun tm => task tm = ForceExitTimeout -> due tm = deadline)
                   (timers (clearTimeout (watcherTimeout p) p))).
    { destruct (watcherTimeout p) as [w|]; cbn; [|auto].
      split; [apply firingOrder_filter, H1|]. split; [|apply Forall_List_filter, Hall].
      apply filter_In. split; [exact Hf|]. apply negb_true_iff, Nat.eqb_neq.
      intros E. apply Hfw. rewrite E. reflexivity. }
    destruct Hq as (Q1 & Q2 & Q3).
    assert (Hfields : forall q, q = clearTimeout (watcherTimeout p) p ->
              exited q = None /\ wss q = wss p /\ webpackWatcher q = true /\
              shutdownInProgress q = true /\ serverClosed q = serverClosed p /\
              watcherTimeout q = watcherTimeout p).
    { intros q ->. destruct (watcherTimeout p) eqn:E; cbn; repeat split; auto. }
    destruct (Hfields _ eq_refl) as (F1 & F2 & F3 & F4 & F5 & F6).
    revert Q1 Q2 Q3 F1 F2 F3 F4 F5 F6.
    generalize (clearTimeout (watcherTimeout p) p). intros q Q1 Q2 Q3 F1 F2 F3 F4 F5 F6.
    unfold settle. cbn [serverClosed watcherClosed withShutdown]. rewrite andb_true_r.
    destruct (serverClosed q) eqn:Es.
    + split; [|split; [|split]].
      * destruct (forceExitTimeout q); unfold closing; cbn; rewrite ?F2;
          (split; [first [apply firingOrder_filter; exact Q1 | exact Q1] | auto 10]).
      * intros E. destruct (forceExitTimeout q); discriminate E.
      * destruct (forceExitTimeout q); cbn; discriminate.
      * destruct (forceExitTimeout q); cbn; discriminate.
    + split; [|split; [|split]].
      * unfold closing. cbn. rewrite F1, F2, F6.
        split; [exact Q1|]. split; [exact F3|]. split; [exact F4|]. split; [exact H4|].
        split; [eauto|]. split; [exact Q3|]. split; [reflexivity|].
        split; [|discriminate]. intros Hs. rewrite F5. auto.
      * intros _. cbn. split; [exact He|]. split; [|reflexivity].
        intros Hs. rewrite <- F5 in Hs. discriminate Hs.
      * cbn. rewrite F1. discriminate.
      * intros _. split; [discriminate|]. split; [reflexivity | discriminate].
Qed.

Lemma step_exited p i code : exited p = Some code -> step p i = p.
Proof. intros H. unfold step. rewrite H. reflexivity. Qed.

(** Every state the process reaches is one of the server at work or of a
    shutdown. *)
Lemma run_states server p inputs :
  serving server p \/ (exists deadline, closing server deadline p) ->
  serving server (run p inputs) \/ (exists deadline, closing server deadline (run p inputs)).
Proof.
  unfold run. revert p. induction inputs as [|i inputs IH]; intros p H; [exact H|].
  cbn [foldl]. apply IH. destruct H as [H|[deadline H]].
  - destruct (isSignal i) eqn:Ei; [|left; apply step_serving; assumption].
    destruct i; try discriminate Ei. right. exists (clock p + 3000).
    assert (He : exited p = None) by apply H. unfold step. rewrite He.
    apply shutdown_closing, H.
  - right. exists deadline. apply step_closing, H.
Qed.

Lemma run_closing server deadline p inputs :
  closing server deadline p -> closing server deadline (run p inputs).
Proof.
  unfold run. revert p. induction inputs as [|i inputs IH]; intros p H; [exact H|].
  cbn [foldl]. apply IH, step_closing, H.
Qed.

Lemma run_app p inputs more : run p (inputs ++ more) = run (run p inputs) more.
Proof. apply foldl_app. Qed.

(** The state before the first signal, and the state the signal leaves. *)
Lemma first_signal t0 server before :
  shutdownInProgress (run (started t0 server) before) = false ->
  serving server (run (started t0 server) before) /\
  closing server (clock (run (started t0 server) before) + 3000)
    (run (started t0 server) (before ++ [Signal])) /\
  exited (run (started t0 server) (before ++ [Signal])) = None /\
  serverClosed (run (started t0 server) (before ++ [Signal]))
    = match server with Some _ => false | None => true end.
Proof.
  intros Hs.
  destruct (run_states server (started t0 server) before) as [H|[deadline H]].
  { left. apply started_serving. }
  2:{ destruct H as (_ & _ & H & _). congruence. }
  split; [exact H|]. rewrite run_app.
  assert (He : exited (run (started t0 server) before) = None) by apply H.
  assert (E : run (run (started t0 server) before) [Signal]
              = shutdown (run (started t0 server) before)).
  { cbn [run foldl]. unfold step. fold (run (started t0 server) before).
    rewrite He. reflexivity. }
  rewrite E. clear E.
  destruct (shutdown_closing server _ H) as [Hc Hex].
  split; [exact Hc|]. split; [exact Hex|].
  destruct H as (_ & Hw & Hww & _ & _ & Hf & _).
  unfold shutdown. rewrite Hs, Hf.
  unfold settle, setTimeout, withClients, withShutdown, withTimers. cbn.
  rewrite Hww. cbn. rewrite andb_false_r. cbn. rewrite Hw.
  destruct server; reflexivity.
Qed.

(** X15.  A shutdown is bounded: once the time is 3000 ms after the
    first signal, the process has exited, with code 0 or with code 1,
    whatever happened in between (builds, further signals, the close
    callbacks or their absence). *)
Theorem shutdown_is_bounded t0 server before after t :
  shutdownInProgress (run (started t0 server) before) = false ->
  clock (run (started t0 server) before) + 3000 <= t ->
  exited (run (started t0 server) (before ++ Signal :: after ++ [Elapse t])) = Some 0 \/
  exited (run (started t0 server) (before ++ Signal :: after ++ [Elapse t])) = Some 1.
Proof.
  intros Hs Ht. destruct (first_signal t0 server before Hs) as (_ & Hc & _).
  change (Signal :: after ++ [Elapse t])%list with ([Signal] ++ (after ++ [Elapse t]))%list.
  rewrite app_assoc, run_app, run_app.
  apply (run_closing _ _ _ after) in Hc.
  destruct (step_closing _ _ _ (Elapse t) Hc) as (Hc' & _ & _ & Hnone).
  cbn [run foldl].
  destruct (exited (step _ (Elapse t))) as [code|] eqn:He.
  - destruct Hc' as (_ & _ & _ & _ & Hcode). rewrite He in Hcode.
    destruct Hcode as [-> | ->]; auto.
  - destruct (Hnone eq_refl) as (_ & _ & Hlt). destruct (Hlt t eq_refl) as [Hlt' _]. lia.
Qed.

(** A signal at 1000 with an open client, a build, and nothing else
    until 4000: the forced exit. *)
Lemma shutdown_is_bounded_witness :
  exited (run (started 1000 (Some Examples.twoClients))
            ([] ++ Signal ::
               [Built Examples.reloadOptions Examples.webpackEntries false
                  (Some (Examples.statsOf "/home/dev/my-extension/src/popup/index.tsx"))]
               ++ [Elapse 4000])) = Some 1.
Proof.
  destruct (shutdown_is_bounded 1000 (Some Examples.twoClients) []
              [Built Examples.reloadOptions Examples.webpackEntries false
                 (Some (Examples.statsOf "/home/dev/my-extension/src/popup/index.tsx"))]
              4000) as [H|H]; [reflexivity | cbn; lia | | exact H].
  vm_compute in H. discriminate H.
Defined.

(** The inputs of a shutdown up to the exit. *)
Lemma run_clean server deadline inputs p :
  closing server deadline p ->
  (exited p = Some 1 -> False) ->
  forallb (elapsesBefore deadline) inputs = true ->
  (exited p = None -> serverClosed p = true) \/ In ServerCloseCallback inputs ->
  (exited p = None -> watcherClosed p = true) \/ In WatcherCloseCallback inputs \/
    (exists t, In (Elapse t) inputs /\ deadline - 1000 <= t) ->
  exited (run p inputs) = Some 0.
Proof.
  unfold run. revert p. induction inputs as [|i inputs IH]; intros p Hc Hforced Hcalm Hs Hw.
  - cbn [foldl]. destruct Hs as [Hs|[]]. destruct Hw as [Hw|[[]|(t & [] & _)]].
    destruct Hc as (_ & _ & _ & _ & Hc). destruct (exited p) as [code|].
    + destruct Hc as [-> | ->]; [reflexivity | destruct (Hforced eq_refl)].
    + destruct Hc as (_ & _ & Hpending & _). rewrite Hs, Hw in Hpending by reflexivity.
      discriminate Hpending.
  - cbn [foldl forallb] in *. apply andb_true_iff in Hcalm as [Hi Hcalm].
    destruct (step_closing server deadline p i Hc) as (Hc' & Ha & Hf & Hnone).
    apply IH; [exact Hc' | | exact Hcalm | |].
    + intros E. destruct (Hf E) as [E'|E']; [auto | congruence].
    + destruct Hs as [Hs|[->|Hs]]; [left|left|right; exact Hs].
      * intros E. destruct (Ha E) as (E0 & S & _). auto.
      * intros E. apply (Hnone E). reflexivity.
    + destruct Hw as [Hw|[[->|Hw]|(t & [->|Ht] & Hle)]].
      * left. intros E. destruct (Ha E) as (E0 & _ & W). auto.
      * left. intros E. apply (Hnone E). reflexivity.
      * right. left. exact Hw.
      * left. intros E. destruct (Hnone E) as (_ & _ & Hel).
        destruct (Hel t eq_refl) as [_ Hwc]. auto.
      * right. right. exists t. auto.
Qed.

(** X16.  A clean shutdown: when, within 3000 ms of the first signal,
    the close callback of the WebSocket server has arrived (if there is
    a server), and the close callback of the watcher has arrived or
    2000 ms have passed, the process has exited with code 0. *)
Theorem shutdown_is_clean t0 server before after :
  shutdownInProgress (run (started t0 server) before) = false ->
  forallb (elapsesBefore (clock (run (started t0 server) before) + 3000)) after = true ->
  server = None \/ In ServerCloseCallback after ->
  In WatcherCloseCallback after \/
    (exists t, In (Elapse t) after /\ clock (run (started t0 server) before) + 2000 <= t) ->
  exited (run (started t0 server) (before ++ Signal :: after)) = Some 0.
Proof.
  intros Hs Hcalm Hserver Hwatcher.
  destruct (first_signal t0 server before Hs) as (_ & Hc & He & Hsc).
  change (Signal :: after)%list with ([Signal] ++ after)%list.
  rewrite app_assoc, run_app.
  apply (run_clean server _ after _ Hc); [congruence | exact Hcalm | |].
  - destruct Hserver as [->|Hserver]; [left; intros _; exact Hsc | right; exact Hserver].
  - right. destruct Hwatcher as [Hw|(t & Ht & Hle)]; [left; exact Hw|].
    right. exists t. split; [exact Ht | lia].
Qed.

(** Without server, the timeout of the watcher is enough; with a
    server, both callbacks. *)
Lemma shutdown_is_clean_witness :
  exited (run (started 1000 None) ([] ++ [Signal; Elapse 3000])) = Some 0 /\
  exited (run (started 1000 (Some Examples.twoClients))
            ([Elapse 1500] ++ [Signal; WatcherCloseCallback; Elapse 2000;
                               ServerCloseCallback])) = Some 0.
Proof.
  split.
  - apply (shutdown_is_clean 1000 None [] [Elapse 3000]);
      [reflexivity | reflexivity | left; reflexivity |].
    right. exists 3000. split; [left; reflexivity | cbn; lia].
  - apply (shutdown_is_clean 1000 (Some Examples.twoClients) [Elapse 1500]
             [WatcherCloseCallback; Elapse 2000; ServerCloseCallback]);
      [reflexivity | reflexivity | right; cbn; auto | left; cbn; auto].
Defined.

Lemma built_closing server deadline q options entries err stats :
  closing server deadline q -> step q (Built options entries err stats) = q.
Proof.
  intros Hq. unfold step. destruct (exited q) eqn:He; [reflexivity|].
  unfold onBuild. destruct err; [reflexivity|]. destruct stats as [stats'|]; [|reflexivity].
  destruct (hasErrors stats'); [reflexivity|]. destruct (reload options); [|reflexivity].
  unfold notifyClientsToReload. destruct (wss q) as [clients|] eqn:Ew; [|reflexivity].
  apply notify_closed. destruct Hq as (_ & _ & _ & Hq & _). apply Hq, Ew.
Qed.

(** X17.  After a signal the notifier reaches nobody: a build that
    completes once a signal has arrived leaves the process as it is, no
    message is sent and no timer is set. *)
Theorem builds_after_signal_notify_nobody t0 server before after options entries err stats :
  run (started t0 server) (before ++ Signal :: after ++ [Built options entries err stats])
  = run (started t0 server) (before ++ Signal :: after).
Proof.
  change (Signal :: after ++ [Built options entries err stats])%list
    with ((Signal :: after) ++ [Built options entries err stats])%list.
  rewrite app_assoc, (run_app _ (before ++ Signal :: after)).
  assert (Hq : exists deadline,
             closing server deadline (run (started t0 server) (before ++ Signal :: after))).
  { change (Signal :: after)%list with ([Signal] ++ after)%list.
    rewrite app_assoc, run_app, run_app.
    destruct (run_states server (started t0 server) before) as [H|[deadline H]].
    { left. apply started_serving. }
    - exists (clock (run (started t0 server) before) + 3000).
      apply run_closing. cbn [run foldl].
      assert (He : exited (run (started t0 server) before) = None) by apply H.
      unfold step. fold (run (started t0 server) before). rewrite He.
      apply shutdown_closing, H.
    - exists deadline. apply run_closing, run_closing, H. }
  destruct Hq as [deadline Hq]. apply (built_closing _ _ _ _ _ _ _ Hq).
Qed.

(** X18.  The server exits on a signal only: without signal among the
    inputs the process has not exited, no shutdown is in progress and
    the server is the one [dev] has set up. *)
Theorem exits_only_on_signal t0 server inputs :
  existsb isSignal inputs = false ->
  exited (run (started t0 server) inputs) = None /\
  shutdownInProgress (run (started t0 server) inputs) = false /\
  wss (run (started t0 server) inputs) = server.
Proof.
  intros H.
  assert (Hs : serving server (run (started t0 server) inputs)).
  { unfold run. generalize (started_serving t0 server). generalize (started t0 server).
    induction inputs as [|i inputs IH]; intros p Hp; [exact Hp|].
    cbn [existsb foldl] in *. apply orb_false_iff in H as [Hi H].
    apply (IH H), step_serving; assumption. }
  destruct Hs as (_ & Hw & _ & He & Hsh & _). auto.
Qed.

(** A build, the delayed message and both close callbacks, without
    signal. *)
Lemma exits_only_on_signal_witness :
  exited (run (started 1000 (Some Examples.twoClients))
            [Built Examples.reloadOptions Examples.webpackEntries false
               (Some (Examples.statsOf "/home/dev/my-extension/src/content/main.tsx"));
             Elapse 5000; ServerCloseCallback; WatcherCloseCallback]) = None.
Proof.
  apply (exits_only_on_signal 1000 (Some Examples.twoClients)). reflexivity.
Defined.


Lemma notify_untouched clients p :
  foldl (notifyClient false false false) p clients = p.
Proof.
  induction clients as [|c clients IH]; [reflexivity|].
  cbn [foldl]. unfold notifyClient at 2. destruct (isOpen (readyState c)); exact IH.
Qed.

(** X19.  The builds that notify nobody: the watch callback leaves
    the process as it is (no message, no timer) when the build failed
    ([err] is set, there are no statistics, or the statistics have
    errors), when reloading is switched off, when there is no WebSocket
    server, when no client of the server is open, and when no entry name
    occurs in the path of a file of the build. *)
Theorem quiet_builds options entries p :
  (forall stats, onBuild options entries true stats p = p) /\
  onBuild options entries false None p = p /\
  (forall stats, hasErrors stats = true ->
     onBuild options entries false (Some stats) p = p) /\
  (forall err stats, reload options = false -> onBuild options entries err stats p = p) /\
  (forall err stats, wss p = None -> onBuild options entries err stats p = p) /\
  (forall err stats clients, wss p = Some clients -> openClients clients = [] ->
     onBuild options entries err stats p = p) /\
  (forall err stats, touched entries (changedFilesOf stats) = false ->
     onBuild options entries err (Some stats) p = p).
Proof.
  split; [reflexivity|]. split; [reflexivity|].
  split; [intros stats H; unfold onBuild; rewrite H; reflexivity|].
  split; [|split; [|split]].
  - intros err stats H. unfold onBuild. rewrite H.
    destruct err; [reflexivity|]. destruct stats as [stats|]; [|reflexivity].
    destruct (hasErrors stats); reflexivity.
  - intros err stats H. unfold onBuild, notifyClientsToReload. rewrite H.
    destruct err; [reflexivity|]. destruct stats as [stats|]; [|reflexivity].
    destruct (hasErrors stats); [reflexivity|]. destruct (reload options); reflexivity.
  - intros err stats clients H Hclosed. unfold onBuild, notifyClientsToReload. rewrite H.
    destruct err; [reflexivity|]. destruct stats as [stats|]; [|reflexivity].
    destruct (hasErrors stats); [reflexivity|]. destruct (reload options); [|reflexivity].
    apply notify_closed, Hclosed.
  - intros err stats H. unfold touched in H.
    apply orb_false_iff in H as [[Hbg Hcs]%orb_false_iff Hpage].
    unfold onBuild, notifyClientsToReload. rewrite Hbg, Hcs, Hpage.
    destruct err; [reflexivity|]. destruct (hasErrors stats); [reflexivity|].
    destruct (reload options); [|reflexivity].
    destruct (wss p) as [clients|]; [apply notify_untouched | reflexivity].
Qed.

End DevExtras.

(** ** The archive *)

Section ZipExtras.
Import Zip.





End ZipExtras.

(** ** The [zip] command *)

Section CliExtras.
Import Cli.


Lemma toLowerChar_space c : isSpace (toLowerChar c) = isSpace c.
Proof. destruct c as [[] [] [] [] [] [] [] []]; reflexivity. Qed.






End CliExtras.

(** ** The configuration *)

Section ConfigExtras.
Import Config.

Lemma mergeConfig_JObj base override :
  exists merged, mergeConfig (JObj base) (JObj override) = JObj merged /\
                 forall key, merged !! key = mergedField base override key.
Proof.
  cbn [mergeConfig]. eexists. split; [reflexivity|].
  apply (map_fold_weak_ind
           (fun merged (o : gmap string json) =>
              forall key, merged !! key = mergedField base o key)).
  - intros key. unfold mergedField. rewrite lookup_empty.
    destruct (String.eqb key "plugins"); reflexivity.
  - intros i x m r Hi IH key. unfold mergedField in *.
    destruct (String.eqb_spec i "plugins") as [->|Hp].
    + rewrite IH. destruct (String.eqb_spec key "plugins") as [->|Hk]; [reflexivity|].
      rewrite lookup_insert_ne by congruence. reflexivity.
    + destruct (decide (key = i)) as [->|Hk].
      * rewrite lookup_insert_eq. apply String.eqb_neq in Hp. rewrite Hp.
        destruct (base !! i) as [baseValue|] eqn:Eb.
        -- destruct (isObject (Some baseValue) && isObject (Some x));
             apply lookup_insert_eq.
        -- apply lookup_insert_eq.
      * rewrite (lookup_insert_ne m) by congruence. rewrite <- IH.
        destruct (base !! i) as [baseValue|];
          [destruct (isObject (Some baseValue) && isObject (Some x))|];
          apply lookup_insert_ne; congruence.
Qed.


Lemma mergeConfig_lookup base override key :
  getPropOpt (Some (mergeConfig (JObj base) (JObj override))) key
  = mergedField base override key.
Proof.
  destruct (mergeConfig_JObj base override) as (merged & -> & H). apply H.
Qed.

(** X22.  The merge of two configurations, key by key: a key of the
    base that the override does not have is kept; a key of the override
    whose values are objects on both sides holds the merge of the two;
    every other key of the override holds the value of the override (an
    array replaces the array of the base); [plugins] is as in the base,
    whatever the override holds.  An empty override changes nothing. *)
Theorem mergeConfig_fields base override :
  let merged := Some (mergeConfig (JObj base) (JObj override)) in
  getPropOpt merged "plugins" = base !! "plugins" /\
  (forall key, key <> "plugins" -> override !! key = None ->
     getPropOpt merged key = base !! key) /\
  (forall key baseValue overrideValue, key <> "plugins" ->
     base !! key = Some (JObj baseValue) ->
     override !! key = Some (JObj overrideValue) ->
     getPropOpt merged key = Some (mergeConfig (JObj baseValue) (JObj overrideValue))) /\
  (forall key overrideValue, key <> "plugins" ->
     override !! key = Some overrideValue ->
     isObject (base !! key) && isObject (Some overrideValue) = false ->
     getPropOpt merged key = Some overrideValue) /\
  mergeConfig (JObj base) (JObj ∅) = JObj base.
Proof.
  cbv zeta. split; [|split; [|split; [|split]]].
  - rewrite mergeConfig_lookup. reflexivity.
  - intros key Hk Ho. rewrite mergeConfig_lookup. unfold mergedField.
    apply String.eqb_neq in Hk. rewrite Hk, Ho. reflexivity.
  - intros key baseValue overrideValue Hk Hb Ho. rewrite mergeConfig_lookup.
    unfold mergedField. apply String.eqb_neq in Hk. rewrite Hk, Ho, Hb. reflexivity.
  - intros key overrideValue Hk Ho Hobj. rewrite mergeConfig_lookup.
    unfold mergedField. apply String.eqb_neq in Hk. rewrite Hk, Ho, Hobj. reflexivity.
  - cbn [mergeConfig]. rewrite map_fold_empty. reflexivity.
Qed.

Lemma getPath_None path : getPath path None = None.
Proof. induction path as [|key path IH]; [reflexivity | exact IH]. Qed.

(** X23.  The plugins of the override are dropped at every level the
    merge reaches: where the base and the override hold objects all
    along a path, the [plugins] of the merged object at this path are
    those of the base.  With a base that has [build.rollupOptions], the
    Rollup plugins of a user configuration do not reach the result. *)
Theorem nested_plugins_are_dropped path base override :
  mergedAlong path (Some base) (Some override) = true ->
  getPath (path ++ ["plugins"]) (Some (mergeConfig base override))
  = getPath (path ++ ["plugins"]) (Some base).
Proof.
  revert base override. induction path as [|key path IH]; intros base override H;
    cbn [mergedAlong] in H; apply andb_true_iff in H as [[Hb Ho]%andb_true_iff H];
    destruct base as [| | | | |b]; try discriminate Hb;
    destruct override as [| | | | |o]; try discriminate Ho.
  - cbn [app getPath foldl]. rewrite mergeConfig_lookup. reflexivity.
  - cbn [app getPath foldl]. fold (getPath (path ++ ["plugins"])).
    rewrite mergeConfig_lookup. unfold mergedField. cbn [getPropOpt] in H |- *.
    destruct (String.eqb key "plugins"); [reflexivity|].
    destruct path as [|key' path']; cbn [mergedAlong] in H;
      apply andb_true_iff in H as [[Hb' Ho']%andb_true_iff H'];
      destruct (b !! key) as [[| | | | |bv]|]; try discriminate Hb';
      destruct (o !! key) as [[| | | | |ov]|]; try discriminate Ho';
      cbn [isObject andb]; apply IH; cbn [mergedAlong isObject andb]; try reflexivity.
    exact H'.
Qed.

(** The base configuration of [createViteConfig] and a user
    configuration with plugins of Rollup. *)
Lemma nested_plugins_are_dropped_witness :
  getPath ["build"; "rollupOptions"; "plugins"] (Some ConfigExamples.userConfig)
    = Some (JArr [JStr "visualizer"]) /\
  getPath (["build"; "rollupOptions"] ++ ["plugins"])
    (Some (createViteConfig MoreExamples.extensionProject false ConfigExamples.userConfig))
    = None /\
  getPath ["build"; "rollupOptions"; "external"]
    (Some (createViteConfig MoreExamples.extensionProject false ConfigExamples.userConfig))
    = Some (JArr [JStr "chrome"]).
Proof.
  split; [vm_compute; reflexivity|]. split; [|vm_compute; reflexivity].
  unfold createViteConfig.
  rewrite (nested_plugins_are_dropped ["build"; "rollupOptions"]
             (baseConfig MoreExamples.extensionProject false) ConfigExamples.userConfig);
    vm_compute; reflexivity.
Defined.







(** X25.  The configuration [defineConfig] returns has no plugins:
    the list it builds (the plugins of the package, those of its
    argument and those of the user's Vite configuration) is handed to
    [createViteConfig] under the key [plugins], which [mergeConfig]
    skips, and the base configuration has none.  [defineConfig] returns
    whenever the [plugins] of the user's Vite configuration are absent or
    an array. *)
Theorem defineConfig_returns_no_plugins fs isDevelopment config :
  (forall merged, defineConfig fs isDevelopment config = Ok merged ->
     getPropOpt (Some merged) "plugins" = None /\
     getPropOpt (Some merged) "root" =
       match default ∅ (vite config) !! "root" with
       | Some root => Some root
       | None => Some (JStr (cwd fs))
       end) /\
  ((forall v, default ∅ (vite config) !! "plugins" = Some v -> exists items, v = JArr items) ->
   exists merged, defineConfig fs isDevelopment config = Ok merged).
Proof.
  split.
  - intros merged H. unfold defineConfig in H. cbv zeta in H.
    apply bind_Ok in H as (vitePlugins & _ & H). injection H as <-.
    unfold createViteConfig, baseConfig. rewrite !mergeConfig_lookup. unfold mergedField.
    split; [reflexivity|]. cbn [String.eqb Ascii.eqb Bool.eqb].
    rewrite lookup_insert_ne by discriminate.
    destruct (default ∅ (vite config) !! "root") as [root|]; [|reflexivity].
    destruct root; reflexivity.
  - intros Hplugins. unfold defineConfig. cbv zeta.
    destruct (default ∅ (vite config) !! "plugins") as [v|] eqn:E.
    + destruct (Hplugins v eq_refl) as [items ->]. cbn [truthy iterate].
      rewrite bind_Ok_l. eauto.
    + rewrite bind_Ok_l. eauto.
Qed.

(** The configuration of a development build with hot reload, a plugin
    of the user and a plugin in the user's Vite configuration. *)
Lemma defineConfig_returns_no_plugins_witness :
  exists merged,
    defineConfig MoreExamples.extensionProject true ConfigExamples.extensionConfig
      = Ok merged /\
    getPropOpt (Some merged) "plugins" = None /\
    getPath ["server"; "port"] (Some merged) = Some (JNum 3000) /\
    getPath ["server"; "hmr"] (Some merged) = Some (JBool true).
Proof.
  destruct (defineConfig_returns_no_plugins MoreExamples.extensionProject true
              ConfigExamples.extensionConfig) as [Hnone Hsome].
  destruct Hsome as [merged E].
  { intros v Hv. vm_compute in Hv. injection Hv as <-. eauto. }
  exists merged. split; [exact E|]. split; [apply (Hnone merged E)|].
  vm_compute in E. injection E as <-. split; vm_compute; reflexivity.
Defined.


Lemma split_length_includes name :
  (1 <? length (Str.split "/" name))%nat = Str.includes name "/".
Proof.
  induction name as [|c name IH]; [reflexivity|].
  rewrite split_cons. cbn [Str.includes].
  unfold Str.startsWith. cbn [Str.stripPrefix].
  rewrite (Ascii.eqb_sym "/"%char c). destruct (Ascii.eqb c "/").
  - destruct (Str.split "/" name) eqn:E; [destruct (split_nonempty _ _ E) | reflexivity].
  - rewrite <- IH. destruct (Str.split "/" name) eqn:E; [destruct (split_nonempty _ _ E)|].
    reflexivity.
Qed.

(** X26.  The file name pattern of an asset: an asset whose name
    contains a slash keeps its folder ([[name].[ext]]), every other
    asset, one without name too, goes to [assets/]. *)
Theorem assetFileNames_folders :
  (forall name,
      assetFileNames (Some name)
      = if Str.includes name "/" then "[name].[ext]" else "assets/[name].[ext]") /\
  assetFileNames None = "assets/[name].[ext]".
Proof.
  split; [|reflexivity]. intros name. unfold assetFileNames.
  rewrite split_length_includes. reflexivity.
Qed.

End ConfigExtras.
